(** * Land classification dashboard: the AGB and land-cover routes

    A shallow embedding of the two API routes whose behaviour the
    specification pins down:

    - [src/app/api/agb/route.ts]: the above-ground-biomass pipeline
      ([findClosestDataWindow], [harmonizeResolution], [calculateAGB],
      [calculateImageStatistics], [calculateAGBForDate], [POST]);
    - the land-cover classification route ([processAreaStatistics], [POST]).

    Beside them: the per-scene functions of the AGB route ([maskS2Clouds],
    [computeSentinel2Indices], [computeSentinel1Indices]), the multi-sensor
    statistics route, the requests of the dashboard page
    ([src/app/page.tsx]), and the functions of [@/lib/earthEngine] the
    land-cover route imports.

    Conventions of the embedding.

    - JavaScript numbers are modelled as exact rationals ([Q]); equalities
      between numbers are stated with [==].  Rounding helpers ([toFixed],
      [Math_round], [Math_ceil]) are the exact-arithmetic versions of the
      JavaScript ones.
    - An Earth Engine image is a finite map from band names to rasters, a
      raster being a function from grid cells to an optional value ([None] is
      a masked pixel).  Expression graphs are evaluated eagerly; an error
      that Earth Engine would report at [evaluate] is an [Err] here.
    - The remote platform is a record of catalogues and reducers
      ([EarthEngine]); every function of the routes takes it as an argument.
    - Instants are milliseconds since the epoch, calendar dates are day
      numbers since the epoch (UTC).  The time zone of the server is part
      of the platform record of the AGB route: [setDate] works on the
      local calendar, [toISOString] on the UTC one. *)

From Stdlib Require Import ZArith QArith Qround Qminmax Lqa Lia List String.
From Stdlib Require Import Sorted Permutation.
From stdpp Require Import gmap strings pretty.

Open Scope Q_scope.

(** ** Errors and the result monad *)

(** The exceptions the routes can raise.  [NoSatelliteData m t] is
    [new Error(`No satellite data found within ${m} months of ${t}`)];
    [RemoteError] is an error reported by the platform;
    [InvalidMapUrl] is [new Error('Failed to get valid map URL')];
    [NoDynamicWorldData] is the land-cover route's own error;
    [TypeError] is the runtime's, for a property read on [null] or a call
    of [undefined];
    [LibraryError msg] is a [new Error(msg)] of [@/lib/earthEngine]. *)
Inductive error : Type :=
  | RemoteError (msg : string)
  | NoSatelliteData (maxMonthsSearch : Z) (targetDate : Z)
  | InvalidMapUrl
  | NoDynamicWorldData
  | TypeError (msg : string)
  | LibraryError (msg : string).

Inductive result (A : Type) : Type :=
  | Ok (a : A)
  | Err (e : error).
Arguments Ok {A} a.
Arguments Err {A} e.

#[global] Instance result_ret : MRet result := fun _ a => Ok a.

#[global] Instance result_bind : MBind result := fun _ _ k m =>
  match m with
  | Ok a => k a
  | Err e => Err e
  end.

#[global] Instance result_fmap : FMap result := fun _ _ f m =>
  match m with
  | Ok a => Ok (f a)
  | Err e => Err e
  end.

(** What a route answers: [NextResponse.json(body)] with status 200, or an
    error body with status 400 or 500. *)
Inductive response (B : Type) : Type :=
  | Http200 (body : B)
  | Http400 (message : string)
  | Http500 (e : error).
Arguments Http200 {B} body.
Arguments Http400 {B} message.
Arguments Http500 {B} e.

(** ** JavaScript helpers *)

Module Js.

(** A JSON value as the platform's [evaluate] hands it to a callback: a
    number or [null].  A key that is missing from an object reads as
    [undefined], which is [None] of a map lookup. *)
Inductive value : Type :=
  | VNull
  | VNum (q : Q).

(** [v || 0] for [v] read from an object: [undefined], [null] and the
    number zero are falsy. *)
Definition or_zero (v : option value) : Q :=
  match v with
  | Some (VNum q) => if Qeq_bool q 0 then 0 else q
  | Some VNull => 0
  | None => 0
  end.

(** [Math.round]: the nearest integer, ties towards plus infinity. *)
Definition Math_round (x : Q) : Z := Qfloor (x + (1 # 2)).

Definition Math_ceil (x : Q) : Z := Qceiling x.

Definition Math_floor (x : Q) : Z := Qfloor x.

Definition pow10 (digits : nat) : Q := inject_Z (10 ^ Z.of_nat digits).

(** [parseFloat(x.toFixed(digits))]: [x] rounded to [digits] decimals, ties
    away from zero. *)
Definition toFixed (digits : nat) (x : Q) : Q :=
  if Qle_bool 0 x
  then inject_Z (Qfloor (x * pow10 digits + (1 # 2))) / pow10 digits
  else - (inject_Z (Qfloor (- x * pow10 digits + (1 # 2))) / pow10 digits).

(** [x || 0] for a number. *)
Definition num_or_zero (x : Q) : Q := if Qeq_bool x 0 then 0 else x.

(** [a || b] for optional strings. *)
Definition or_string (a : option string) (b : string) : string :=
  match a with
  | Some s => if String.eqb s "" then b else s
  | None => b
  end.

(** [a > b] and [a < b] on numbers. *)
Definition gt (a b : Q) : bool := negb (Qle_bool a b).
Definition lt (a b : Q) : bool := negb (Qle_bool b a).

(** [s.includes(sub)]. *)
Fixpoint includes (sub s : string) : bool :=
  String.prefix sub s ||
  match s with
  | EmptyString => false
  | String _ s' => includes sub s'
  end.

(** [s.replace(/\/$/, '')]: drop one trailing slash. *)
Fixpoint strip_trailing_slash (s : string) : string :=
  match s with
  | EmptyString => EmptyString
  | String c s' =>
      if String.eqb s "/" then EmptyString else String c (strip_trailing_slash s')
  end.

(** [Array.prototype.sort(cmp)]: a stable sort, [a] is placed after [b]
    when [cmp a b > 0].  The engine's algorithm is another one; for a
    comparator that orders by a key its result is this list. *)
Fixpoint sort_insert {A : Type} (cmp : A -> A -> Q) (x : A) (l : list A)
  : list A :=
  match l with
  | [] => [x]
  | y :: l' => if gt (cmp x y) 0 then y :: sort_insert cmp x l' else x :: l
  end.

Definition sort {A : Type} (cmp : A -> A -> Q) (l : list A) : list A :=
  foldr (sort_insert cmp) [] l.

(** Truthiness of an optional string: [undefined] and [""] are falsy. *)
Definition truthy_string (s : option string) : bool :=
  match s with
  | Some s => negb (String.eqb s "")
  | None => false
  end.

(** *** Dates *)

Definition msPerDay : Z := 86400000%Z.

(** The time zone of the runtime.  [LocalTZA tz t isUTC] is the offset of
    local time from UTC, in milliseconds: at the instant [t] when [isUTC]
    is true, at the local time value [t] when it is false. *)
Record timezone : Type := { LocalTZA : Z -> bool -> Z }.

Definition LocalTime (tz : timezone) (t : Z) : Z := (t + LocalTZA tz t true)%Z.

Definition UTC (tz : timezone) (t : Z) : Z := (t - LocalTZA tz t false)%Z.

(** [d.setDate(d.getDate() + days)] on a date whose time value is [t]:
    the day of the month is read and written on the local calendar, the
    local time of day is kept, and the new local time is converted back. *)
Definition setDate_plus (tz : timezone) (t days : Z) : Z :=
  UTC tz (LocalTime tz t + days * msPerDay)%Z.

(** [d.toISOString().split('T')[0]] on a date whose time value is [t]: the
    calendar day in UTC, as a day number since the epoch. *)
Definition toISOString_date (t : Z) : Z := (t / msPerDay)%Z.

(** A runtime whose local time is UTC. *)
Definition utc_zone : timezone := {| LocalTZA := fun _ _ => 0%Z |}.

End Js.

(** ** The Earth Engine data model *)

Module EE.

(** A grid cell of the common 10 m grid. *)
Definition pixel : Type := (Z * Z)%type.

(** One band: a value per cell, [None] where the pixel is masked. *)
Definition raster : Type := pixel -> option Q.

(** An image: its bands by name. *)
Abbreviation image := (gmap string raster).

(** A GeoJSON polygon, as the drawing tool sends it. *)
Record geometry : Type := { coordinates : list (list (Q * Q)) }.

(** A collection whose evaluation may fail on the platform. *)
Definition collection (A : Type) : Type := result (list A).

Definition filter_collection {A : Type} (f : A -> bool) (c : collection A)
  : collection A :=
  l ← c; Ok (List.filter f l).

(** [c.size().evaluate(...)] *)
Definition size_evaluate {A : Type} (c : collection A) : result Z :=
  l ← c; Ok (Z.of_nat (List.length l)).

Definition ms_per_day : Z := (1000 * 60 * 60 * 24)%Z.

(** [filterDate(start, end)] with calendar dates: acquisition instants in
    [start 00:00, end 00:00). *)
Definition in_date_range (startDay endDay time : Z) : bool :=
  ((startDay * ms_per_day <=? time) && (time <? endDay * ms_per_day))%Z.

(** [image.select(names)]: the named bands, an error when one is missing. *)
Fixpoint select (img : image) (names : list string) : result image :=
  match names with
  | [] => Ok ∅
  | n :: names' =>
      match img !! n with
      | Some r => rest ← select img names'; Ok (<[n := r]> rest)
      | None => Err (RemoteError ("Image.select: no band named " +:+ n))
      end
  end.

(** [image.select(name)] for one band. *)
Definition select_band (img : image) (name : string) : result raster :=
  match img !! name with
  | Some r => Ok r
  | None => Err (RemoteError ("Image.select: no band named " +:+ name))
  end.

(** [a.addBands(b)]: the bands of [a] followed by those of [b]; a band
    of [a] is never overwritten. *)
Definition addBands (a b : image) : image := a ∪ b.

(** [band.rename(name)] for a single-band image. *)
Definition rename (name : string) (r : raster) : image := {[ name := r ]}.

Definition clamp_value (lo hi x : Q) : Q := Qmax lo (Qmin hi x).

(** [image.clamp(lo, hi)], band by band and pixel by pixel. *)
Definition clamp (lo hi : Q) (img : image) : image :=
  (fun (r : raster) (p : pixel) => clamp_value lo hi <$> r p) <$> img.

(** The arithmetic expressions the routes hand to [image.expression], in
    parsed form. *)
Inductive expr : Type :=
  | EVar (x : string)
  | EAdd (a b : expr)
  | EMul (a b : expr).

(** What a name of an expression is bound to: a number or a band. *)
Inductive operand : Type :=
  | Const (c : Q)
  | Band (r : raster).

Definition lift2 (f : Q -> Q -> Q) (a b : raster) : raster :=
  fun p =>
    match a p, b p with
    | Some x, Some y => Some (f x y)
    | _, _ => None
    end.

(** [image.expression(e, env)]: pixel-wise evaluation; a pixel masked in
    any operand is masked in the result. *)
Fixpoint expression (e : expr) (env : gmap string operand) : result raster :=
  match e with
  | EVar x =>
      match env !! x with
      | Some (Const c) => Ok (fun _ => Some c)
      | Some (Band r) => Ok r
      | None => Err (RemoteError ("Image.expression: unbound name " +:+ x))
      end
  | EAdd a b =>
      ra ← expression a env; rb ← expression b env; Ok (lift2 Qplus ra rb)
  | EMul a b =>
      ra ← expression a env; rb ← expression b env; Ok (lift2 Qmult ra rb)
  end.

(** *** Region reducers *)

Definition sum_values (l : list Q) : Q := foldr Qplus 0 l.

Definition Reducer_mean (l : list Q) : option Q :=
  match l with
  | [] => None
  | _ => Some (sum_values l / inject_Z (Z.of_nat (List.length l)))
  end.

Definition Reducer_min (l : list Q) : option Q :=
  match l with
  | [] => None
  | x :: l' => Some (foldr Qmin x l')
  end.

Definition Reducer_max (l : list Q) : option Q :=
  match l with
  | [] => None
  | x :: l' => Some (foldr Qmax x l')
  end.

(** The unmasked values of a band over the cells of a region. *)
Definition region_values (r : raster) (cells : list pixel) : list Q :=
  omap r cells.

Declare Scope expr_scope.
Delimit Scope expr_scope with expr.
Bind Scope expr_scope with expr.
Coercion EVar : string >-> expr.
Notation "a + b" := (EAdd a b) : expr_scope.
Notation "a * b" := (EMul a b) : expr_scope.

Definition to_value (o : option Q) : Js.value :=
  match o with
  | Some q => Js.VNum q
  | None => Js.VNull
  end.

End EE.

(** ** The AGB route: [src/app/api/agb/route.ts] *)

Module Agb.
Import EE.

(** *** The remote platform, as the route sees it *)

(** A Sentinel-2 scene of the catalogue. *)
Record s2_scene : Type := {
  s2_time : Z;
  CLOUDY_PIXEL_PERCENTAGE : Q;
}.

(** A Sentinel-1 scene of the catalogue. *)
Record s1_scene : Type := {
  s1_time : Z;
  transmitterReceiverPolarisation : list string;
  instrumentMode : string;
  orbitProperties_pass : string;
}.

(** A GEDI footprint of the monthly tables. *)
Record gedi_shot : Type := {
  gedi_time : Z;
  quality_flag : Q;
  degrade_flag : Q;
  rh98 : Q;
}.

Record vis_params : Type := {
  vis_min : Q;
  vis_max : Q;
  palette : list string;
}.

(** What [image.getMap] hands to its callback. *)
Record map_id : Type := {
  urlFormat : option string;
  url : option string;
}.

(** The platform: catalogues restricted to a polygon ([filterBounds]),
    the compositing and reducing it performs, and the session state.
    [s2_composite g scenes] is the evaluation of
    [scenes.map(maskS2Clouds).map(computeSentinel2Indices).median().clip(g)],
    [s1_composite] and [gedi_raster] likewise for the other two sensors;
    [resample] is [resample('bilinear').reproject(...)];
    [region g] lists the cells a reduction over [g] visits.  The platform
    answers the same request the same way each time it is asked.
    [timezone] is the time zone of the server the route runs on. *)
Record EarthEngine : Type := {
  ensureInitialized : result unit;
  S2_SR_HARMONIZED : geometry -> collection s2_scene;
  S1_GRD : geometry -> collection s1_scene;
  GEDI02_A_002_MONTHLY : geometry -> collection gedi_shot;
  s2_composite : geometry -> list s2_scene -> image;
  s1_composite : geometry -> list s1_scene -> image;
  gedi_raster : geometry -> list gedi_shot -> raster;
  resample : Q -> raster -> raster;
  region : geometry -> list pixel;
  Reducer_stdDev : list Q -> option Q;
  polygon_area : geometry -> result Q;
  getMap : image -> vis_params -> result (option map_id);
  timezone : Js.timezone;
}.

(** *** Constants *)

Record coefficients : Type := {
  intercept : Q;
  ndvi : Q;
  evi : Q;
  vh : Q;
  rvi : Q;
  canopyHeight : Q;
}.

Definition REGRESSION_COEFFICIENTS : coefficients := {|
  intercept := -150;
  ndvi := 200;
  evi := 150;
  vh := -20;
  rvi := 50;
  canopyHeight := 15;
|}.

(** *** Results *)

Record band_stats : Type := {
  mean : Q;
  min : Q;
  max : Q;
  stdDev : Q;
}.

(** The [{ mean, min, max }] triples of [inputMetrics]. *)
Record metric : Type := {
  metric_mean : Q;
  metric_min : Q;
  metric_max : Q;
}.

Record input_metrics : Type := {
  im_ndvi : metric;
  im_evi : metric;
  im_lai : metric;
  im_vh : metric;
  im_vv : metric;
  im_rvi : metric;
  im_canopyHeight : option metric;
}.

Record data_quality : Type := {
  sentinel2Images : Z;
  sentinel1Images : Z;
  gediFootprints : Z;
  temporalRange : Z * Z;
}.

Record AGBResult : Type := {
  meanAGB : Q;
  minAGB : Q;
  maxAGB : Q;
  stdDevAGB : Q;
  totalBiomass : Q;
  areaHa : Q;
  agbRasterUrl : string;
  inputMetrics : input_metrics;
  dataQuality : data_quality;
  warnings : list string;
  actualDateRange : Z * Z;
}.

Record data_window : Type := {
  startDate : Z;
  endDate : Z;
  monthsUsed : Z;
}.

(** *** Composites *)

Definition getSentinel2Composite (ee : EarthEngine) (g : geometry)
    (startDate endDate : Z) : result (result image * collection s2_scene) :=
  _ ← ensureInitialized ee;
  let s2Collection :=
    filter_collection (fun s => Js.lt (CLOUDY_PIXEL_PERCENTAGE s) 30)
      (filter_collection (fun s => in_date_range startDate endDate (s2_time s))
         (S2_SR_HARMONIZED ee g)) in
  let composite := scenes ← s2Collection; Ok (s2_composite ee g scenes) in
  Ok (composite, s2Collection).

Definition listContains (x : string) (l : list string) : bool :=
  existsb (String.eqb x) l.

Definition getSentinel1Composite (ee : EarthEngine) (g : geometry)
    (startDate endDate : Z) : result (result image * collection s1_scene) :=
  _ ← ensureInitialized ee;
  let s1Collection :=
    filter_collection (fun s => String.eqb (orbitProperties_pass s) "DESCENDING")
      (filter_collection (fun s => String.eqb (instrumentMode s) "IW")
         (filter_collection
            (fun s => listContains "VH" (transmitterReceiverPolarisation s))
            (filter_collection
               (fun s => listContains "VV" (transmitterReceiverPolarisation s))
               (filter_collection
                  (fun s => in_date_range startDate endDate (s1_time s))
                  (S1_GRD ee g))))) in
  let composite := scenes ← s1Collection; Ok (s1_composite ee g scenes) in
  Ok (composite, s1Collection).

Definition getGEDICanopyHeight (ee : EarthEngine) (g : geometry)
    (startDate endDate : Z) : result (result image * collection gedi_shot) :=
  _ ← ensureInitialized ee;
  let gediCollection :=
    filter_collection (fun s => Js.gt (degrade_flag s) 0)
      (filter_collection (fun s => Js.gt (quality_flag s) 0)
         (filter_collection
            (fun s => in_date_range startDate endDate (gedi_time s))
            (GEDI02_A_002_MONTHLY ee g))) in
  let canopyHeightImage :=
    shots ← gediCollection; Ok (rename "CanopyHeight" (gedi_raster ee g shots)) in
  Ok (canopyHeightImage, gediCollection).

(** *** Harmonization *)

Definition resample_reproject (ee : EarthEngine) (scale : Q) (img : image)
  : image :=
  resample ee scale <$> img.

(** [gediImage] is [None] for [null]; the images are expression graphs
    that may still fail when evaluated. *)
Definition harmonizeResolution (ee : EarthEngine)
    (s2Image s1Image : result image) (gediImage : option (result image))
    (targetResolution : Q) (hasCanopyHeight : bool) : result image :=
  let s1Resampled := resample_reproject ee targetResolution <$> s1Image in
  s2 ← s2Image;
  s2Bands ← select s2 ["NDVI"; "EVI"; "LAI"];
  s1 ← s1Resampled;
  s1Bands ← select s1 ["VV"; "VH"; "RVI"];
  let combined := addBands s2Bands s1Bands in
  match hasCanopyHeight, gediImage with
  | true, Some gediImage =>
      let gediResampled := resample_reproject ee targetResolution <$> gediImage in
      gedi ← gediResampled;
      ch ← select gedi ["CanopyHeight"];
      Ok (addBands combined ch)
  | _, _ => Ok combined
  end.

(** *** Regression *)

(** ['intercept + (ndvi_coef * NDVI) + (evi_coef * EVI) + (vh_coef * VH)
     + (rvi_coef * RVI) + (ch_coef * CanopyHeight)'] *)
Definition full_model : expr :=
  ("intercept" + ("ndvi_coef" * "NDVI") + ("evi_coef" * "EVI")
   + ("vh_coef" * "VH") + ("rvi_coef" * "RVI")
   + ("ch_coef" * "CanopyHeight"))%expr.

(** ['intercept + (ndvi_coef * NDVI) + (evi_coef * EVI) + (vh_coef * VH)
     + (rvi_coef * RVI)'] *)
Definition reduced_model : expr :=
  ("intercept" + ("ndvi_coef" * "NDVI") + ("evi_coef" * "EVI")
   + ("vh_coef" * "VH") + ("rvi_coef" * "RVI"))%expr.

(** The value of the local [agb] of [calculateAGB], before it is renamed
    and clamped. *)
Definition regression (harmonizedImage : image) (hasCanopyHeight : bool)
  : result raster :=
  let c := REGRESSION_COEFFICIENTS in
  if hasCanopyHeight then
    NDVI ← select_band harmonizedImage "NDVI";
    EVI ← select_band harmonizedImage "EVI";
    VH ← select_band harmonizedImage "VH";
    RVI ← select_band harmonizedImage "RVI";
    CanopyHeight ← select_band harmonizedImage "CanopyHeight";
    expression full_model
      (list_to_map
         [("intercept", Const (intercept c));
          ("ndvi_coef", Const (ndvi c));
          ("evi_coef", Const (evi c));
          ("vh_coef", Const (vh c));
          ("rvi_coef", Const (rvi c));
          ("ch_coef", Const (canopyHeight c));
          ("NDVI", Band NDVI);
          ("EVI", Band EVI);
          ("VH", Band VH);
          ("RVI", Band RVI);
          ("CanopyHeight", Band CanopyHeight)])
  else
    NDVI ← select_band harmonizedImage "NDVI";
    EVI ← select_band harmonizedImage "EVI";
    VH ← select_band harmonizedImage "VH";
    RVI ← select_band harmonizedImage "RVI";
    expression reduced_model
      (list_to_map
         [("intercept", Const (intercept c));
          ("ndvi_coef", Const (ndvi c));
          ("evi_coef", Const (evi c));
          ("vh_coef", Const (vh c));
          ("rvi_coef", Const (rvi c));
          ("NDVI", Band NDVI);
          ("EVI", Band EVI);
          ("VH", Band VH);
          ("RVI", Band RVI)]).

Definition calculateAGB (harmonizedImage : image) (hasCanopyHeight : bool)
  : result image :=
  agb ← regression harmonizedImage hasCanopyHeight;
  Ok (clamp 0 500 (rename "AGB" agb)).

(** *** Statistics *)

(** [image.select(bandName).reduceRegion({reducer: mean + minMax + stdDev,
    geometry, scale: 10, ...})], evaluated: a dictionary with one entry
    per reducer output, [null] where no unmasked pixel contributes. *)
Definition reduceRegion (ee : EarthEngine) (img : image) (bandName : string)
    (g : geometry) : result (gmap string Js.value) :=
  band ← select_band img bandName;
  let values := region_values band (region ee g) in
  Ok (list_to_map
        [(bandName +:+ "_mean", to_value (Reducer_mean values));
         (bandName +:+ "_min", to_value (Reducer_min values));
         (bandName +:+ "_max", to_value (Reducer_max values));
         (bandName +:+ "_stdDev", to_value (Reducer_stdDev ee values))]).

Definition calculateImageStatistics (ee : EarthEngine) (img : result image)
    (bandName : string) (g : geometry) : result band_stats :=
  _ ← ensureInitialized ee;
  i ← img;
  result ← reduceRegion ee i bandName g;
  Ok {| mean := Js.or_zero (result !! (bandName +:+ "_mean"));
        min := Js.or_zero (result !! (bandName +:+ "_min"));
        max := Js.or_zero (result !! (bandName +:+ "_max"));
        stdDev := Js.or_zero (result !! (bandName +:+ "_stdDev")) |}.

Definition getVisualizationUrl (ee : EarthEngine) (img : result image)
    (visParams : vis_params) : result string :=
  _ ← ensureInitialized ee;
  i ← img;
  mapId ← getMap ee i visParams;
  match mapId with
  | None => Err InvalidMapUrl
  | Some mapId =>
      let url := Js.or_string (urlFormat mapId) (Js.or_string (url mapId) "") in
      Ok (if Js.includes "{z}" url then url
          else Js.strip_trailing_slash url +:+ "/{z}/{x}/{y}")
  end.

(** *** Adaptive window search *)

(** One edge of a window, [days] days from the target:
    [[
      const d = new Date(target);
      d.setDate(d.getDate() + days);
      d.toISOString().split('T')[0]
    ]]
    The day is moved on the server's local calendar and read back on the
    UTC one. *)
Definition window_edge (ee : EarthEngine) (target days : Z) : Z :=
  Js.toISOString_date (Js.setDate_plus (timezone ee) target days).

(** The collection [s2Test] of one iteration: the optical scenes over the
    polygon, in the window, under the cloud-cover threshold. *)
Definition s2Test (ee : EarthEngine) (g : geometry) (startStr endStr : Z)
  : collection s2_scene :=
  filter_collection (fun s => Js.lt (CLOUDY_PIXEL_PERCENTAGE s) 30)
    (filter_collection (fun s => in_date_range startStr endStr (s2_time s))
       (S2_SR_HARMONIZED ee g)).

(** The [for] loop of [findClosestDataWindow], from [weeksWindow] on, with
    [remaining] iterations left; the [throw] follows the last one. *)
Fixpoint search_windows (ee : EarthEngine) (g : geometry)
    (targetDate maxMonthsSearch : Z) (remaining : nat) (weeksWindow : Z)
  : result data_window :=
  match remaining with
  | O => Err (NoSatelliteData maxMonthsSearch targetDate)
  | S remaining' =>
      let startStr := window_edge ee targetDate (- (weeksWindow * 7))%Z in
      let endStr := window_edge ee targetDate (weeksWindow * 7)%Z in
      size ← size_evaluate (s2Test ee g startStr endStr);
      if (0 <? size)%Z then
        Ok {| startDate := startStr;
              endDate := endStr;
              monthsUsed := Js.Math_ceil (inject_Z weeksWindow / 4) |}
      else
        search_windows ee g targetDate maxMonthsSearch remaining'
          (weeksWindow + 1)
  end.

(** [for (let weeksWindow = 1; weeksWindow <= maxMonthsSearch * 4; ...)] *)
Definition findClosestDataWindow (ee : EarthEngine) (g : geometry)
    (targetDate maxMonthsSearch : Z) : result data_window :=
  search_windows ee g targetDate maxMonthsSearch
    (Z.to_nat (maxMonthsSearch * 4)) 1.

(** *** One date *)

Definition warning_no_gedi : string :=
  "No GEDI canopy height data available for this location and time period. AGB calculated without canopy height component.".

Definition warning_gedi_failed : string :=
  "GEDI canopy height data unavailable. AGB calculated without canopy height component.".

(** The locals of step 3 once its [try]/[catch] is over. *)
Record gedi_check : Type := {
  gediHeight : option (result image);
  gediCollection : option (collection gedi_shot);
  hasCanopyHeight : bool;
  gedi_warnings : list string;
}.

Definition checkGEDI (ee : EarthEngine) (g : geometry) (startDate endDate : Z)
  : gedi_check :=
  match getGEDICanopyHeight ee g startDate endDate with
  | Err _ =>
      {| gediHeight := None; gediCollection := None;
         hasCanopyHeight := false; gedi_warnings := [warning_gedi_failed] |}
  | Ok (height, shots) =>
      match size_evaluate shots with
      | Err _ =>
          {| gediHeight := Some height; gediCollection := Some shots;
             hasCanopyHeight := false; gedi_warnings := [warning_gedi_failed] |}
      | Ok gediSize =>
          if (gediSize =? 0)%Z then
            {| gediHeight := Some height; gediCollection := Some shots;
               hasCanopyHeight := false; gedi_warnings := [warning_no_gedi] |}
          else
            {| gediHeight := Some height; gediCollection := Some shots;
               hasCanopyHeight := true; gedi_warnings := [] |}
      end
  end.

(** The locals of [calculateAGBForDate] after step 5: the window, the
    collections, the outcome of the GEDI check and the two expression
    graphs. *)
Record layers : Type := {
  window : data_window;
  s2Collection : collection s2_scene;
  s1Collection : collection s1_scene;
  gedi : gedi_check;
  harmonizedImage : result image;
  agbImage : result image;
}.

Definition buildLayers (ee : EarthEngine) (g : geometry) (targetDate : Z)
  : result layers :=
  w ← findClosestDataWindow ee g targetDate 3;
  '(s2Composite, s2Coll) ← getSentinel2Composite ee g (startDate w) (endDate w);
  '(s1Composite, s1Coll) ← getSentinel1Composite ee g (startDate w) (endDate w);
  let gd := checkGEDI ee g (startDate w) (endDate w) in
  let harmonized :=
    harmonizeResolution ee s2Composite s1Composite (gediHeight gd) 10
      (hasCanopyHeight gd) in
  let agb := h ← harmonized; calculateAGB h (hasCanopyHeight gd) in
  Ok {| window := w; s2Collection := s2Coll; s1Collection := s1Coll;
        gedi := gd; harmonizedImage := harmonized; agbImage := agb |}.

Definition to_metric (digits : nat) (s : band_stats) : metric :=
  {| metric_mean := Js.toFixed digits (mean s);
     metric_min := Js.toFixed digits (min s);
     metric_max := Js.toFixed digits (max s) |}.

Definition agb_vis_params : vis_params :=
  {| vis_min := 0; vis_max := 300; palette := ["yellow"; "green"; "darkgreen"] |}.

(** Steps 6 and later.  The requests of a [Promise.all] are made one after
    the other here; when several fail, which error is reported is the only
    thing that depends on it. *)
Definition calculateAGBForDate (ee : EarthEngine) (g : geometry)
    (targetDate : Z)
  : result AGBResult :=
  L ← buildLayers ee g targetDate;
  let hasCH := hasCanopyHeight (gedi L) in
  area ← (a ← polygon_area ee g; Ok (a / 10000));
  agbStats ← calculateImageStatistics ee (agbImage L) "AGB" g;
  ndviStats ← calculateImageStatistics ee (harmonizedImage L) "NDVI" g;
  eviStats ← calculateImageStatistics ee (harmonizedImage L) "EVI" g;
  laiStats ← calculateImageStatistics ee (harmonizedImage L) "LAI" g;
  vhStats ← calculateImageStatistics ee (harmonizedImage L) "VH" g;
  vvStats ← calculateImageStatistics ee (harmonizedImage L) "VV" g;
  rviStats ← calculateImageStatistics ee (harmonizedImage L) "RVI" g;
  chStats ←
    (if hasCH
     then Some <$> calculateImageStatistics ee (harmonizedImage L) "CanopyHeight" g
     else Ok None);
  s2Count ← size_evaluate (s2Collection L);
  s1Count ← size_evaluate (s1Collection L);
  gediCount ←
    match hasCH, gediCollection (gedi L) with
    | true, Some shots => size_evaluate shots
    | _, _ => Ok 0%Z
    end;
  agbUrl ← getVisualizationUrl ee (agbImage L) agb_vis_params;
  let totalBiomass := mean agbStats * area in
  Ok {| meanAGB := Js.toFixed 2 (mean agbStats);
        minAGB := Js.toFixed 2 (min agbStats);
        maxAGB := Js.toFixed 2 (max agbStats);
        stdDevAGB := Js.toFixed 2 (Js.num_or_zero (stdDev agbStats));
        totalBiomass := Js.toFixed 2 totalBiomass;
        areaHa := Js.toFixed 2 area;
        agbRasterUrl := agbUrl;
        inputMetrics :=
          {| im_ndvi := to_metric 3 ndviStats;
             im_evi := to_metric 3 eviStats;
             im_lai := to_metric 2 laiStats;
             im_vh := to_metric 2 vhStats;
             im_vv := to_metric 2 vvStats;
             im_rvi := to_metric 3 rviStats;
             im_canopyHeight := to_metric 2 <$> chStats |};
        dataQuality :=
          {| sentinel2Images := s2Count;
             sentinel1Images := s1Count;
             gediFootprints := gediCount;
             temporalRange := (startDate (window L), endDate (window L)) |};
        warnings := gedi_warnings (gedi L);
        actualDateRange := (startDate (window L), endDate (window L)) |}.

(** *** The route *)

(** The request body; [None] is a missing (or empty) field.  The two
    dates are the instants their strings denote. *)
Record request : Type := {
  req_geometry : option geometry;
  req_startDate : option Z;
  req_endDate : option Z;
}.

(** The locals of the change analysis of [POST]. *)
Record change : Type := {
  agbChange : Q;
  agbChangePercent : Q;
  biomassDifference : Q;
  daysDifference : Z;
  yearsDifference : Q;
  annualAGBChange : Q;
}.

Definition analyseChange (startAGB endAGB : AGBResult) (start end_ : Z)
  : change :=
  let agbChange := meanAGB endAGB - meanAGB startAGB in
  let agbChangePercent :=
    if Js.gt (meanAGB startAGB) 0
    then (agbChange / meanAGB startAGB) * 100
    else 0 in
  let biomassDifference := totalBiomass endAGB - totalBiomass startAGB in
  let daysDifference :=
    Js.Math_floor (inject_Z (end_ - start) / inject_Z ms_per_day) in
  let yearsDifference := inject_Z daysDifference / (36525 # 100) in
  let annualAGBChange :=
    if Js.gt yearsDifference 0 then agbChange / yearsDifference else 0 in
  {| agbChange := agbChange;
     agbChangePercent := agbChangePercent;
     biomassDifference := biomassDifference;
     daysDifference := daysDifference;
     yearsDifference := yearsDifference;
     annualAGBChange := annualAGBChange |}.

Record agb_change : Type := {
  meanAGBChange : Q;
  percentChange : Q;
  totalBiomassChange : Q;
  annualChange : Q;
  status : string;
  interpretation : string;
}.

Record time_period : Type := {
  tp_startDate : Z;
  tp_endDate : Z;
  durationDays : Z;
  durationYears : Q;
}.

Record regression_model : Type := {
  equation : string;
  model_coefficients : coefficients;
  unit_ : string;
}.

Record body : Type := {
  body_startDate : Z * AGBResult;
  body_endDate : Z * AGBResult;
  body_agbChange : agb_change;
  timePeriod : time_period;
  regressionModel : regression_model;
}.

Definition report (c : change) : agb_change :=
  {| meanAGBChange := Js.toFixed 2 (agbChange c);
     percentChange := Js.toFixed 2 (agbChangePercent c);
     totalBiomassChange := Js.toFixed 2 (biomassDifference c);
     annualChange := Js.toFixed 2 (annualAGBChange c);
     status :=
       if Js.gt (agbChange c) 0 then "Increase"
       else if Js.lt (agbChange c) 0 then "Decrease"
       else "No Change";
     interpretation :=
       if Js.gt (agbChange c) 0
       then "Forest biomass has increased, indicating growth or afforestation"
       else if Js.lt (agbChange c) 0
       then "Forest biomass has decreased, indicating degradation or deforestation"
       else "No significant change in forest biomass" |}.

(** The two dates are computed one after the other; when both fail the
    start date's error is the one reported here. *)
Definition POST (ee : EarthEngine) (req : request) : response body :=
  match req_geometry req, req_startDate req, req_endDate req with
  | Some g, Some start, Some end_ =>
      match calculateAGBForDate ee g start with
      | Err e => Http500 e
      | Ok startAGB =>
          match calculateAGBForDate ee g end_ with
          | Err e => Http500 e
          | Ok endAGB =>
              let c := analyseChange startAGB endAGB start end_ in
              Http200
                {| body_startDate := (start, startAGB);
                   body_endDate := (end_, endAGB);
                   body_agbChange := report c;
                   timePeriod :=
                     {| tp_startDate := start;
                        tp_endDate := end_;
                        durationDays := daysDifference c;
                        durationYears := Js.toFixed 2 (yearsDifference c) |};
                   regressionModel :=
                     {| equation :=
                          "AGB = a + b1(NDVI) + b2(EVI) + b3(VH) + b4(RVI) + b5(CanopyHeight)";
                        model_coefficients := REGRESSION_COEFFICIENTS;
                        unit_ := "t/ha" |} |}
          end
      end
  | _, _, _ =>
      Http400 "Missing required parameters: geometry, startDate, endDate"
  end.

End Agb.

(** ** The land-cover classification route *)

Module LandCover.
Import EE.

(** ESA WorldCover class definitions *)
Definition LANDCOVER_CLASSES : gmap Z string :=
  list_to_map
    [(10%Z, "Tree cover"); (20%Z, "Shrubland"); (30%Z, "Grassland");
     (40%Z, "Cropland"); (50%Z, "Built-up");
     (60%Z, "Bare / sparse vegetation"); (70%Z, "Snow and ice");
     (80%Z, "Permanent water bodies"); (90%Z, "Herbaceous wetland");
     (95%Z, "Mangroves"); (100%Z, "Moss and lichen")].

Definition LANDCOVER_COLORS : list (Z * string) :=
  [(10%Z, "#006400"); (20%Z, "#ffbb22"); (30%Z, "#ffff4c");
   (40%Z, "#f096ff"); (50%Z, "#fa0000"); (60%Z, "#b4b4b4");
   (70%Z, "#f0f0f0"); (80%Z, "#0064c8"); (90%Z, "#0096a0");
   (95%Z, "#00cf75"); (100%Z, "#fae6a0")].

Definition DYNAMIC_WORLD_CLASSES : gmap Z string :=
  list_to_map
    [(0%Z, "Water"); (1%Z, "Trees"); (2%Z, "Grass");
     (3%Z, "Flooded vegetation"); (4%Z, "Crops"); (5%Z, "Shrub and scrub");
     (6%Z, "Built"); (7%Z, "Bare"); (8%Z, "Snow and ice")].

(** One entry of the grouped reduction: the class and its area in m2. *)
Record group : Type := {
  class : Z;
  sum : Q;
}.

(** What [calculateAreaStatistics] resolves to. *)
Record area_stats : Type := {
  groups : option (list group);
}.

Record area_entry : Type := {
  entry_class : Z;
  className : string;
  areaHectares : Q;
  areaSquareMeters : Z;
}.

(** The callback of [stats.groups.map].  The arithmetic is exact; the
    engine's doubles can fall on the other side of a tie of [Math.round]
    (for [areaM2 = 10050] they give 100.49999999999999, rounded to 100,
    where the exact product is 100.5), so [areaHectares] is the engine's
    number up to one unit of its last decimal at such ties. *)
Definition area_of_group (classes : gmap Z string) (g : group) : area_entry :=
  let classValue := class g in
  let areaM2 := sum g in
  let areaHectares := areaM2 / 10000 in
  {| entry_class := classValue;
     className :=
       Js.or_string (classes !! classValue) ("Class " +:+ pretty classValue);
     areaHectares := inject_Z (Js.Math_round (areaHectares * 100)) / 100;
     areaSquareMeters := Js.Math_round areaM2 |}.

Definition processAreaStatistics (stats : area_stats)
    (classes : gmap Z string) : list area_entry :=
  match groups stats with
  | None => []
  | Some gs =>
      Js.sort (fun a b => areaHectares b - areaHectares a)
        (area_of_group classes <$> gs)
  end.

Record vis_params : Type := {
  vis_min : Q;
  vis_max : Q;
  palette : list string;
}.

(** The helpers of [@/lib/earthEngine] the route imports, and the
    platform methods it calls on what they return.  [Image] and
    [Collection] are the platform's handles.  [select_Map i] is
    [i.select('Map')]; [label_mode c] is
    [c.select('label').mode().rename('classification')];
    [months_before d n] is the date [n] months before [d], as
    [setMonth] and [toISOString] compute it.  The module as the
    repository has it is [Lib.exports], further down. *)
Record EarthEngine (Image Collection : Type) : Type := {
  getLandCover : geometry -> Z -> result Image;
  getDynamicWorldLandCover : geometry -> string -> string -> result Collection;
  calculateAreaStatistics : Image -> geometry -> result (option area_stats);
  getImageUrl : Image -> geometry -> vis_params -> result string;
  select_Map : Image -> Image;
  label_mode : Collection -> Image;
  months_before : string -> Z -> result string;
}.
Arguments getLandCover {Image Collection} _ _ _.
Arguments getDynamicWorldLandCover {Image Collection} _ _ _ _.
Arguments calculateAreaStatistics {Image Collection} _ _ _.
Arguments getImageUrl {Image Collection} _ _ _ _.
Arguments select_Map {Image Collection} _ _.
Arguments label_mode {Image Collection} _ _.
Arguments months_before {Image Collection} _ _ _.

Record request : Type := {
  req_geometry : option geometry;
  req_year : option Z;
  req_useDynamicWorld : option bool;
  req_startDate : option string;
  req_endDate : option string;
}.

Record classification : Type := {
  source : string;
  model : string;
  description : string;
  classificationDate : option string;
  temporalWindow : option string;
  dateRange : option (string * string);
  year : option Z;
  classes : gmap Z string;
}.

Record confidence_data : Type := {
  message : string;
  method : string;
}.

Record body : Type := {
  body_classification : classification;
  areaStatistics : list area_entry;
  imageUrl : string;
  confidence : option confidence_data;
  aiPowered : bool;
}.

Definition plural (n : Z) : string := if (1 <? n)%Z then "s" else "".

Definition dynamic_world_classification (endDate recentStartStr : string)
    (actualMonthsUsed : Z) : classification :=
  {| source := "Dynamic World AI Classifier";
     model := "Deep Learning CNN (Convolutional Neural Network)";
     description :=
       "AI-powered near real-time land classification using neural networks trained on millions of Sentinel-2 images";
     classificationDate := Some endDate;
     temporalWindow :=
       Some (pretty actualMonthsUsed +:+ " month" +:+ plural actualMonthsUsed);
     dateRange := Some (recentStartStr, endDate);
     year := None;
     classes := DYNAMIC_WORLD_CLASSES |}.

Definition world_cover_classification (y : Z) : classification :=
  {| source := "ESA WorldCover";
     model := "Random Forest + Deep Learning";
     description :=
       "Global land cover map generated using AI on Sentinel-1 & Sentinel-2";
     classificationDate := None;
     temporalWindow := None;
     dateRange := None;
     year := Some y;
     classes := LANDCOVER_CLASSES |}.

Definition dynamic_world_confidence : confidence_data :=
  {| message := "Dynamic World uses AI to provide pixel-level confidence scores";
     method := "Temporal ensemble of deep learning predictions" |}.

Definition dynamic_world_vis : vis_params :=
  {| vis_min := 0; vis_max := 8;
     palette := ["419bdf"; "397d49"; "88b053"; "7a87c6"; "e49635";
                 "dfc35a"; "c4281b"; "a59b8f"; "b39fe1"] |}.

Definition world_cover_vis : vis_params :=
  {| vis_min := 10; vis_max := 100; palette := LANDCOVER_COLORS.*2 |}.

(** The platform with another Dynamic World catalogue. *)
Definition with_dynamic_world {Image Collection : Type}
    (ee : EarthEngine Image Collection)
    (dw : geometry -> string -> string -> result Collection)
  : EarthEngine Image Collection :=
  {| getLandCover := getLandCover ee;
     getDynamicWorldLandCover := dw;
     calculateAreaStatistics := calculateAreaStatistics ee;
     getImageUrl := getImageUrl ee;
     select_Map := select_Map ee;
     label_mode := label_mode ee;
     months_before := months_before ee |}.

Section Route.
Context {Image Collection : Type}.
Variable ee : EarthEngine Image Collection.

(** [testStats && testStats.groups && testStats.groups.length > 0] *)
Definition has_groups (testStats : option area_stats) : bool :=
  match testStats with
  | Some st =>
      match groups st with
      | Some gs => (0 <? Z.of_nat (List.length gs))%Z
      | None => false
      end
  | None => false
  end.

(** The [while (monthsToTry <= maxMonths)] loop, with [remaining]
    iterations left; it yields the image found, the start of its
    range and the months used, or [None] when it runs out. *)
Fixpoint extend_range (g : geometry) (endDate : string) (remaining : nat)
    (monthsToTry : Z) : result (option (Image * string * Z)) :=
  match remaining with
  | O => Ok None
  | S remaining' =>
      recentStartStr ← months_before ee endDate monthsToTry;
      dynamicWorld ← getDynamicWorldLandCover ee g recentStartStr endDate;
      let testImage := label_mode ee dynamicWorld in
      testStats ← calculateAreaStatistics ee testImage g;
      if has_groups testStats
      then Ok (Some (testImage, recentStartStr, monthsToTry))
      else extend_range g endDate remaining' (monthsToTry + 1)
  end.

(** The body of the [try] block once [geometry] is known to be there. *)
Definition classify (g : geometry) (y : Z) (useDynamicWorld : bool)
    (startDate endDate : option string) : result body :=
  '(landcoverImage, classificationData, confidenceData) ←
    (if useDynamicWorld && Js.truthy_string startDate
        && Js.truthy_string endDate
     then
       let endDate := default "" endDate in
       found ← extend_range g endDate 12 1;
       match found with
       | None => Err NoDynamicWorldData
       | Some (landcoverImage, recentStartStr, actualMonthsUsed) =>
           Ok (landcoverImage,
               dynamic_world_classification endDate recentStartStr
                 actualMonthsUsed,
               Some dynamic_world_confidence)
       end
     else
       landcoverImage ← getLandCover ee g y;
       Ok (select_Map ee landcoverImage, world_cover_classification y, None));
  areaStats ← calculateAreaStatistics ee landcoverImage g;
  processedStats ←
    match areaStats with
    | Some st => Ok (processAreaStatistics st (classes classificationData))
    | None => Err (TypeError "Cannot read properties of null (reading 'groups')")
    end;
  let visParams :=
    if useDynamicWorld then dynamic_world_vis else world_cover_vis in
  imageUrl ← getImageUrl ee landcoverImage g visParams;
  Ok {| body_classification := classificationData;
        areaStatistics := processedStats;
        imageUrl := imageUrl;
        confidence := confidenceData;
        aiPowered := useDynamicWorld |}.

(** [const { geometry, year = 2021, useDynamicWorld = true, startDate,
    endDate } = body] *)
Definition POST (req : request) : response body :=
  let y := default 2021%Z (req_year req) in
  let useDynamicWorld := default true (req_useDynamicWorld req) in
  match req_geometry req with
  | None => Http400 "Missing required parameter: geometry"
  | Some g =>
      match classify g y useDynamicWorld (req_startDate req) (req_endDate req) with
      | Ok b => Http200 b
      | Err e => Http500 e
      end
  end.

End Route.

End LandCover.

(** ** The module [@/lib/earthEngine] *)

Module Lib.
Import EE.

(** The platform under the module: the session, the Dynamic World
    catalogue restricted to a polygon and a range of dates, and what the
    platform answers when it evaluates
    [c.select('label').mode()] ([label_mode]),
    [ee.Image.pixelArea().addBands(band).reduceRegion({reducer:
    ee.Reducer.sum().group({groupField: 1, groupName: 'class'}), geometry,
    scale: 10, maxPixels: 1e13})] ([grouped_area]) and
    [image.getMap(visParams, ...)].  [months_before] is the calendar of
    the runtime. *)
Record Platform : Type := {
  ensureInitialized : result unit;
  DYNAMICWORLD_V1 : geometry -> string -> string -> collection image;
  label_mode : list image -> result raster;
  grouped_area : raster -> geometry -> result (option LandCover.area_stats);
  getMap : image -> LandCover.vis_params -> result (option Agb.map_id);
  months_before : string -> Z -> result string;
}.

(** An image is an expression whose evaluation may fail. *)
Definition Image : Type := result image.
Definition Collection : Type := collection image.

Definition getDynamicWorldLandCover (p : Platform) (g : geometry)
    (startDate endDate : string) : result Collection :=
  _ ← ensureInitialized p;
  Ok (DYNAMICWORLD_V1 p g startDate endDate).

Definition calculateAreaStatistics (p : Platform) (landcoverImage : Image)
    (g : geometry) : result (option LandCover.area_stats) :=
  _ ← ensureInitialized p;
  i ← landcoverImage;
  classificationBand ← select_band i "classification";
  grouped_area p classificationBand g.

Definition getImageUrl (p : Platform) (img : Image) (g : geometry)
    (visParams : LandCover.vis_params) : result string :=
  _ ← ensureInitialized p;
  i ← img;
  mapId ← getMap p i visParams;
  match mapId with
  | None => Err (LibraryError "Failed to get valid map URL from Earth Engine")
  | Some mapId =>
      let url :=
        Js.or_string (Agb.urlFormat mapId) (Js.or_string (Agb.url mapId) "") in
      Ok (if Js.includes "{z}" url then url
          else Js.strip_trailing_slash url +:+ "/tiles/{z}/{x}/{y}")
  end.

(** The land-cover route imports [getLandCover] from the module, which
    exports no binding of that name: the import is [undefined] and the
    call throws. *)
Definition getLandCover : geometry -> Z -> result Image :=
  fun _ _ => Err (TypeError "getLandCover is not a function").

(** What the land-cover route works with: the four imports, with
    [getLandCover] as given, and the platform methods it calls itself. *)
Definition exports_with (p : Platform)
    (getLandCover : geometry -> Z -> result Image)
  : LandCover.EarthEngine Image Collection :=
  {| LandCover.getLandCover := getLandCover;
     LandCover.getDynamicWorldLandCover := getDynamicWorldLandCover p;
     LandCover.calculateAreaStatistics := calculateAreaStatistics p;
     LandCover.getImageUrl := getImageUrl p;
     LandCover.select_Map := fun img => i ← img; select i ["Map"];
     LandCover.label_mode := fun c =>
       scenes ← c; labels ← label_mode p scenes;
       Ok (rename "classification" labels);
     LandCover.months_before := months_before p |}.

(** The imports as the repository has them. *)
Definition exports (p : Platform) : LandCover.EarthEngine Image Collection :=
  exports_with p getLandCover.

End Lib.

(** ** Sample platforms *)

Module Examples.
Import EE.

Definition constant_band (v : Q) : raster := fun _ => Some v.

Definition sample_geometry : geometry :=
  {| coordinates := [[(0, 0); (0, 1); (1, 1); (1, 0); (0, 0)]] |}.

(** Day 100 at midnight. *)
Definition sample_target : Z := (100 * ms_per_day)%Z.

(** A platform with a clear optical scene 30 days after the target and
    another two years later, a cloudy one, radar scenes, and the GEDI
    footprints given.  The later composite is less green. *)
Definition sample_ee (shots : list Agb.gedi_shot) : Agb.EarthEngine :=
  {| Agb.ensureInitialized := Ok tt;
     Agb.S2_SR_HARMONIZED := fun _ =>
       Ok [ {| Agb.s2_time := (130 * ms_per_day + 36000000)%Z;
               Agb.CLOUDY_PIXEL_PERCENTAGE := 12 |};
            {| Agb.s2_time := (101 * ms_per_day)%Z;
               Agb.CLOUDY_PIXEL_PERCENTAGE := 80 |};
            {| Agb.s2_time := (833 * ms_per_day)%Z;
               Agb.CLOUDY_PIXEL_PERCENTAGE := 3 |} ];
     Agb.S1_GRD := fun _ =>
       Ok [ {| Agb.s1_time := (120 * ms_per_day)%Z;
               Agb.transmitterReceiverPolarisation := ["VV"; "VH"];
               Agb.instrumentMode := "IW";
               Agb.orbitProperties_pass := "DESCENDING" |};
            {| Agb.s1_time := (831 * ms_per_day)%Z;
               Agb.transmitterReceiverPolarisation := ["VV"; "VH"];
               Agb.instrumentMode := "IW";
               Agb.orbitProperties_pass := "DESCENDING" |} ];
     Agb.GEDI02_A_002_MONTHLY := fun _ => Ok shots;
     Agb.s2_composite := fun _ scenes =>
       let late :=
         forallb (fun s => (500 * ms_per_day <? Agb.s2_time s)%Z) scenes in
       list_to_map
         [("NDVI", constant_band (if late then 7 # 10 else 4 # 5));
          ("EVI", constant_band (1 # 2)); ("LAI", constant_band 3)];
     Agb.s1_composite := fun _ _ =>
       list_to_map
         [("VV", constant_band (-10)); ("VH", constant_band (-15));
          ("RVI", constant_band (3 # 5))];
     Agb.gedi_raster := fun _ _ => constant_band 20;
     Agb.resample := fun _ r => r;
     Agb.region := fun _ => [(0%Z, 0%Z); (0%Z, 1%Z)];
     Agb.Reducer_stdDev := fun l => match l with [] => None | _ => Some 0 end;
     Agb.polygon_area := fun _ => Ok 20000;
     Agb.getMap := fun _ _ =>
       Ok (Some {| Agb.urlFormat := Some "https://tiles.example/agb/";
                   Agb.url := None |});
     Agb.timezone := Js.utc_zone |}.

(** A harmonized image without canopy height, and an image whose only
    band is masked everywhere. *)
Definition sample_harmonized : image :=
  list_to_map
    [("NDVI", constant_band (4 # 5)); ("EVI", constant_band (1 # 2));
     ("VH", constant_band (-15)); ("RVI", constant_band (3 # 5))].

Definition masked_image : image := {[ "AGB" := (fun _ => None) ]}.

Definition sample_shot : Agb.gedi_shot :=
  {| Agb.gedi_time := (110 * ms_per_day)%Z;
     Agb.quality_flag := 1;
     Agb.degrade_flag := 1;
     Agb.rh98 := 20 |}.

(** As [sample_ee], but the optical catalogue holds a cloudy scene next to
    the target and a clear one 200 days later. *)
Definition sparse_ee : Agb.EarthEngine :=
  {| Agb.ensureInitialized := Ok tt;
     Agb.S2_SR_HARMONIZED := fun _ =>
       Ok [ {| Agb.s2_time := (101 * ms_per_day)%Z;
               Agb.CLOUDY_PIXEL_PERCENTAGE := 80 |};
            {| Agb.s2_time := (300 * ms_per_day)%Z;
               Agb.CLOUDY_PIXEL_PERCENTAGE := 5 |} ];
     Agb.S1_GRD := Agb.S1_GRD (sample_ee []);
     Agb.GEDI02_A_002_MONTHLY := fun _ => Ok [];
     Agb.s2_composite := Agb.s2_composite (sample_ee []);
     Agb.s1_composite := Agb.s1_composite (sample_ee []);
     Agb.gedi_raster := Agb.gedi_raster (sample_ee []);
     Agb.resample := fun _ r => r;
     Agb.region := Agb.region (sample_ee []);
     Agb.Reducer_stdDev := Agb.Reducer_stdDev (sample_ee []);
     Agb.polygon_area := fun _ => Ok 20000;
     Agb.getMap := Agb.getMap (sample_ee []);
     Agb.timezone := Js.utc_zone |}.

(** As [sample_ee] with one footprint, but the rasterised canopy height is
    masked on every cell the reduction visits. *)
Definition masked_gedi_ee : Agb.EarthEngine :=
  {| Agb.ensureInitialized := Ok tt;
     Agb.S2_SR_HARMONIZED := Agb.S2_SR_HARMONIZED (sample_ee []);
     Agb.S1_GRD := Agb.S1_GRD (sample_ee []);
     Agb.GEDI02_A_002_MONTHLY := fun _ => Ok [sample_shot];
     Agb.s2_composite := Agb.s2_composite (sample_ee []);
     Agb.s1_composite := Agb.s1_composite (sample_ee []);
     Agb.gedi_raster := fun _ _ _ => None;
     Agb.resample := fun _ r => r;
     Agb.region := Agb.region (sample_ee []);
     Agb.Reducer_stdDev := Agb.Reducer_stdDev (sample_ee []);
     Agb.polygon_area := fun _ => Ok 20000;
     Agb.getMap := Agb.getMap (sample_ee []);
     Agb.timezone := Js.utc_zone |}.

Definition sample_request : Agb.request :=
  {| Agb.req_geometry := Some sample_geometry;
     Agb.req_startDate := Some sample_target;
     Agb.req_endDate := Some (sample_target + 730 * ms_per_day)%Z |}.

(** The grouped areas of a polygon: two small classes that tie once
    rounded to hectares, and two larger ones. *)
Definition sample_groups : list LandCover.group :=
  [ {| LandCover.class := 30; LandCover.sum := 10 |};
    {| LandCover.class := 10; LandCover.sum := 12346 |};
    {| LandCover.class := 50; LandCover.sum := 250000 |};
    {| LandCover.class := 40; LandCover.sum := 20 |} ].

(** A land-cover platform whose handles are descriptions of the images. *)
Definition sample_landcover_ee : LandCover.EarthEngine string string :=
  {| LandCover.getLandCover := fun _ y => Ok ("ESA/WorldCover " +:+ pretty y);
     LandCover.getDynamicWorldLandCover := fun _ s e =>
       Ok ("GOOGLE/DYNAMICWORLD/V1 " +:+ s +:+ " " +:+ e);
     LandCover.calculateAreaStatistics := fun _ _ =>
       Ok (Some {| LandCover.groups := Some sample_groups |});
     LandCover.getImageUrl := fun _ _ _ => Ok "https://tiles.example/lc/{z}/{x}/{y}";
     LandCover.select_Map := fun i => i +:+ " Map";
     LandCover.label_mode := fun c => c +:+ " label mode";
     LandCover.months_before := fun d n => Ok (d +:+ " minus " +:+ pretty n) |}.

Definition sample_landcover_request : LandCover.request :=
  {| LandCover.req_geometry := Some sample_geometry;
     LandCover.req_year := None;
     LandCover.req_useDynamicWorld := None;
     LandCover.req_startDate := None;
     LandCover.req_endDate := Some "2024-06-30" |}.

End Examples.

(** ** The per-scene band algebra of the AGB route *)

Module Scene.
Import EE.

(** A function of the pixel value applied to every unmasked pixel. *)
Definition map_raster (f : Q -> Q) (r : raster) : raster :=
  fun p => f <$> r p.

(** [band.bitwiseAnd(c)] on an integer-valued band. *)
Definition bitwiseAnd (c : Z) (r : raster) : raster :=
  map_raster (fun q => inject_Z (Z.land (Qfloor q) c)) r.

(** [band.eq(c)]: 1 where the value is [c], 0 elsewhere. *)
Definition eq_value (c : Q) (r : raster) : raster :=
  map_raster (fun q => if Qeq_bool q c then 1 else 0) r.

(** [a.and(b)]: 1 where both values are non-zero, 0 elsewhere. *)
Definition and_bands (a b : raster) : raster :=
  lift2 (fun x y => if negb (Qeq_bool x 0) && negb (Qeq_bool y 0) then 1 else 0)
    a b.

(** [image.updateMask(mask)]: a pixel stays where the mask is non-zero. *)
Definition updateMask (mask : raster) (img : image) : image :=
  (fun (r : raster) (p : pixel) =>
     match mask p with
     | Some m => if Qeq_bool m 0 then None else r p
     | None => None
     end) <$> img.

(** [image.divide(c)], band by band. *)
Definition divide (c : Q) (img : image) : image :=
  map_raster (fun q => q / c) <$> img.

(** [1 << 10] and [1 << 11] *)
Definition cloudBitMask : Z := Z.shiftl 1 10.
Definition cirrusBitMask : Z := Z.shiftl 1 11.

Definition maskS2Clouds (img : image) : result image :=
  qa ← select_band img "QA60";
  let mask :=
    and_bands (eq_value 0 (bitwiseAnd cloudBitMask qa))
      (eq_value 0 (bitwiseAnd cirrusBitMask qa)) in
  select (divide 10000 (updateMask mask img)) ["B2"; "B4"; "B8"].

(** [image.normalizedDifference([a, b])]: (a - b) / (a + b); the platform
    masks the pixels where one of the two values is negative. *)
Definition normalizedDifference (img : image) (a b : string) : result raster :=
  x ← select_band img a;
  y ← select_band img b;
  Ok (fun p =>
        match x p, y p with
        | Some u, Some v =>
            if Js.lt u 0 || Js.lt v 0 then None else Some ((u - v) / (u + v))
        | _, _ => None
        end).

(** The expressions over bands with numbers, differences and quotients. *)
Inductive formula : Type :=
  | FNum (c : Q)
  | FVar (x : string)
  | FAdd (a b : formula)
  | FSub (a b : formula)
  | FMul (a b : formula)
  | FDiv (a b : formula).

Fixpoint evaluate (f : formula) (env : gmap string raster) : result raster :=
  match f with
  | FNum c => Ok (fun _ => Some c)
  | FVar x =>
      match env !! x with
      | Some r => Ok r
      | None => Err (RemoteError ("Image.expression: unbound name " +:+ x))
      end
  | FAdd a b => ra ← evaluate a env; rb ← evaluate b env; Ok (lift2 Qplus ra rb)
  | FSub a b => ra ← evaluate a env; rb ← evaluate b env; Ok (lift2 Qminus ra rb)
  | FMul a b => ra ← evaluate a env; rb ← evaluate b env; Ok (lift2 Qmult ra rb)
  | FDiv a b => ra ← evaluate a env; rb ← evaluate b env; Ok (lift2 Qdiv ra rb)
  end.

(** ['2.5 * ((NIR - RED) / (NIR + 6 * RED - 7.5 * BLUE + 1))'] *)
Definition EVI_formula : formula :=
  FMul (FNum 2.5)
    (FDiv (FSub (FVar "NIR") (FVar "RED"))
       (FAdd
          (FSub (FAdd (FVar "NIR") (FMul (FNum 6) (FVar "RED")))
             (FMul (FNum 7.5) (FVar "BLUE")))
          (FNum 1))).

Definition computeSentinel2Indices (img : image) : result image :=
  ndvi ← normalizedDifference img "B8" "B4";
  NIR ← select_band img "B8";
  RED ← select_band img "B4";
  BLUE ← select_band img "B2";
  evi ← evaluate EVI_formula
          (list_to_map [("NIR", NIR); ("RED", RED); ("BLUE", BLUE)]);
  let lai :=
    map_raster (clamp_value 0 8)
      (map_raster (fun q => q - 0.118) (map_raster (fun q => q * 3.618) evi)) in
  Ok (addBands img
        (addBands (addBands (rename "NDVI" ndvi) (rename "EVI" evi))
           (rename "LAI" lai))).

Definition computeSentinel1Indices (img : image) : result image :=
  let vh := select_band img "VH" in
  let vv := select_band img "VV" in
  h ← vh;
  v ← vv;
  let rvi := lift2 Qdiv (map_raster (fun q => q * 4) h) (lift2 Qplus v h) in
  Ok (addBands img (rename "RVI" rvi)).

End Scene.

(** ** The multi-sensor statistics route *)

Module Satellite.
Import EE.

(** A monthly GEDI raster of the catalogue. *)
Record gedi_month : Type := {
  gedi_month_time : Z;
}.

(** The platform as this route sees it.  [s2_median scenes] is the
    evaluation of
    [scenes.map(maskS2Clouds).map(calculateNDVI).map(calculateEVI)
     .map(calculateLAI).median()], whose helpers live in [@/lib/earthEngine];
    [s1_median] is [.select(['VV', 'VH']).median()] and [gedi_mean] is
    [.select(['rh98']).mean()]. *)
Record EarthEngine : Type := {
  ensureInitialized : result unit;
  S2_SR_HARMONIZED : geometry -> collection Agb.s2_scene;
  S1_GRD : geometry -> collection Agb.s1_scene;
  GEDI02_A_002_MONTHLY : geometry -> collection gedi_month;
  s2_median : list Agb.s2_scene -> image;
  s1_median : list Agb.s1_scene -> image;
  gedi_mean : list gedi_month -> raster;
  region : geometry -> list pixel;
}.

(** The request body; the dates are the instants their strings denote. *)
Record request : Type := {
  req_geometry : option geometry;
  req_startDate : option Z;
  req_endDate : option Z;
  req_cloudCoverMax : option Q;
}.

(** [filterDate(startDate, endDate)] with instants. *)
Definition filterDate {A : Type} (time : A -> Z) (startDate endDate : Z)
    (c : collection A) : collection A :=
  filter_collection (fun s => (startDate <=? time s)%Z && (time s <? endDate)%Z) c.

(** ['4 * VH / (VV + VH)'] *)
Definition RVI_formula : Scene.formula :=
  Scene.FDiv (Scene.FMul (Scene.FNum 4) (Scene.FVar "VH"))
    (Scene.FAdd (Scene.FVar "VV") (Scene.FVar "VH")).

(** The outputs of the reducer [mean + minMax] for one band. *)
Definition band_entries (cells : list pixel) (b : string * raster)
  : list (string * Js.value) :=
  let values := region_values b.2 cells in
  [(b.1 +:+ "_mean", to_value (Reducer_mean values));
   (b.1 +:+ "_min", to_value (Reducer_min values));
   (b.1 +:+ "_max", to_value (Reducer_max values))].

(** [image.reduceRegion({reducer, geometry, scale: 10, maxPixels: 1e13})],
    evaluated. *)
Definition reduceRegion (ee : EarthEngine) (img : image) (g : geometry)
  : gmap string Js.value :=
  list_to_map (flat_map (band_entries (region ee g)) (map_to_list img)).

(** The locals of the GEDI step once its [try]/[catch] is over. *)
Definition checkGEDI (ee : EarthEngine) (g : geometry) (startDate endDate : Z)
  : option (result image) * bool :=
  let gediCollection :=
    filterDate gedi_month_time startDate endDate (GEDI02_A_002_MONTHLY ee g) in
  match size_evaluate gediCollection with
  | Err _ => (None, false)
  | Ok gediSize =>
      if (0 <? gediSize)%Z
      then (Some (months ← gediCollection;
                  Ok (rename "CanopyHeight" (gedi_mean ee months))), true)
      else (None, false)
  end.

Definition warning_gedi : string :=
  "GEDI canopy height data not available for this region/time period".
Definition warning_s2 : string := "No Sentinel-2 imagery found in date range".
Definition warning_s1 : string := "No Sentinel-1 imagery found in date range".

Record data_quality : Type := {
  sentinel2Images : Z;
  sentinel1Images : Z;
  gediAvailable : bool;
}.

Record body : Type := {
  statistics : gmap string Js.value;
  dataQuality : data_quality;
  dateRange : Z * Z;
  warnings : option (list string);
}.

(** The body of the [try] block once the three fields are known to be
    there. *)
Definition process (ee : EarthEngine) (g : geometry) (startDate endDate : Z)
    (cloudCoverMax : Q) : result body :=
  _ ← ensureInitialized ee;
  let sentinel2 :=
    filter_collection
      (fun s => Js.lt (Agb.CLOUDY_PIXEL_PERCENTAGE s) cloudCoverMax)
      (filterDate Agb.s2_time startDate endDate (S2_SR_HARMONIZED ee g)) in
  let s2Composite := scenes ← sentinel2; Ok (s2_median ee scenes) in
  let sentinel1 :=
    filter_collection
      (fun s => Agb.listContains "VH" (Agb.transmitterReceiverPolarisation s))
      (filter_collection
         (fun s => Agb.listContains "VV" (Agb.transmitterReceiverPolarisation s))
         (filter_collection (fun s => String.eqb (Agb.instrumentMode s) "IW")
            (filterDate Agb.s1_time startDate endDate (S1_GRD ee g)))) in
  let s1Composite :=
    scenes ← sentinel1;
    let s1Median := s1_median ee scenes in
    VV ← select_band s1Median "VV";
    VH ← select_band s1Median "VH";
    rvi ← Scene.evaluate RVI_formula (list_to_map [("VV", VV); ("VH", VH)]);
    Ok (addBands s1Median (rename "RVI" rvi)) in
  let '(gediComposite, hasGEDI) := checkGEDI ee g startDate endDate in
  let statsImage :=
    s2 ← s2Composite;
    s2Bands ← select s2 ["NDVI"; "EVI"; "LAI"];
    s1 ← s1Composite;
    s1Bands ← select s1 ["VV"; "VH"; "RVI"];
    let combined := addBands s2Bands s1Bands in
    match hasGEDI, gediComposite with
    | true, Some gediComposite =>
        gedi ← gediComposite;
        ch ← select gedi ["CanopyHeight"];
        Ok (addBands combined ch)
    | _, _ => Ok combined
    end in
  stats ← (img ← statsImage; Ok (reduceRegion ee img g));
  s2Count ← size_evaluate sentinel2;
  s1Count ← size_evaluate sentinel1;
  let warnings :=
    (if hasGEDI then [] else [warning_gedi])
    ++ (if (s2Count =? 0)%Z then [warning_s2] else [])
    ++ (if (s1Count =? 0)%Z then [warning_s1] else []) in
  Ok {| statistics := stats;
        dataQuality :=
          {| sentinel2Images := s2Count;
             sentinel1Images := s1Count;
             gediAvailable := hasGEDI |};
        dateRange := (startDate, endDate);
        warnings :=
          if (0 <? Z.of_nat (List.length warnings))%Z then Some warnings else None |}.

(** [const { geometry, startDate, endDate, cloudCoverMax = 20 } = body] *)
Definition POST (ee : EarthEngine) (req : request) : response body :=
  let cloudCoverMax := default 20 (req_cloudCoverMax req) in
  match req_geometry req, req_startDate req, req_endDate req with
  | Some g, Some startDate, Some endDate =>
      match process ee g startDate endDate cloudCoverMax with
      | Ok b => Http200 b
      | Err e => Http500 e
      end
  | _, _, _ =>
      Http400 "Missing required parameters: geometry, startDate, endDate"
  end.

End Satellite.

(** ** The dashboard page: [src/app/page.tsx] *)

Module Dashboard.

(** The body [analyzePolygon] posts to [/api/classify]:
    [{ geometry: geo.geometry, year: 2021 }]. *)
Definition classify_request (geo : EE.geometry) : LandCover.request :=
  {| LandCover.req_geometry := Some geo;
     LandCover.req_year := Some 2021%Z;
     LandCover.req_useDynamicWorld := None;
     LandCover.req_startDate := None;
     LandCover.req_endDate := None |}.

(** The body it posts to [/api/satellite]:
    [{ geometry: geo.geometry, startDate, endDate, cloudCoverMax: 20 }],
    with the two dates of the page's state. *)
Definition satellite_request (geo : EE.geometry) (startDate endDate : option Z)
  : Satellite.request :=
  {| Satellite.req_geometry := Some geo;
     Satellite.req_startDate := startDate;
     Satellite.req_endDate := endDate;
     Satellite.req_cloudCoverMax := Some 20 |}.

(** [areaStatistics.reduce((sum, item) => sum + item.areaHectares, 0)] of
    [handleExportPDF]. *)
Definition totalArea (areaStatistics : list LandCover.area_entry) : Q :=
  foldl (fun sum item => sum + LandCover.areaHectares item) 0 areaStatistics.

End Dashboard.

(** ** Further vocabulary *)

(** What one iteration of the Dynamic World loop reads for [monthsToTry]:
    the image, the start of the range and the statistics of the test. *)
Definition history_probe {Image Collection : Type}
    (ee : LandCover.EarthEngine Image Collection) (g : EE.geometry)
    (endDate : string) (monthsToTry : Z)
  : result (Image * string * option LandCover.area_stats) :=
  recentStartStr ← LandCover.months_before ee endDate monthsToTry;
  dynamicWorld ← LandCover.getDynamicWorldLandCover ee g recentStartStr endDate;
  let testImage := LandCover.label_mode ee dynamicWorld in
  testStats ← LandCover.calculateAreaStatistics ee testImage g;
  Ok (testImage, recentStartStr, testStats).

(** The iteration finds no data. *)
Definition no_history {Image Collection : Type}
    (ee : LandCover.EarthEngine Image Collection) (g : EE.geometry)
    (endDate : string) (monthsToTry : Z) : Prop :=
  exists img start stats,
    history_probe ee g endDate monthsToTry = Ok (img, start, stats) /\
    LandCover.has_groups stats = false.

(** The keys [reduceRegion] reports for the given bands with the reducer
    [mean + minMax]. *)
Definition statistic_keys (bands : list string) : list string :=
  flat_map (fun b => [b +:+ "_mean"; b +:+ "_min"; b +:+ "_max"]) bands.

(** The footprints [getGEDICanopyHeight] keeps for a window of days. *)
Definition kept_footprint (startDay endDay : Z) (f : Agb.gedi_shot) : bool :=
  EE.in_date_range startDay endDay (Agb.gedi_time f)
  && Js.gt (Agb.quality_flag f) 0 && Js.gt (Agb.degrade_flag f) 0.

(** The sum of the areas of the groups, in hectares. *)
Definition total_hectares (gs : list LandCover.group) : Q :=
  foldr (fun g acc => LandCover.sum g / 10000 + acc) 0 gs.

(** The band names a harmonized image can have. *)
Definition harmonized_names : list string :=
  ["NDVI"; "EVI"; "LAI"; "VV"; "VH"; "RVI"; "CanopyHeight"].

(** The platform with another GEDI catalogue. *)
Definition with_gedi (ee : Agb.EarthEngine)
    (catalogue : EE.geometry -> EE.collection Agb.gedi_shot)
  : Agb.EarthEngine :=
  {| Agb.ensureInitialized := Agb.ensureInitialized ee;
     Agb.S2_SR_HARMONIZED := Agb.S2_SR_HARMONIZED ee;
     Agb.S1_GRD := Agb.S1_GRD ee;
     Agb.GEDI02_A_002_MONTHLY := catalogue;
     Agb.s2_composite := Agb.s2_composite ee;
     Agb.s1_composite := Agb.s1_composite ee;
     Agb.gedi_raster := Agb.gedi_raster ee;
     Agb.resample := Agb.resample ee;
     Agb.region := Agb.region ee;
     Agb.Reducer_stdDev := Agb.Reducer_stdDev ee;
     Agb.polygon_area := Agb.polygon_area ee;
     Agb.getMap := Agb.getMap ee;
     Agb.timezone := Agb.timezone ee |}.

(** A result with other warnings. *)
Definition with_warnings (ws : list string) (r : Agb.AGBResult)
  : Agb.AGBResult :=
  {| Agb.meanAGB := Agb.meanAGB r;
     Agb.minAGB := Agb.minAGB r;
     Agb.maxAGB := Agb.maxAGB r;
     Agb.stdDevAGB := Agb.stdDevAGB r;
     Agb.totalBiomass := Agb.totalBiomass r;
     Agb.areaHa := Agb.areaHa r;
     Agb.agbRasterUrl := Agb.agbRasterUrl r;
     Agb.inputMetrics := Agb.inputMetrics r;
     Agb.dataQuality := Agb.dataQuality r;
     Agb.warnings := ws;
     Agb.actualDateRange := Agb.actualDateRange r |}.

(** ** More sample inputs *)

Module MoreExamples.
Import EE.

(** A raw optical scene in digital numbers: the cell (0, 0) is flagged as
    cloud (bit 10), the cell (0, 1) as cirrus (bit 11), the others clear. *)
Definition sample_qa : raster :=
  fun p : pixel =>
    Some (if (p.1 =? 0)%Z && (p.2 =? 0)%Z then 1024
          else if (p.1 =? 0)%Z && (p.2 =? 1)%Z then 2048 else 0).

Definition sample_scene : image :=
  list_to_map
    [("QA60", sample_qa);
     ("B2", Examples.constant_band 400);
     ("B4", Examples.constant_band 600);
     ("B8", Examples.constant_band 3000)].

(** A scene in reflectance whose blue band is so bright at the cell (0, 1)
    that EVI is negative there. *)
Definition sample_blue : raster :=
  fun p : pixel => Some (if (p.1 =? 0)%Z && (p.2 =? 1)%Z then 1 else 1 # 25).

Definition sample_reflectance : image :=
  list_to_map
    [("B2", sample_blue);
     ("B4", Examples.constant_band (3 # 50));
     ("B8", Examples.constant_band (3 # 10))].

(** An optical composite that still carries a reflectance band, and a
    radar composite. *)
Definition sample_optical : image :=
  list_to_map
    [("B8", Examples.constant_band (3 # 10));
     ("NDVI", Examples.constant_band (4 # 5));
     ("EVI", Examples.constant_band (1 # 2));
     ("LAI", Examples.constant_band 3)].

Definition sample_sar : image :=
  list_to_map
    [("VV", Examples.constant_band (-10)); ("VH", Examples.constant_band (-15));
     ("RVI", Examples.constant_band (3 # 5))].

(** As [Examples.sample_ee], but the GEDI catalogue cannot be read. *)
Definition gedi_down_ee : Agb.EarthEngine :=
  with_gedi (Examples.sample_ee [])
    (fun _ => Err (RemoteError "Collection.loadTable: not found")).

(** As [Examples.sample_landcover_ee], but Dynamic World has labels only
    once the range reaches three months back. *)
Definition sparse_landcover_ee : LandCover.EarthEngine string string :=
  {| LandCover.getLandCover :=
       LandCover.getLandCover Examples.sample_landcover_ee;
     LandCover.getDynamicWorldLandCover :=
       LandCover.getDynamicWorldLandCover Examples.sample_landcover_ee;
     LandCover.calculateAreaStatistics := fun img _ =>
       Ok (Some {| LandCover.groups :=
                     if Js.includes "minus 3" img
                     then Some Examples.sample_groups else Some [] |});
     LandCover.getImageUrl :=
       LandCover.getImageUrl Examples.sample_landcover_ee;
     LandCover.select_Map := LandCover.select_Map Examples.sample_landcover_ee;
     LandCover.label_mode := LandCover.label_mode Examples.sample_landcover_ee;
     LandCover.months_before :=
       LandCover.months_before Examples.sample_landcover_ee |}.

(** A platform for the statistics route: one clear optical scene, one
    radar scene, and the monthly GEDI rasters given. *)
Definition sample_satellite_ee (months : list Satellite.gedi_month)
  : Satellite.EarthEngine :=
  {| Satellite.ensureInitialized := Ok tt;
     Satellite.S2_SR_HARMONIZED := fun _ =>
       Ok [ {| Agb.s2_time := 110; Agb.CLOUDY_PIXEL_PERCENTAGE := 12 |};
            {| Agb.s2_time := 120; Agb.CLOUDY_PIXEL_PERCENTAGE := 25 |} ];
     Satellite.S1_GRD := fun _ =>
       Ok [ {| Agb.s1_time := 115;
               Agb.transmitterReceiverPolarisation := ["VV"; "VH"];
               Agb.instrumentMode := "IW";
               Agb.orbitProperties_pass := "ASCENDING" |} ];
     Satellite.GEDI02_A_002_MONTHLY := fun _ => Ok months;
     Satellite.s2_median := fun scenes =>
       match scenes with
       | [] => ∅
       | _ => sample_optical
       end;
     Satellite.s1_median := fun _ =>
       list_to_map
         [("VV", Examples.constant_band (-10));
          ("VH", Examples.constant_band (-15))];
     Satellite.gedi_mean := fun _ => Examples.constant_band 20;
     Satellite.region := fun _ => [(0%Z, 0%Z); (0%Z, 1%Z)] |}.

(** As [Examples.sample_ee], but the optical catalogue cannot be read. *)
Definition optical_down_ee : Agb.EarthEngine :=
  {| Agb.ensureInitialized := Ok tt;
     Agb.S2_SR_HARMONIZED := fun _ =>
       Err (RemoteError "Collection.load: quota exceeded");
     Agb.S1_GRD := Agb.S1_GRD (Examples.sample_ee []);
     Agb.GEDI02_A_002_MONTHLY := fun _ => Ok [];
     Agb.s2_composite := Agb.s2_composite (Examples.sample_ee []);
     Agb.s1_composite := Agb.s1_composite (Examples.sample_ee []);
     Agb.gedi_raster := Agb.gedi_raster (Examples.sample_ee []);
     Agb.resample := fun _ r => r;
     Agb.region := Agb.region (Examples.sample_ee []);
     Agb.Reducer_stdDev := Agb.Reducer_stdDev (Examples.sample_ee []);
     Agb.polygon_area := fun _ => Ok 20000;
     Agb.getMap := Agb.getMap (Examples.sample_ee []);
     Agb.timezone := Js.utc_zone |}.

(** A platform under [@/lib/earthEngine]: Dynamic World has one image,
    every class covers a hectare, the map service answers. *)
Definition sample_lib : Lib.Platform :=
  {| Lib.ensureInitialized := Ok tt;
     Lib.DYNAMICWORLD_V1 := fun _ _ _ =>
       Ok [ {[ "label" := Examples.constant_band 1 ]} ];
     Lib.label_mode := fun scenes =>
       match scenes with
       | [] => Ok (fun _ => None)
       | scene :: _ => select_band scene "label"
       end;
     Lib.grouped_area := fun _ _ =>
       Ok (Some {| LandCover.groups :=
                     Some [ {| LandCover.class := 1; LandCover.sum := 10000 |} ] |});
     Lib.getMap := fun _ _ =>
       Ok (Some {| Agb.urlFormat := None;
                   Agb.url := Some "https://tiles.example/lc/" |});
     Lib.months_before := fun d n => Ok (d +:+ " minus " +:+ pretty n) |}.

(** A WorldCover image as the catalogue has it: one band, [Map]. *)
Definition sample_world_cover : Lib.Image :=
  Ok {[ "Map" := Examples.constant_band 10 ]}.

(** America/New_York around the start of daylight saving time in 2024:
    UTC-5 until 2024-03-10 07:00 UTC (02:00 local time), UTC-4 from then
    on.  A local time in the skipped hour is read with the offset before
    the change.  The other changes of clocks are left out. *)
Definition new_york_2024 : Js.timezone :=
  {| Js.LocalTZA := fun t isUTC =>
       let change :=
         if isUTC then (19792 * Js.msPerDay + 7 * 3600000)%Z
         else (19792 * Js.msPerDay + 3 * 3600000)%Z in
       if (t <? change)%Z then (-5 * 3600000)%Z else (-4 * 3600000)%Z |}.

(** [new Date('2024-03-05')]: midnight UTC of day 19787. *)
Definition march_5_2024 : Z := (19787 * Js.msPerDay)%Z.

(** As [Examples.sample_ee], on a server in the time zone given; the only
    optical scene was acquired on 2024-03-11 at 15:00 UTC. *)
Definition dated_ee (tz : Js.timezone) : Agb.EarthEngine :=
  {| Agb.ensureInitialized := Ok tt;
     Agb.S2_SR_HARMONIZED := fun _ =>
       Ok [ {| Agb.s2_time := (19793 * Js.msPerDay + 15 * 3600000)%Z;
               Agb.CLOUDY_PIXEL_PERCENTAGE := 12 |} ];
     Agb.S1_GRD := Agb.S1_GRD (Examples.sample_ee []);
     Agb.GEDI02_A_002_MONTHLY := fun _ => Ok [];
     Agb.s2_composite := Agb.s2_composite (Examples.sample_ee []);
     Agb.s1_composite := Agb.s1_composite (Examples.sample_ee []);
     Agb.gedi_raster := Agb.gedi_raster (Examples.sample_ee []);
     Agb.resample := fun _ r => r;
     Agb.region := Agb.region (Examples.sample_ee []);
     Agb.Reducer_stdDev := Agb.Reducer_stdDev (Examples.sample_ee []);
     Agb.polygon_area := fun _ => Ok 20000;
     Agb.getMap := Agb.getMap (Examples.sample_ee []);
     Agb.timezone := tz |}.

(** A footprint in the window of the sample target that is flagged as not
    degraded ([degrade_flag] 0). *)
Definition clean_shot : Agb.gedi_shot :=
  {| Agb.gedi_time := (110 * EE.ms_per_day)%Z;
     Agb.quality_flag := 1;
     Agb.degrade_flag := 0;
     Agb.rh98 := 25 |}.

(** A radar scene in decibels. *)
Definition sample_radar : image :=
  list_to_map
    [("VV", Examples.constant_band (-10)); ("VH", Examples.constant_band (-15))].

End MoreExamples.

(** ** Vocabulary of the statements *)

(** [x] lies in the closed interval from [lo] to [hi]. *)
Definition within (lo hi : Q) (x : Q) : Prop := lo <= x <= hi.

(** What [calculateImageStatistics] resolves to over a band [r]: the
    reducers over its unmasked values in the region, each defaulted to 0. *)
Definition stats_of (ee : Agb.EarthEngine) (r : EE.raster) (g : EE.geometry)
  : Agb.band_stats :=
  let vs := EE.region_values r (Agb.region ee g) in
  {| Agb.mean := Js.or_zero (Some (EE.to_value (EE.Reducer_mean vs)));
     Agb.min := Js.or_zero (Some (EE.to_value (EE.Reducer_min vs)));
     Agb.max := Js.or_zero (Some (EE.to_value (EE.Reducer_max vs)));
     Agb.stdDev := Js.or_zero (Some (EE.to_value (Agb.Reducer_stdDev ee vs))) |}.

(** The two equations in the specification's words (section 4.6), with the
    published coefficients. *)
Definition published_full (n e v r c : Q) : Q :=
  -150 + 200 * n + 150 * e + -20 * v + 50 * r + 15 * c.

Definition published_reduced (n e v r : Q) : Q :=
  -150 + 200 * n + 150 * e + -20 * v + 50 * r.

(** The calendar day of an instant in UTC, as a day number. *)
Definition day_of (t : Z) : Z := (t / EE.ms_per_day)%Z.

(** The number of scenes the search loop reads at iteration [k]. *)
Definition window_size (ee : Agb.EarthEngine) (g : EE.geometry) (t k : Z)
  : result Z :=
  EE.size_evaluate
    (Agb.s2Test ee g (Agb.window_edge ee t (- (k * 7)))%Z
       (Agb.window_edge ee t (k * 7))%Z).

(** The window the search loop returns at iteration [k]. *)
Definition window_at (ee : Agb.EarthEngine) (t k : Z) : Agb.data_window :=
  {| Agb.startDate := Agb.window_edge ee t (- (k * 7))%Z;
     Agb.endDate := Agb.window_edge ee t (k * 7)%Z;
     Agb.monthsUsed := Js.Math_ceil (inject_Z k / 4) |}.



(** The offset of the time zone is the same at the instant [t] and at the
    local time [days] days from it: no change of clocks lies between
    them. *)
Definition steady_offset (tz : Js.timezone) (t days : Z) : Prop :=
  Js.LocalTZA tz (Js.LocalTime tz t + days * Js.msPerDay)%Z false
  = Js.LocalTZA tz t true.

(** The order [Array.prototype.sort] is asked for with the comparator
    [(a, b) => key(b) - key(a)], and that comparator. *)
Definition descending_by {A : Type} (key : A -> Q) (a b : A) : Prop :=
  key b <= key a.

Definition compare_descending {A : Type} (key : A -> Q) (a b : A) : Q :=
  key b - key a.

(** ** Proofs *)

(** *** The result monad *)

Lemma bind_Ok_inv {A B : Type} (m : result A) (k : A -> result B) (b : B) :
  m ≫= k = Ok b -> exists a, m = Ok a /\ k a = Ok b.
Proof. destruct m as [a|e]; simpl; [eauto | discriminate]. Qed.

Lemma fmap_Ok_inv {A B : Type} (f : A -> B) (m : result A) (b : B) :
  f <$> m = Ok b -> exists a, m = Ok a /\ b = f a.
Proof. destruct m as [a|e]; simpl; [intros [= <-]; eauto | discriminate]. Qed.

Ltac inv_bind H :=
  let a := fresh "a" in
  let Ha := fresh "Hrun" in
  apply bind_Ok_inv in H; destruct H as (a & Ha & H).

(** *** Arithmetic of the JavaScript helpers *)

Lemma clamp_value_range (lo hi x : Q) :
  lo <= hi -> lo <= EE.clamp_value lo hi x <= hi.
Proof.
  intros Hle. unfold EE.clamp_value. split.
  - apply Q.le_max_l.
  - apply Q.max_lub; [exact Hle | apply Q.le_min_l].
Qed.

Lemma pow10_pos (d : nat) : 0 < Js.pow10 d.
Proof.
  unfold Js.pow10. change 0 with (inject_Z 0). rewrite <- Zlt_Qlt.
  apply Z.pow_pos_nonneg; lia.
Qed.

Lemma Qfloor_half_le (y : Q) (k : Z) :
  y <= inject_Z k -> (Qfloor (y + (1 # 2)) <= k)%Z.
Proof.
  intros Hy.
  assert (H1 : inject_Z (Qfloor (y + (1 # 2))) <= y + (1 # 2)) by apply Qfloor_le.
  assert (H2 : inject_Z (Qfloor (y + (1 # 2))) < inject_Z (k + 1)).
  { rewrite inject_Z_plus. change (inject_Z 1) with 1. lra. }
  rewrite <- Zlt_Qlt in H2. lia.
Qed.

Lemma Qfloor_half_ge (y : Q) (k : Z) :
  inject_Z k <= y -> (k <= Qfloor (y + (1 # 2)))%Z.
Proof.
  intros Hy.
  assert (H1 : y + (1 # 2) < inject_Z (Qfloor (y + (1 # 2)) + 1)) by apply Qlt_floor.
  rewrite inject_Z_plus in H1. change (inject_Z 1) with 1 in H1.
  assert (H2 : inject_Z k < inject_Z (Qfloor (y + (1 # 2)) + 1)).
  { rewrite inject_Z_plus. change (inject_Z 1) with 1. lra. }
  rewrite <- Zlt_Qlt in H2. lia.
Qed.

Lemma toFixed_range (d : nat) (m : Z) (x : Q) :
  0 <= x <= inject_Z m -> 0 <= Js.toFixed d x <= inject_Z m.
Proof.
  intros [H0 Hm]. unfold Js.toFixed.
  assert (Hb : Qle_bool 0 x = true) by (apply Qle_bool_iff; exact H0).
  rewrite Hb. pose proof (pow10_pos d) as Hp.
  assert (Hlo : (0 <= Qfloor (x * Js.pow10 d + (1 # 2)))%Z).
  { apply Qfloor_half_ge. change (inject_Z 0) with 0. nra. }
  assert (Hhi : (Qfloor (x * Js.pow10 d + (1 # 2)) <= m * 10 ^ Z.of_nat d)%Z).
  { apply Qfloor_half_le. rewrite inject_Z_mult. fold (Js.pow10 d). nra. }
  rewrite Zle_Qle in Hlo, Hhi. rewrite inject_Z_mult in Hhi. fold (Js.pow10 d) in Hhi.
  change (inject_Z 0) with 0 in Hlo.
  split.
  - apply Qle_shift_div_l; [exact Hp | lra].
  - apply Qle_shift_div_r; [exact Hp | lra].
Qed.

(** *** Reducers stay within the range of their inputs *)

Lemma sum_values_range (lo hi : Q) (l : list Q) :
  Forall (within lo hi) l ->
  inject_Z (Z.of_nat (List.length l)) * lo <= EE.sum_values l
  /\ EE.sum_values l <= inject_Z (Z.of_nat (List.length l)) * hi.
Proof.
  induction 1 as [|x l [Hx1 Hx2] _ [IH1 IH2]].
  - simpl. change (inject_Z (Z.of_nat 0)) with 0. split; lra.
  - cbn [List.length EE.sum_values foldr]. fold (EE.sum_values l).
    rewrite Nat2Z.inj_succ, <- Z.add_1_r, inject_Z_plus.
    change (inject_Z 1) with 1. split; lra.
Qed.

Lemma Reducer_mean_range (lo hi : Q) (l : list Q) (m : Q) :
  Forall (within lo hi) l -> EE.Reducer_mean l = Some m -> within lo hi m.
Proof.
  intros Hall Hm. destruct (sum_values_range lo hi _ Hall) as [H1 H2].
  assert (Hn : 0 < inject_Z (Z.of_nat (List.length l))).
  { change 0 with (inject_Z 0). rewrite <- Zlt_Qlt.
    destruct l; [discriminate | simpl List.length; lia]. }
  assert (Hm' : m = EE.sum_values l / inject_Z (Z.of_nat (List.length l))).
  { destruct l; [discriminate | injection Hm as <-; reflexivity]. }
  subst m. split.
  - apply Qle_shift_div_l; [exact Hn | lra].
  - apply Qle_shift_div_r; [exact Hn | lra].
Qed.

Lemma foldr_Qmin_range (lo hi x : Q) (l : list Q) :
  within lo hi x -> Forall (within lo hi) l -> within lo hi (foldr Qmin x l).
Proof.
  intros Hx. induction 1 as [|y l [Hy1 Hy2] _ [IH1 IH2]]; [exact Hx|].
  simpl. split.
  - apply Q.min_glb; assumption.
  - eapply Qle_trans; [apply Q.le_min_l | exact Hy2].
Qed.

Lemma foldr_Qmax_range (lo hi x : Q) (l : list Q) :
  within lo hi x -> Forall (within lo hi) l -> within lo hi (foldr Qmax x l).
Proof.
  intros Hx. induction 1 as [|y l [Hy1 Hy2] _ [IH1 IH2]]; [exact Hx|].
  simpl. split.
  - eapply Qle_trans; [exact Hy1 | apply Q.le_max_l].
  - apply Q.max_lub; assumption.
Qed.

Lemma Reducer_min_range (lo hi : Q) (l : list Q) (m : Q) :
  Forall (within lo hi) l -> EE.Reducer_min l = Some m -> within lo hi m.
Proof.
  intros Hall Hm. destruct l as [|x l]; [discriminate|].
  injection Hm as <-. inversion Hall; subst. now apply foldr_Qmin_range.
Qed.

Lemma Reducer_max_range (lo hi : Q) (l : list Q) (m : Q) :
  Forall (within lo hi) l -> EE.Reducer_max l = Some m -> within lo hi m.
Proof.
  intros Hall Hm. destruct l as [|x l]; [discriminate|].
  injection Hm as <-. inversion Hall; subst. now apply foldr_Qmax_range.
Qed.

(** [v || 0] stays in a range that holds zero. *)
Lemma or_zero_range (lo hi : Q) (o : option Q) :
  lo <= 0 <= hi -> (forall q, o = Some q -> within lo hi q) ->
  within lo hi (Js.or_zero (Some (EE.to_value o))).
Proof.
  intros H0 Hq. destruct o as [q|]; simpl; [|exact H0].
  destruct (Qeq_bool q 0); [exact H0 | now apply Hq].
Qed.

Lemma region_values_Forall (P : Q -> Prop) (r : EE.raster) (cells : list EE.pixel) :
  (forall p v, r p = Some v -> P v) -> Forall P (EE.region_values r cells).
Proof.
  intros Hr. unfold EE.region_values. induction cells as [|c cells IH]; simpl.
  - constructor.
  - destruct (r c) as [v|] eqn:Hc; simpl; [constructor; eauto | exact IH].
Qed.

(** *** What [calculateImageStatistics] reads *)

Lemma suffix_ne (band a b : string) : a <> b -> band +:+ a <> band +:+ b.
Proof. intros Hne Heq. apply Hne. eapply String.app_inj, Heq. Qed.

Lemma select_band_inv (img : EE.image) (band : string) (r : EE.raster) :
  EE.select_band img band = Ok r -> img !! band = Some r.
Proof. unfold EE.select_band. destruct (img !! band); [intros [= ->]; reflexivity | discriminate]. Qed.

Lemma reduceRegion_lookup (ee : Agb.EarthEngine) (img : EE.image) (band : string)
    (g : EE.geometry) (r : EE.raster) :
  img !! band = Some r ->
  exists res, Agb.reduceRegion ee img band g = Ok res /\
    let vs := EE.region_values r (Agb.region ee g) in
    res !! (band +:+ "_mean") = Some (EE.to_value (EE.Reducer_mean vs)) /\
    res !! (band +:+ "_min") = Some (EE.to_value (EE.Reducer_min vs)) /\
    res !! (band +:+ "_max") = Some (EE.to_value (EE.Reducer_max vs)) /\
    res !! (band +:+ "_stdDev") = Some (EE.to_value (Agb.Reducer_stdDev ee vs)).
Proof.
  intros Hr. unfold Agb.reduceRegion, EE.select_band. rewrite Hr. simpl.
  eexists; split; [reflexivity|]. cbn zeta.
  repeat split.
  - apply lookup_insert_eq.
  - rewrite lookup_insert_ne by (apply suffix_ne; discriminate).
    apply lookup_insert_eq.
  - do 2 rewrite lookup_insert_ne by (apply suffix_ne; discriminate).
    apply lookup_insert_eq.
  - do 3 rewrite lookup_insert_ne by (apply suffix_ne; discriminate).
    apply lookup_insert_eq.
Qed.

Lemma calculateImageStatistics_run (ee : Agb.EarthEngine) (img : EE.image)
    (band : string) (g : EE.geometry) (r : EE.raster) :
  Agb.ensureInitialized ee = Ok tt -> img !! band = Some r ->
  Agb.calculateImageStatistics ee (Ok img) band g = Ok (stats_of ee r g).
Proof.
  intros Hinit Hr. unfold Agb.calculateImageStatistics. rewrite Hinit. simpl.
  destruct (reduceRegion_lookup ee img band g r Hr) as (res & -> & H1 & H2 & H3 & H4).
  simpl. unfold stats_of. cbn zeta in *. rewrite H1, H2, H3, H4. reflexivity.
Qed.

Lemma calculateImageStatistics_inv (ee : Agb.EarthEngine) (img : result EE.image)
    (band : string) (g : EE.geometry) (st : Agb.band_stats) :
  Agb.calculateImageStatistics ee img band g = Ok st ->
  Agb.ensureInitialized ee = Ok tt /\
  exists i r, img = Ok i /\ i !! band = Some r /\ st = stats_of ee r g.
Proof.
  intros H. unfold Agb.calculateImageStatistics in H.
  inv_bind H. destruct a. split; [exact Hrun|].
  inv_bind H. inv_bind H. exists a.
  unfold Agb.reduceRegion in Hrun1. inv_bind Hrun1.
  apply select_band_inv in Hrun2. exists a1. split; [assumption|]. split; [assumption|].
  pose proof (calculateImageStatistics_run ee a band g a1 Hrun Hrun2) as Hrun'.
  unfold Agb.calculateImageStatistics in Hrun'. rewrite Hrun in Hrun'. simpl in Hrun'.
  unfold Agb.reduceRegion in Hrun'. 
  assert (Hs : EE.select_band a band = Ok a1) by (unfold EE.select_band; now rewrite Hrun2).
  rewrite Hs in Hrun'. simpl in Hrun'. injection Hrun1 as <-. simpl in H.
  congruence.
Qed.

Lemma stats_of_range (ee : Agb.EarthEngine) (r : EE.raster) (g : EE.geometry)
    (lo hi : Q) :
  lo <= 0 <= hi -> (forall p v, r p = Some v -> within lo hi v) ->
  within lo hi (Agb.mean (stats_of ee r g)) /\
  within lo hi (Agb.min (stats_of ee r g)) /\
  within lo hi (Agb.max (stats_of ee r g)).
Proof.
  intros H0 Hr.
  pose proof (region_values_Forall (within lo hi) r (Agb.region ee g) Hr) as Hall.
  unfold stats_of. cbn [Agb.mean Agb.min Agb.max]. split; [|split].
  all: apply or_zero_range; [exact H0|]; intros q Hq.
  - eapply Reducer_mean_range; eassumption.
  - eapply Reducer_min_range; eassumption.
  - eapply Reducer_max_range; eassumption.
Qed.

(** *** The regression layer *)

Lemma clamp_rename_lookup (lo hi : Q) (name band : string) (agb r : EE.raster) :
  EE.clamp lo hi (EE.rename name agb) !! band = Some r ->
  band = name /\ r = (fun p => EE.clamp_value lo hi <$> agb p).
Proof.
  unfold EE.clamp, EE.rename. rewrite lookup_fmap.
  destruct (decide (name = band)) as [->|Hne].
  - rewrite lookup_singleton_eq. simpl. intros [= <-]. split; reflexivity.
  - rewrite lookup_singleton_ne by exact Hne. discriminate.
Qed.

Lemma calculateAGB_inv (h : EE.image) (hasCH : bool) (img : EE.image) :
  Agb.calculateAGB h hasCH = Ok img ->
  exists agb, Agb.regression h hasCH = Ok agb /\
              img = EE.clamp 0 500 (EE.rename "AGB" agb).
Proof.
  unfold Agb.calculateAGB. intros H. inv_bind H. injection H as <-. eauto.
Qed.

Lemma calculateAGB_clamped (h : EE.image) (hasCH : bool) (img : EE.image) :
  Agb.calculateAGB h hasCH = Ok img ->
  forall band r p v, img !! band = Some r -> r p = Some v -> 0 <= v <= 500.
Proof.
  intros H band r p v Hband Hp.
  apply calculateAGB_inv in H as (agb & _ & ->).
  apply clamp_rename_lookup in Hband as [-> ->].
  destruct (agb p) as [x|]; simpl in Hp; [|discriminate].
  injection Hp as <-. apply clamp_value_range. lra.
Qed.

(** *** The layers of one date *)

Lemma buildLayers_inv (ee : Agb.EarthEngine) (g : EE.geometry) (t : Z)
    (L : Agb.layers) :
  Agb.buildLayers ee g t = Ok L ->
  Agb.findClosestDataWindow ee g t 3 = Ok (Agb.window L) /\
  Agb.ensureInitialized ee = Ok tt /\
  Agb.gedi L =
    Agb.checkGEDI ee g (Agb.startDate (Agb.window L)) (Agb.endDate (Agb.window L)) /\
  Agb.agbImage L =
    (h ← Agb.harmonizedImage L; Agb.calculateAGB h (Agb.hasCanopyHeight (Agb.gedi L))) /\
  exists s2Composite s1Composite,
    Agb.getSentinel2Composite ee g (Agb.startDate (Agb.window L))
      (Agb.endDate (Agb.window L)) = Ok (s2Composite, Agb.s2Collection L) /\
    Agb.getSentinel1Composite ee g (Agb.startDate (Agb.window L))
      (Agb.endDate (Agb.window L)) = Ok (s1Composite, Agb.s1Collection L) /\
    Agb.harmonizedImage L =
      Agb.harmonizeResolution ee s2Composite s1Composite
        (Agb.gediHeight (Agb.gedi L)) 10 (Agb.hasCanopyHeight (Agb.gedi L)).
Proof.
  unfold Agb.buildLayers. intros H.
  inv_bind H. inv_bind H. destruct a0 as [s2Composite s2Coll].
  inv_bind H. destruct a0 as [s1Composite s1Coll].
  injection H as <-. cbn.
  assert (Hinit : Agb.ensureInitialized ee = Ok tt).
  { unfold Agb.getSentinel2Composite in Hrun0. inv_bind Hrun0. now destruct a0. }
  repeat split; try assumption; try reflexivity.
  exists s2Composite, s1Composite. repeat split; assumption.
Qed.

Lemma agbImage_inv (ee : Agb.EarthEngine) (g : EE.geometry) (t : Z)
    (L : Agb.layers) (agb : EE.image) :
  Agb.buildLayers ee g t = Ok L -> Agb.agbImage L = Ok agb ->
  exists h, Agb.harmonizedImage L = Ok h /\
            Agb.calculateAGB h (Agb.hasCanopyHeight (Agb.gedi L)) = Ok agb.
Proof.
  intros HL Hagb. apply buildLayers_inv in HL as (_ & _ & _ & Himg & _).
  rewrite Himg in Hagb. inv_bind Hagb. eauto.
Qed.

Lemma agb_statistics_inv (ee : Agb.EarthEngine) (g : EE.geometry) (t : Z)
    (r : Agb.AGBResult) :
  Agb.calculateAGBForDate ee g t = Ok r ->
  exists L agb band,
    Agb.buildLayers ee g t = Ok L /\ Agb.agbImage L = Ok agb /\
    agb !! "AGB" = Some band /\
    (forall name raster p v,
       agb !! name = Some raster -> raster p = Some v -> 0 <= v <= 500) /\
    Agb.meanAGB r = Js.toFixed 2 (Agb.mean (stats_of ee band g)) /\
    Agb.minAGB r = Js.toFixed 2 (Agb.min (stats_of ee band g)) /\
    Agb.maxAGB r = Js.toFixed 2 (Agb.max (stats_of ee band g)).
Proof.
  intros H. unfold Agb.calculateAGBForDate in H.
  inv_bind H. rename a into L. inv_bind H. inv_bind H.
  do 11 inv_bind H. injection H as <-. cbn [Agb.meanAGB Agb.minAGB Agb.maxAGB].
  apply calculateImageStatistics_inv in Hrun1 as (_ & agb & band & Hagb & Hband & ->).
  destruct (agbImage_inv ee g t L agb Hrun Hagb) as (h & Hh & Hcalc).
  exists L, agb, band. repeat (split; [first [assumption | reflexivity]|]).
  split; [|auto]. exact (calculateAGB_clamped _ _ _ Hcalc).
Qed.

Lemma meanAGB_nonneg_rounded (ee : Agb.EarthEngine) (g : EE.geometry) (t : Z)
    (r : Agb.AGBResult) :
  Agb.calculateAGBForDate ee g t = Ok r ->
  0 <= Agb.meanAGB r /\ exists x, Agb.meanAGB r = Js.toFixed 2 x.
Proof.
  intros H.
  destruct (agb_statistics_inv _ _ _ _ H)
    as (L & agb & band & _ & _ & Hband & Hpx & Hmean & _).
  split; [|eauto]. rewrite Hmean.
  apply (toFixed_range 2 500).
  apply (stats_of_range ee band g 0 500); [lra|].
  intros p v. apply (Hpx "AGB" band p v Hband).
Qed.

(** Claim C1.  Every AGB value the pipeline produces for a date lies in
    [0, 500] t/ha: each pixel of the AGB layer (the full and the reduced
    model alike are clamped by [calculateAGB]), and therefore the reported
    [meanAGB], [minAGB] and [maxAGB]. *)
Theorem agb_within_0_500 (ee : Agb.EarthEngine) (g : EE.geometry) (t : Z)
    (r : Agb.AGBResult) :
  Agb.calculateAGBForDate ee g t = Ok r ->
  0 <= Agb.meanAGB r <= 500 /\
  0 <= Agb.minAGB r <= 500 /\
  0 <= Agb.maxAGB r <= 500 /\
  exists L agb,
    Agb.buildLayers ee g t = Ok L /\ Agb.agbImage L = Ok agb /\
    forall band raster p v,
      agb !! band = Some raster -> raster p = Some v -> 0 <= v <= 500.
Proof.
  intros H.
  destruct (agb_statistics_inv _ _ _ _ H)
    as (L & agb & band & HL & Hagb & Hband & Hpx & -> & -> & ->).
  destruct (stats_of_range ee band g 0 500 ltac:(lra)
              (fun p v => Hpx "AGB" band p v Hband)) as (Hmean & Hmin & Hmax).
  split; [|split; [|split]].
  - apply (toFixed_range 2 500). exact Hmean.
  - apply (toFixed_range 2 500). exact Hmin.
  - apply (toFixed_range 2 500). exact Hmax.
  - exists L, agb. auto.
Qed.

Lemma agb_within_0_500_witness :
  exists r,
    Agb.calculateAGBForDate (Examples.sample_ee [Examples.sample_shot])
      Examples.sample_geometry Examples.sample_target = Ok r /\
    0 <= Agb.meanAGB r <= 500 /\
    0 <= Agb.minAGB r <= 500 /\
    0 <= Agb.maxAGB r <= 500.
Proof.
  destruct (Agb.calculateAGBForDate (Examples.sample_ee [Examples.sample_shot])
              Examples.sample_geometry Examples.sample_target) as [r|e] eqn:E.
  - exists r. split; [reflexivity|].
    destruct (agb_within_0_500 _ _ _ r E) as (H1 & H2 & H3 & _). auto.
  - vm_compute in E. discriminate.
Defined.
(** *** The regression equation *)

Lemma select_band_run (img : EE.image) (band : string) (r : EE.raster) :
  img !! band = Some r -> EE.select_band img band = Ok r.
Proof. unfold EE.select_band. now intros ->. Qed.

Lemma regression_reduced (h : EE.image) (NDVI EVI VH RVI : EE.raster) :
  h !! "NDVI" = Some NDVI -> h !! "EVI" = Some EVI ->
  h !! "VH" = Some VH -> h !! "RVI" = Some RVI ->
  exists agb, Agb.regression h false = Ok agb /\
    forall p, agb p =
      (n ← NDVI p; e ← EVI p; v ← VH p; r ← RVI p;
       Some (published_reduced n e v r)).
Proof.
  intros H1 H2 H3 H4. unfold Agb.regression.
  rewrite (select_band_run _ _ _ H1), (select_band_run _ _ _ H2),
    (select_band_run _ _ _ H3), (select_band_run _ _ _ H4).
  eexists. split; [reflexivity|].
  intros p. unfold EE.lift2, published_reduced.
  destruct (NDVI p), (EVI p), (VH p), (RVI p); reflexivity.
Qed.

Lemma regression_full (h : EE.image) (NDVI EVI VH RVI CH : EE.raster) :
  h !! "NDVI" = Some NDVI -> h !! "EVI" = Some EVI ->
  h !! "VH" = Some VH -> h !! "RVI" = Some RVI ->
  h !! "CanopyHeight" = Some CH ->
  exists agb, Agb.regression h true = Ok agb /\
    forall p, agb p =
      (n ← NDVI p; e ← EVI p; v ← VH p; r ← RVI p; c ← CH p;
       Some (published_full n e v r c)).
Proof.
  intros H1 H2 H3 H4 H5. unfold Agb.regression.
  rewrite (select_band_run _ _ _ H1), (select_band_run _ _ _ H2),
    (select_band_run _ _ _ H3), (select_band_run _ _ _ H4),
    (select_band_run _ _ _ H5).
  eexists. split; [reflexivity|].
  intros p. unfold EE.lift2, published_full.
  destruct (NDVI p), (EVI p), (VH p), (RVI p), (CH p); reflexivity.
Qed.

Lemma regression_bands (h : EE.image) (hasCH : bool) (agb : EE.raster) :
  Agb.regression h hasCH = Ok agb ->
  exists NDVI EVI VH RVI,
    h !! "NDVI" = Some NDVI /\ h !! "EVI" = Some EVI /\
    h !! "VH" = Some VH /\ h !! "RVI" = Some RVI /\
    (hasCH = true -> exists CH, h !! "CanopyHeight" = Some CH).
Proof.
  unfold Agb.regression. intros H. destruct hasCH.
  - do 5 inv_bind H.
    apply select_band_inv in Hrun, Hrun0, Hrun1, Hrun2, Hrun3.
    exists a, a0, a1, a2. eauto 10.
  - do 4 inv_bind H.
    apply select_band_inv in Hrun, Hrun0, Hrun1, Hrun2.
    exists a, a0, a1, a2. repeat split; try assumption. discriminate.
Qed.

Lemma clamp_rename_AGB (agb : EE.raster) :
  EE.clamp 0 500 (EE.rename "AGB" agb) !! "AGB"
  = Some (fun p => EE.clamp_value 0 500 <$> agb p).
Proof. unfold EE.clamp, EE.rename. rewrite lookup_fmap, lookup_singleton_eq. reflexivity. Qed.

(** Claim C8.  The regression is the fixed linear model with the published
    coefficients (intercept -150, NDVI 200, EVI 150, VH -20, RVI 50,
    canopy height 15): on an image that has the four optical and radar
    bands the reduced variant evaluates, pixel by pixel, to
    -150 + 200 NDVI + 150 EVI - 20 VH + 50 RVI, the full variant adds
    15 CanopyHeight, and [calculateAGB] is that value renamed and clamped. *)
Theorem regression_is_published_model (h : EE.image)
    (NDVI EVI VH RVI : EE.raster) :
  h !! "NDVI" = Some NDVI -> h !! "EVI" = Some EVI ->
  h !! "VH" = Some VH -> h !! "RVI" = Some RVI ->
  Agb.REGRESSION_COEFFICIENTS =
    {| Agb.intercept := -150; Agb.ndvi := 200; Agb.evi := 150;
       Agb.vh := -20; Agb.rvi := 50; Agb.canopyHeight := 15 |} /\
  (exists agb,
     Agb.regression h false = Ok agb /\
     Agb.calculateAGB h false = Ok (EE.clamp 0 500 (EE.rename "AGB" agb)) /\
     forall p, agb p =
       (n ← NDVI p; e ← EVI p; v ← VH p; r ← RVI p;
        Some (-150 + 200 * n + 150 * e + -20 * v + 50 * r))) /\
  (forall CH, h !! "CanopyHeight" = Some CH ->
     exists agb,
       Agb.regression h true = Ok agb /\
       Agb.calculateAGB h true = Ok (EE.clamp 0 500 (EE.rename "AGB" agb)) /\
       forall p, agb p =
         (n ← NDVI p; e ← EVI p; v ← VH p; r ← RVI p; c ← CH p;
          Some (-150 + 200 * n + 150 * e + -20 * v + 50 * r + 15 * c))).
Proof.
  intros H1 H2 H3 H4. split; [reflexivity|]. split.
  - destruct (regression_reduced h _ _ _ _ H1 H2 H3 H4) as (agb & Hagb & Hpx).
    exists agb. split; [exact Hagb|]. split; [|exact Hpx].
    unfold Agb.calculateAGB. rewrite Hagb. reflexivity.
  - intros CH H5.
    destruct (regression_full h _ _ _ _ _ H1 H2 H3 H4 H5) as (agb & Hagb & Hpx).
    exists agb. split; [exact Hagb|]. split; [|exact Hpx].
    unfold Agb.calculateAGB. rewrite Hagb. reflexivity.
Qed.

Lemma regression_is_published_model_witness :
  exists agb,
    Agb.regression Examples.sample_harmonized false = Ok agb /\
    agb (0%Z, 0%Z)
    = Some (-150 + 200 * (4 # 5) + 150 * (1 # 2) + -20 * -15 + 50 * (3 # 5)).
Proof.
  assert (H1 : Examples.sample_harmonized !! "NDVI"
               = Some (Examples.constant_band (4 # 5))) by reflexivity.
  assert (H2 : Examples.sample_harmonized !! "EVI"
               = Some (Examples.constant_band (1 # 2))) by reflexivity.
  assert (H3 : Examples.sample_harmonized !! "VH"
               = Some (Examples.constant_band (-15))) by reflexivity.
  assert (H4 : Examples.sample_harmonized !! "RVI"
               = Some (Examples.constant_band (3 # 5))) by reflexivity.
  destruct (regression_is_published_model _ _ _ _ _ H1 H2 H3 H4)
    as (_ & (agb & Hagb & _ & Hpx) & _).
  exists agb. split; [exact Hagb|]. rewrite Hpx. reflexivity.
Defined.

(** *** The GEDI check and the harmonized bands *)

Lemma size_evaluate_nonneg {A : Type} (c : EE.collection A) (n : Z) :
  EE.size_evaluate c = Ok n -> (0 <= n)%Z.
Proof.
  unfold EE.size_evaluate. intros H. inv_bind H. injection H as <-. lia.
Qed.

Lemma checkGEDI_true (ee : Agb.EarthEngine) (g : EE.geometry) (s e : Z) :
  Agb.hasCanopyHeight (Agb.checkGEDI ee g s e) = true ->
  exists height shots n,
    Agb.gediHeight (Agb.checkGEDI ee g s e) = Some height /\
    Agb.gediCollection (Agb.checkGEDI ee g s e) = Some shots /\
    EE.size_evaluate shots = Ok n /\ (0 < n)%Z.
Proof.
  unfold Agb.checkGEDI.
  destruct (Agb.getGEDICanopyHeight ee g s e) as [[height shots]|err]; [|discriminate].
  destruct (EE.size_evaluate shots) as [n|err] eqn:Hsize; [|discriminate].
  destruct (n =? 0)%Z eqn:Hn; [discriminate|]. cbn. intros _.
  exists height, shots, n. split; [reflexivity|]. split; [reflexivity|].
  split; [exact Hsize|].
  apply size_evaluate_nonneg in Hsize. apply Z.eqb_neq in Hn. lia.
Qed.

Lemma select_lookup (img : EE.image) (names : list string) (r : EE.image) :
  EE.select img names = Ok r ->
  forall k, r !! k = if decide (k ∈ names) then img !! k else None.
Proof.
  revert r. induction names as [|n names IH]; simpl; intros r H k.
  - injection H as <-. rewrite lookup_empty.
    destruct (decide (k ∈ [])) as [Hk|_]; [|reflexivity].
    apply elem_of_nil in Hk. contradiction.
  - destruct (img !! n) as [b|] eqn:Hn; [|discriminate].
    inv_bind H. injection H as <-. specialize (IH a Hrun k).
    destruct (decide (n = k)) as [->|Hne].
    + rewrite lookup_insert_eq. rewrite decide_True by apply list_elem_of_here.
      now rewrite Hn.
    + rewrite lookup_insert_ne by exact Hne. rewrite IH.
      destruct (decide (k ∈ names)) as [Hin|Hin].
      * rewrite decide_True by (now apply list_elem_of_further). reflexivity.
      * rewrite decide_False; [reflexivity|].
        intros Hk. apply elem_of_cons in Hk as [->|Hk]; congruence.
Qed.

(** Without canopy height the harmonized image has exactly the six optical
    and radar bands. *)
Lemma harmonizeResolution_reduced (ee : Agb.EarthEngine)
    (s2 s1 : result EE.image) (gediImage : option (result EE.image))
    (scale : Q) (h : EE.image) :
  Agb.harmonizeResolution ee s2 s1 gediImage scale false = Ok h ->
  h !! "CanopyHeight" = None.
Proof.
  unfold Agb.harmonizeResolution. intros H. do 4 inv_bind H.
  injection H as <-. unfold EE.addBands. apply lookup_union_None. split.
  - rewrite (select_lookup _ _ _ Hrun0). reflexivity.
  - rewrite (select_lookup _ _ _ Hrun2). reflexivity.
Qed.

(** Claim C2.  In every result of [calculateAGBForDate],
    [dataQuality.gediFootprints] is 0 exactly when
    [inputMetrics.canopyHeight] is null; in that case the harmonized image
    has no canopy-height band and the AGB layer is the clamped reduced
    (four-term) equation; when the count is positive the layer is the
    clamped full (five-term) equation. *)
Theorem reduced_model_iff_no_footprints (ee : Agb.EarthEngine)
    (g : EE.geometry) (t : Z) (r : Agb.AGBResult) :
  Agb.calculateAGBForDate ee g t = Ok r ->
  exists L h agb NDVI EVI VH RVI,
    Agb.buildLayers ee g t = Ok L /\
    Agb.harmonizedImage L = Ok h /\
    Agb.agbImage L = Ok (EE.clamp 0 500 (EE.rename "AGB" agb)) /\
    Agb.meanAGB r =
      Js.toFixed 2
        (Agb.mean (stats_of ee (fun p => EE.clamp_value 0 500 <$> agb p) g)) /\
    h !! "NDVI" = Some NDVI /\ h !! "EVI" = Some EVI /\
    h !! "VH" = Some VH /\ h !! "RVI" = Some RVI /\
    (0 <= Agb.gediFootprints (Agb.dataQuality r))%Z /\
    (Agb.gediFootprints (Agb.dataQuality r) = 0%Z <->
     Agb.im_canopyHeight (Agb.inputMetrics r) = None) /\
    (Agb.gediFootprints (Agb.dataQuality r) = 0%Z ->
     h !! "CanopyHeight" = None /\
     Agb.regression h false = Ok agb /\
     forall p, agb p =
       (n ← NDVI p; e ← EVI p; v ← VH p; x ← RVI p;
        Some (published_reduced n e v x))) /\
    ((0 < Agb.gediFootprints (Agb.dataQuality r))%Z ->
     exists CH,
       h !! "CanopyHeight" = Some CH /\
       Agb.regression h true = Ok agb /\
       forall p, agb p =
         (n ← NDVI p; e ← EVI p; v ← VH p; x ← RVI p; c ← CH p;
          Some (published_full n e v x c))).
Proof.
  intros H. unfold Agb.calculateAGBForDate in H.
  inv_bind H. rename a into L. inv_bind H. inv_bind H.
  do 11 inv_bind H. injection H as <-.
  cbn [Agb.meanAGB Agb.dataQuality Agb.gediFootprints Agb.inputMetrics
       Agb.im_canopyHeight].
  apply calculateImageStatistics_inv in Hrun1 as (_ & img & band & Himg & Hband & ->).
  destruct (agbImage_inv ee g t L img Hrun Himg) as (h & Hh & Hcalc).
  apply calculateAGB_inv in Hcalc as (agb & Hreg & ->).
  rewrite clamp_rename_AGB in Hband. injection Hband as <-.
  destruct (regression_bands _ _ _ Hreg) as (NDVI & EVI & VH & RVI & H1 & H2 & H3 & H4 & H5).
  exists L, h, agb, NDVI, EVI, VH, RVI.
  do 8 (split; [first [assumption | reflexivity]|]).
  pose proof (buildLayers_inv _ _ _ _ Hrun) as (_ & _ & Hgedi & _ & s2c & s1c & _ & _ & Hharm).
  destruct (Agb.hasCanopyHeight (Agb.gedi L)) eqn:HasCH.
  - (* full model *)
    rewrite Hgedi in HasCH.
    destruct (checkGEDI_true _ _ _ _ HasCH) as (height & shots & n & _ & Hshots & Hsize & Hn).
    rewrite Hgedi, Hshots, Hsize in Hrun11. injection Hrun11 as <-.
    apply fmap_Ok_inv in Hrun8 as (st & _ & ->). cbn.
    destruct (H5 eq_refl) as (CH & HCH).
    destruct (regression_full h _ _ _ _ _ H1 H2 H3 H4 HCH) as (agb' & Hreg' & Hpx).
    assert (agb' = agb) as -> by congruence.
    split; [lia|]. split; [split; [lia | discriminate]|]. split; [lia|].
    intros _. exists CH. auto.
  - (* reduced model *)
    injection Hrun11 as <-. injection Hrun8 as <-. cbn.
    rewrite Hh in Hharm. symmetry in Hharm.
    apply harmonizeResolution_reduced in Hharm.
    destruct (regression_reduced h _ _ _ _ H1 H2 H3 H4) as (agb' & Hreg' & Hpx).
    assert (agb' = agb) as -> by congruence.
    split; [lia|]. split; [tauto|]. split; [auto | lia].
Qed.

Lemma reduced_model_iff_no_footprints_witness :
  exists r,
    Agb.calculateAGBForDate (Examples.sample_ee []) Examples.sample_geometry
      Examples.sample_target = Ok r /\
    Agb.gediFootprints (Agb.dataQuality r) = 0%Z /\
    Agb.im_canopyHeight (Agb.inputMetrics r) = None.
Proof.
  destruct (Agb.calculateAGBForDate (Examples.sample_ee [])
              Examples.sample_geometry Examples.sample_target) as [r|e] eqn:E.
  - exists r. split; [reflexivity|].
    destruct (reduced_model_iff_no_footprints _ _ _ r E)
      as (L & h & agb & NDVI & EVI & VH & RVI & _ & _ & _ & _ & _ & _ & _ & _ & _ & Hiff & _).
    assert (Hzero : Agb.gediFootprints (Agb.dataQuality r) = 0%Z).
    { vm_compute in E. injection E as <-. reflexivity. }
    split; [exact Hzero | now apply Hiff].
  - vm_compute in E. discriminate.
Defined.

(** *** The adaptive window search *)

Lemma window_size_nonneg (ee : Agb.EarthEngine) (g : EE.geometry) (t k n : Z) :
  window_size ee g t k = Ok n -> (0 <= n)%Z.
Proof. apply size_evaluate_nonneg. Qed.

Lemma search_windows_Ok (ee : Agb.EarthEngine) (g : EE.geometry) (t m : Z)
    (remaining : nat) (k0 : Z) (w : Agb.data_window) :
  Agb.search_windows ee g t m remaining k0 = Ok w <->
  exists k, (k0 <= k < k0 + Z.of_nat remaining)%Z /\
    (forall j, (k0 <= j < k)%Z -> window_size ee g t j = Ok 0%Z) /\
    (exists n, window_size ee g t k = Ok n /\ (0 < n)%Z) /\
    w = window_at ee t k.
Proof.
  revert k0. induction remaining as [|remaining IH]; intros k0.
  - simpl. split; [discriminate|]. intros (k & Hk & _). lia.
  - cbn [Agb.search_windows]. fold (window_size ee g t k0).
    destruct (window_size ee g t k0) as [n|err] eqn:Hsize; cbn.
    + destruct (0 <? n)%Z eqn:Hpos.
      * apply Z.ltb_lt in Hpos. split.
        -- intros [= <-]. exists k0. split; [lia|]. split; [intros; lia|].
           split; [eauto | reflexivity].
        -- intros (k & Hk & Hbefore & (n' & Hn' & Hpos') & ->).
           destruct (Z.eq_dec k k0) as [->|Hne]; [reflexivity|].
           rewrite Hbefore in Hsize by lia. injection Hsize as <-. lia.
      * apply Z.ltb_ge in Hpos. pose proof (window_size_nonneg _ _ _ _ _ Hsize).
        assert (n = 0%Z) as -> by lia.
        rewrite IH. split.
        -- intros (k & Hk & Hbefore & Hfound & ->). exists k.
           split; [lia|]. split; [|auto].
           intros j Hj. destruct (Z.eq_dec j k0) as [->|Hne]; [exact Hsize|].
           apply Hbefore. lia.
        -- intros (k & Hk & Hbefore & (n' & Hn' & Hpos') & ->). exists k.
           assert (k <> k0) by (intros ->; rewrite Hn' in Hsize; injection Hsize; lia).
           split; [lia|]. split; [intros; apply Hbefore; lia | eauto].
    + split; [discriminate|].
      intros (k & Hk & Hbefore & (n' & Hn' & Hpos') & ->).
      destruct (Z.eq_dec k k0) as [->|Hne]; [congruence|].
      rewrite Hbefore in Hsize by lia. discriminate.
Qed.

Lemma search_windows_exhausted (ee : Agb.EarthEngine) (g : EE.geometry)
    (t m : Z) (remaining : nat) (k0 : Z) :
  (forall k, (k0 <= k < k0 + Z.of_nat remaining)%Z ->
             window_size ee g t k = Ok 0%Z) ->
  Agb.search_windows ee g t m remaining k0 = Err (NoSatelliteData m t).
Proof.
  revert k0. induction remaining as [|remaining IH]; intros k0 Hall.
  - reflexivity.
  - cbn [Agb.search_windows]. fold (window_size ee g t k0).
    rewrite Hall by lia. cbn. apply IH. intros k Hk. apply Hall. lia.
Qed.

Lemma Qceiling_le_Z (x : Q) (m : Z) : x <= inject_Z m -> (Qceiling x <= m)%Z.
Proof.
  intros Hx. pose proof (Qceiling_lt x) as Hc.
  assert (H : inject_Z (Qceiling x - 1) < inject_Z m) by lra.
  rewrite <- Zlt_Qlt in H. lia.
Qed.

Lemma Qceiling_ge_Z (x : Q) (m : Z) : inject_Z m < x -> (m < Qceiling x)%Z.
Proof.
  intros Hx. pose proof (Qle_ceiling x) as Hc.
  assert (H : inject_Z m < inject_Z (Qceiling x)) by lra.
  rewrite <- Zlt_Qlt in H. exact H.
Qed.

(** Without a change of clocks between the target and an edge, the edge
    is the target's UTC day moved by the number of days. *)
Lemma window_edge_steady (ee : Agb.EarthEngine) (t days : Z) :
  steady_offset (Agb.timezone ee) t days ->
  Agb.window_edge ee t days = (day_of t + days)%Z.
Proof.
  unfold steady_offset, Agb.window_edge, Js.setDate_plus, Js.UTC,
    Js.toISOString_date, day_of.
  intros ->. unfold Js.LocalTime. change EE.ms_per_day with Js.msPerDay.
  replace (t + Js.LocalTZA (Agb.timezone ee) t true + days * Js.msPerDay
           - Js.LocalTZA (Agb.timezone ee) t true)%Z
    with (t + days * Js.msPerDay)%Z by lia.
  apply Z.div_add. discriminate.
Qed.

(** The window search returns a window exactly when some iteration k
    between 1 and 4 * maxMonthsSearch finds a scene while every earlier
    (narrower) one found none; the window is the one of iteration k, and
    [monthsUsed] is ceil(k / 4), at most maxMonthsSearch.  Where no change
    of clocks lies between the target and the edges, the window is the
    symmetric one of k weeks either side of the target day. *)
Lemma narrowest_window_first (ee : Agb.EarthEngine) (g : EE.geometry)
    (t m : Z) (w : Agb.data_window) :
  (Agb.findClosestDataWindow ee g t m = Ok w <->
   exists k, (1 <= k <= m * 4)%Z /\
     (forall j, (1 <= j < k)%Z -> window_size ee g t j = Ok 0%Z) /\
     (exists n, window_size ee g t k = Ok n /\ (0 < n)%Z) /\
     w = window_at ee t k) /\
  (forall k, (1 <= k <= m * 4)%Z ->
     (1 <= Agb.monthsUsed (window_at ee t k) <= m)%Z /\
     (steady_offset (Agb.timezone ee) t (- (k * 7)) ->
      steady_offset (Agb.timezone ee) t (k * 7) ->
      Agb.startDate (window_at ee t k) = (day_of t - 7 * k)%Z /\
      Agb.endDate (window_at ee t k) = (day_of t + 7 * k)%Z)).
Proof.
  split.
  - unfold Agb.findClosestDataWindow. rewrite search_windows_Ok.
    split; intros (k & Hk & Hrest); exists k; (split; [lia | exact Hrest]).
  - intros k Hk. cbn [window_at Agb.endDate Agb.startDate Agb.monthsUsed].
    split.
    + unfold Js.Math_ceil. split.
      * assert (0 < Qceiling (inject_Z k / 4))%Z; [|lia].
        apply Qceiling_ge_Z. change (inject_Z 0) with 0.
        assert (0 < inject_Z k)
          by (change 0 with (inject_Z 0); rewrite <- Zlt_Qlt; lia).
        apply Qlt_shift_div_l; lra.
      * apply Qceiling_le_Z. apply Qle_shift_div_r; [lra|].
        assert (Hle : inject_Z k <= inject_Z (m * 4)) by (rewrite <- Zle_Qle; lia).
        rewrite inject_Z_mult in Hle. exact Hle.
    + intros Hstart Hend.
      rewrite (window_edge_steady _ _ _ Hstart), (window_edge_steady _ _ _ Hend).
      split; lia.
Qed.

(** Claim C4.  On a server in New York and for the target 2024-03-05, the
    window of one week runs from 2024-02-27 to 2024-03-11: seven days
    before the target day, six after it.  The clear scene of 2024-03-11 is
    left out of it, and the search returns the window of two weeks,
    2024-02-20 to 2024-03-18.  On a server in UTC the same catalogue and
    target give the symmetric window of one week, 2024-02-27 to
    2024-03-12. *)
Theorem window_is_lopsided_across_dst :
  day_of MoreExamples.march_5_2024 = 19787%Z /\
  window_at (MoreExamples.dated_ee MoreExamples.new_york_2024)
    MoreExamples.march_5_2024 1
  = {| Agb.startDate := 19780; Agb.endDate := 19793; Agb.monthsUsed := 1 |} /\
  Agb.findClosestDataWindow (MoreExamples.dated_ee MoreExamples.new_york_2024)
    Examples.sample_geometry MoreExamples.march_5_2024 3
  = Ok {| Agb.startDate := 19773; Agb.endDate := 19800; Agb.monthsUsed := 1 |} /\
  Agb.findClosestDataWindow (MoreExamples.dated_ee Js.utc_zone)
    Examples.sample_geometry MoreExamples.march_5_2024 3
  = Ok {| Agb.startDate := 19780; Agb.endDate := 19794; Agb.monthsUsed := 1 |}.
Proof. repeat split. Qed.


(** Claim C3.  When no window up to the bound holds a scene under the
    cloud-cover threshold, the search fails with the error carrying the
    bound and the target date; with the bound 3 of the AGB route the date's
    computation fails with the same error, and a request with that date
    (as start or as end) is never answered with a result: the route
    answers 500, with this very error when the other date succeeds. *)
Theorem no_data_is_a_hard_failure (ee : Agb.EarthEngine) (g : EE.geometry)
    (t m : Z) :
  (forall k, (1 <= k <= m * 4)%Z -> window_size ee g t k = Ok 0%Z) ->
  Agb.findClosestDataWindow ee g t m = Err (NoSatelliteData m t) /\
  (m = 3%Z ->
   Agb.calculateAGBForDate ee g t = Err (NoSatelliteData 3 t) /\
   (forall other body,
      Agb.POST ee {| Agb.req_geometry := Some g;
                     Agb.req_startDate := Some t;
                     Agb.req_endDate := Some other |}
      <> Http200 body /\
      Agb.POST ee {| Agb.req_geometry := Some g;
                     Agb.req_startDate := Some other;
                     Agb.req_endDate := Some t |}
      <> Http200 body) /\
   (forall other r,
      Agb.calculateAGBForDate ee g other = Ok r ->
      Agb.POST ee {| Agb.req_geometry := Some g;
                     Agb.req_startDate := Some t;
                     Agb.req_endDate := Some other |}
      = Http500 (NoSatelliteData 3 t) /\
      Agb.POST ee {| Agb.req_geometry := Some g;
                     Agb.req_startDate := Some other;
                     Agb.req_endDate := Some t |}
      = Http500 (NoSatelliteData 3 t))).
Proof.
  intros Hnone.
  assert (Hfind : Agb.findClosestDataWindow ee g t m = Err (NoSatelliteData m t)).
  { unfold Agb.findClosestDataWindow. apply search_windows_exhausted.
    intros k Hk. apply Hnone. lia. }
  split; [exact Hfind|]. intros ->.
  assert (Hdate : Agb.calculateAGBForDate ee g t = Err (NoSatelliteData 3 t)).
  { unfold Agb.calculateAGBForDate, Agb.buildLayers. rewrite Hfind. reflexivity. }
  split; [exact Hdate|]. split.
  - intros other body. unfold Agb.POST. cbn. rewrite Hdate. split.
    + discriminate.
    + destruct (Agb.calculateAGBForDate ee g other); discriminate.
  - intros other r Hother. unfold Agb.POST. cbn.
    rewrite Hdate, Hother. split; reflexivity.
Qed.

Lemma no_data_is_a_hard_failure_witness :
  Agb.findClosestDataWindow Examples.sparse_ee Examples.sample_geometry
    Examples.sample_target 3
  = Err (NoSatelliteData 3 Examples.sample_target) /\
  Agb.calculateAGBForDate Examples.sparse_ee Examples.sample_geometry
    Examples.sample_target
  = Err (NoSatelliteData 3 Examples.sample_target).
Proof.
  assert (Hnone : forall k, (1 <= k <= 3 * 4)%Z ->
            window_size Examples.sparse_ee Examples.sample_geometry
              Examples.sample_target k = Ok 0%Z).
  { intros k Hk.
    assert (Hcases : (k = 1 \/ k = 2 \/ k = 3 \/ k = 4 \/ k = 5 \/ k = 6 \/ k = 7
                      \/ k = 8 \/ k = 9 \/ k = 10 \/ k = 11 \/ k = 12)%Z) by lia.
    repeat (destruct Hcases as [-> | Hcases]; [vm_compute; reflexivity|]).
    subst k. vm_compute. reflexivity. }
  destruct (no_data_is_a_hard_failure Examples.sparse_ee Examples.sample_geometry
              Examples.sample_target 3 Hnone) as (Hfind & Hrest).
  split; [exact Hfind|]. exact (proj1 (Hrest eq_refl)).
Defined.

(** *** Rounding to decimals *)

Lemma Qfloor_half_Z (y : Q) (k : Z) : y == inject_Z k -> Qfloor (y + (1 # 2)) = k.
Proof.
  intros Hy. apply Z.le_antisymm.
  - apply Qfloor_half_le. lra.
  - apply Qfloor_half_ge. lra.
Qed.

(** A number with at most [d] decimals is left as it is. *)
Lemma toFixed_exact (d : nat) (x : Q) (k : Z) :
  x * Js.pow10 d == inject_Z k -> Js.toFixed d x == x.
Proof.
  intros Hk. pose proof (pow10_pos d) as Hp. unfold Js.toFixed.
  destruct (Qle_bool 0 x).
  - rewrite (Qfloor_half_Z _ k Hk). rewrite <- Hk. field. lra.
  - assert (Hk' : - x * Js.pow10 d == inject_Z (- k)).
    { rewrite inject_Z_opp. lra. }
    rewrite (Qfloor_half_Z _ (- k) Hk'). rewrite <- Hk'. field. lra.
Qed.

Lemma toFixed_decimal (d : nat) (x : Q) :
  exists k, Js.toFixed d x * Js.pow10 d == inject_Z k.
Proof.
  pose proof (pow10_pos d) as Hp. unfold Js.toFixed.
  destruct (Qle_bool 0 x).
  - exists (Qfloor (x * Js.pow10 d + (1 # 2))). field. lra.
  - exists (- Qfloor (- x * Js.pow10 d + (1 # 2)))%Z.
    rewrite inject_Z_opp. field. lra.
Qed.

Lemma toFixed_zero (d : nat) (x : Q) : x == 0 -> Js.toFixed d x == 0.
Proof.
  intros Hx. rewrite (toFixed_exact d x 0); [exact Hx|].
  rewrite Hx. change (inject_Z 0) with 0. lra.
Qed.

(** The difference of two rounded numbers needs no further rounding. *)
Lemma toFixed_difference (d : nat) (x y : Q) :
  Js.toFixed d (Js.toFixed d x - Js.toFixed d y)
  == Js.toFixed d x - Js.toFixed d y.
Proof.
  destruct (toFixed_decimal d x) as [kx Hx], (toFixed_decimal d y) as [ky Hy].
  apply (toFixed_exact d _ (kx - ky)).
  unfold Z.sub. rewrite inject_Z_plus, inject_Z_opp. lra.
Qed.

(** *** Comparisons *)

Lemma gt_true (a b : Q) : b < a -> Js.gt a b = true.
Proof.
  intros Hlt. unfold Js.gt. destruct (Qle_bool a b) eqn:Hle; [|reflexivity].
  apply Qle_bool_iff in Hle. lra.
Qed.

Lemma gt_false (a b : Q) : a <= b -> Js.gt a b = false.
Proof.
  intros Hle. unfold Js.gt. apply Qle_bool_iff in Hle. now rewrite Hle.
Qed.

Lemma or_zero_num (q : Q) : Js.or_zero (Some (Js.VNum q)) == q.
Proof.
  simpl. destruct (Qeq_bool q 0) eqn:Hq; [|reflexivity].
  apply Qeq_bool_iff in Hq. now rewrite Hq.
Qed.

(** *** Region statistics default to zero *)

(** Claim C5, as amended.  A masked pixel adds nothing to the values a
    region reduction sees.  Over an image that has the band,
    [calculateImageStatistics] succeeds; when no unmasked pixel of the band
    lies in the region, mean, min and max are reported as the number 0
    (the [|| 0] default), as is a standard deviation the platform leaves
    out, and any aggregate that is present is reported as it is.  Over an
    image without the band, such as the composite of an empty collection,
    and over an image that failed, the call fails: no statistic is
    reported. *)
Theorem statistics_default_to_zero (ee : Agb.EarthEngine) (img : EE.image)
    (band : string) (g : EE.geometry) :
  Agb.ensureInitialized ee = Ok tt ->
  (forall (r : EE.raster) p cells,
     r p = None -> EE.region_values r (p :: cells) = EE.region_values r cells) /\
  (forall r : EE.raster, img !! band = Some r ->
   exists st,
     Agb.calculateImageStatistics ee (Ok img) band g = Ok st /\
     (EE.region_values r (Agb.region ee g) = [] ->
      Agb.mean st = 0 /\ Agb.min st = 0 /\ Agb.max st = 0) /\
     (Agb.Reducer_stdDev ee (EE.region_values r (Agb.region ee g)) = None ->
      Agb.stdDev st = 0) /\
     (forall m, EE.Reducer_mean (EE.region_values r (Agb.region ee g)) = Some m ->
                Agb.mean st == m) /\
     (forall m, EE.Reducer_min (EE.region_values r (Agb.region ee g)) = Some m ->
                Agb.min st == m) /\
     (forall m, EE.Reducer_max (EE.region_values r (Agb.region ee g)) = Some m ->
                Agb.max st == m) /\
     (forall m,
        Agb.Reducer_stdDev ee (EE.region_values r (Agb.region ee g)) = Some m ->
        Agb.stdDev st == m)) /\
  (img !! band = None ->
   Agb.calculateImageStatistics ee (Ok img) band g
   = Err (RemoteError ("Image.select: no band named " +:+ band))) /\
  (forall e, Agb.calculateImageStatistics ee (Err e) band g = Err e).
Proof.
  intros Hinit. split; [|split; [|split]].
  - intros r p cells Hp. unfold EE.region_values. simpl. now rewrite Hp.
  - intros r Hr. exists (stats_of ee r g).
    split; [now apply calculateImageStatistics_run|].
    unfold stats_of. cbn [Agb.mean Agb.min Agb.max Agb.stdDev].
    split; [|split; [|split; [|split; [|split]]]].
    + intros ->. repeat split.
    + intros ->. reflexivity.
    + intros m ->. apply or_zero_num.
    + intros m ->. apply or_zero_num.
    + intros m ->. apply or_zero_num.
    + intros m ->. apply or_zero_num.
  - intros Hnone.
    assert (Hsel : EE.select_band img band
                   = Err (RemoteError ("Image.select: no band named " +:+ band)))
      by (unfold EE.select_band; now rewrite Hnone).
    unfold Agb.calculateImageStatistics, Agb.reduceRegion.
    rewrite Hinit. cbn [mbind result_bind]. rewrite Hsel. reflexivity.
  - intros e. unfold Agb.calculateImageStatistics. rewrite Hinit. reflexivity.
Qed.

Lemma statistics_default_to_zero_witness :
  (exists st,
     Agb.calculateImageStatistics (Examples.sample_ee [])
       (Ok Examples.masked_image) "AGB" Examples.sample_geometry = Ok st /\
     Agb.mean st = 0 /\ Agb.min st = 0 /\ Agb.max st = 0) /\
  Agb.calculateImageStatistics (Examples.sample_ee [])
    (Ok Examples.masked_image) "NDVI" Examples.sample_geometry
  = Err (RemoteError "Image.select: no band named NDVI").
Proof.
  split.
  - assert (Hband : Examples.masked_image !! "AGB" = Some (fun _ => None))
      by reflexivity.
    destruct (statistics_default_to_zero (Examples.sample_ee [])
                Examples.masked_image "AGB" Examples.sample_geometry eq_refl)
      as (_ & Hsome & _).
    destruct (Hsome _ Hband) as (st & Hst & Hempty & _).
    exists st. split; [exact Hst|]. apply Hempty. reflexivity.
  - exact (proj1 (proj2 (proj2
             (statistics_default_to_zero (Examples.sample_ee [])
                Examples.masked_image "NDVI" Examples.sample_geometry eq_refl)))
             eq_refl).
Defined.

(** The statement of C5 in the specification fails: on [masked_gedi_ee]
    one footprint exists but the canopy-height raster is masked over the
    region, so no pixel of the AGB layer contributes, the platform answers
    [null] for the mean, and the route reports 0 for mean, min and max. *)
Lemma masked_pixels_reported_as_zero :
  exists L img res st r,
    Agb.buildLayers Examples.masked_gedi_ee Examples.sample_geometry
      Examples.sample_target = Ok L /\
    Agb.agbImage L = Ok img /\
    Agb.reduceRegion Examples.masked_gedi_ee img "AGB" Examples.sample_geometry
      = Ok res /\
    res !! "AGB_mean" = Some Js.VNull /\
    Agb.calculateImageStatistics Examples.masked_gedi_ee (Ok img) "AGB"
      Examples.sample_geometry = Ok st /\
    Agb.mean st = 0 /\
    Agb.calculateAGBForDate Examples.masked_gedi_ee Examples.sample_geometry
      Examples.sample_target = Ok r /\
    Agb.gediFootprints (Agb.dataQuality r) = 1%Z /\
    Agb.meanAGB r == 0 /\ Agb.minAGB r == 0 /\ Agb.maxAGB r == 0.
Proof.
  do 5 eexists.
  split; [reflexivity|].
  split; [reflexivity|].
  split; [reflexivity|].
  split; [reflexivity|].
  split; [reflexivity|].
  split; [reflexivity|].
  split; [reflexivity|].
  split; [reflexivity|].
  split; [reflexivity|]. split; reflexivity.
Qed.


(** *** Change analysis *)

Lemma POST_inv (ee : Agb.EarthEngine) (req : Agb.request) (b : Agb.body) :
  Agb.POST ee req = Http200 b ->
  exists g start end_ startAGB endAGB,
    Agb.req_geometry req = Some g /\
    Agb.req_startDate req = Some start /\
    Agb.req_endDate req = Some end_ /\
    Agb.calculateAGBForDate ee g start = Ok startAGB /\
    Agb.calculateAGBForDate ee g end_ = Ok endAGB /\
    Agb.body_startDate b = (start, startAGB) /\
    Agb.body_endDate b = (end_, endAGB) /\
    Agb.body_agbChange b =
      Agb.report (Agb.analyseChange startAGB endAGB start end_) /\
    Agb.durationDays (Agb.timePeriod b) =
      Agb.daysDifference (Agb.analyseChange startAGB endAGB start end_) /\
    Agb.durationYears (Agb.timePeriod b) =
      Js.toFixed 2
        (Agb.yearsDifference (Agb.analyseChange startAGB endAGB start end_)).
Proof.
  unfold Agb.POST. intros H.
  destruct (Agb.req_geometry req) as [g|]; [|discriminate].
  destruct (Agb.req_startDate req) as [start|]; [|discriminate].
  destruct (Agb.req_endDate req) as [end_|]; [|discriminate].
  destruct (Agb.calculateAGBForDate ee g start) as [startAGB|] eqn:Hs; [|discriminate].
  destruct (Agb.calculateAGBForDate ee g end_) as [endAGB|] eqn:He; [|discriminate].
  injection H as <-. exists g, start, end_, startAGB, endAGB.
  repeat split; reflexivity || assumption.
Qed.

(** Claim C6.  In every response, the change block is computed from the
    two per-date results: the absolute change is end minus start (exactly,
    also after rounding); the percent change is
    absolute / startMeanAGB * 100 when startMeanAGB is not zero and 0 when
    it is zero, whatever endMeanAGB is; the reported [percentChange] is
    that number rounded to two decimals. *)
Theorem percent_change_guarded (ee : Agb.EarthEngine) (req : Agb.request)
    (b : Agb.body) :
  Agb.POST ee req = Http200 b ->
  exists start end_ startAGB endAGB,
    Agb.body_startDate b = (start, startAGB) /\
    Agb.body_endDate b = (end_, endAGB) /\
    Agb.body_agbChange b =
      Agb.report (Agb.analyseChange startAGB endAGB start end_) /\
    Agb.agbChange (Agb.analyseChange startAGB endAGB start end_)
      = Agb.meanAGB endAGB - Agb.meanAGB startAGB /\
    Agb.meanAGBChange (Agb.body_agbChange b)
      == Agb.meanAGB endAGB - Agb.meanAGB startAGB /\
    (~ Agb.meanAGB startAGB == 0 ->
     Agb.agbChangePercent (Agb.analyseChange startAGB endAGB start end_)
       = (Agb.meanAGB endAGB - Agb.meanAGB startAGB) / Agb.meanAGB startAGB * 100) /\
    (Agb.meanAGB startAGB == 0 ->
     Agb.agbChangePercent (Agb.analyseChange startAGB endAGB start end_) = 0 /\
     Agb.percentChange (Agb.body_agbChange b) == 0) /\
    Agb.percentChange (Agb.body_agbChange b)
      = Js.toFixed 2
          (Agb.agbChangePercent (Agb.analyseChange startAGB endAGB start end_)).
Proof.
  intros H.
  apply POST_inv in H
    as (g & start & end_ & startAGB & endAGB & _ & _ & _ & Hs & He & Hb1 & Hb2 & Hc & _).
  exists start, end_, startAGB, endAGB.
  split; [exact Hb1|]. split; [exact Hb2|]. split; [exact Hc|].
  rewrite Hc. cbn.
  destruct (meanAGB_nonneg_rounded _ _ _ _ Hs) as (Hs0 & xs & Hxs).
  destruct (meanAGB_nonneg_rounded _ _ _ _ He) as (_ & xe & Hxe).
  split; [reflexivity|]. split; [|split; [|split]].
  - rewrite Hxs, Hxe. apply toFixed_difference.
  - intros Hne. rewrite gt_true; [reflexivity|].
    destruct (Qlt_le_dec 0 (Agb.meanAGB startAGB)) as [Hlt|Hle]; [exact Hlt|].
    exfalso. apply Hne. lra.
  - intros Hz. rewrite gt_false by lra. split; [reflexivity|].
    now apply toFixed_zero.
  - reflexivity.
Qed.

Lemma percent_change_guarded_witness :
  exists b,
    Agb.POST (Examples.sample_ee []) Examples.sample_request = Http200 b /\
    Agb.meanAGBChange (Agb.body_agbChange b) == -20 /\
    Agb.percentChange (Agb.body_agbChange b)
      = Js.toFixed 2
          ((Agb.meanAGB (Agb.body_endDate b).2 - Agb.meanAGB (Agb.body_startDate b).2)
           / Agb.meanAGB (Agb.body_startDate b).2 * 100).
Proof.
  destruct (Agb.POST (Examples.sample_ee []) Examples.sample_request)
    as [b|msg|e] eqn:E.
  - exists b. split; [reflexivity|].
    destruct (percent_change_guarded _ _ b E)
      as (s & e & sAGB & eAGB & Hs & He & Hc & _ & Hmean & Hne & _ & Hpct).
    assert (Hvals : Agb.meanAGB sAGB == 415 /\ Agb.meanAGB eAGB == 395).
    { vm_compute in E. injection E as <-.
      injection Hs as <- <-. injection He as <- <-. split; reflexivity. }
    destruct Hvals as [Hv1 Hv2]. rewrite Hs, He. cbn [snd].
    split; [rewrite Hmean; lra|].
    rewrite Hpct, Hne; [reflexivity|]. lra.
  - vm_compute in E. discriminate.
  - vm_compute in E. discriminate.
Defined.






(** *** Sorting the area statistics *)

Section SortByKey.
Context {A : Type} (key : A -> Q).

Local Abbreviation descending := (descending_by key).
Local Abbreviation by_key_descending := (compare_descending key).

Lemma sort_insert_perm (x : A) (l : list A) :
  Permutation (Js.sort_insert by_key_descending x l) (x :: l).
Proof.
  induction l as [|y l IH]; simpl; [reflexivity|].
  destruct (Js.gt (by_key_descending x y) 0); [|reflexivity].
  rewrite IH. apply perm_swap.
Qed.

Lemma sort_perm (l : list A) : Permutation (Js.sort by_key_descending l) l.
Proof.
  induction l as [|x l IH]; simpl; [reflexivity|].
  fold (Js.sort by_key_descending l).
  rewrite sort_insert_perm. now constructor.
Qed.

Lemma sort_insert_HdRel (y x : A) (l : list A) :
  descending y x -> HdRel descending y l ->
  HdRel descending y (Js.sort_insert by_key_descending x l).
Proof.
  intros Hyx Hl. destruct l as [|z l]; simpl; [now constructor|].
  destruct (Js.gt (by_key_descending x z) 0); constructor;
    [now inversion Hl | exact Hyx].
Qed.

Lemma sort_insert_sorted (x : A) (l : list A) :
  Sorted descending l -> Sorted descending (Js.sort_insert by_key_descending x l).
Proof.
  induction 1 as [|y l Hsorted IH Hhd]; simpl.
  - repeat constructor.
  - unfold Js.gt, by_key_descending at 1.
    destruct (Qle_bool (key y - key x) 0) eqn:Hcmp; simpl.
    + apply Qle_bool_iff in Hcmp. constructor; [now constructor|].
      constructor. unfold descending. lra.
    + assert (Hlt : ~ key y - key x <= 0).
      { intros Hle. apply Qle_bool_iff in Hle. congruence. }
      constructor; [exact IH|]. apply sort_insert_HdRel; [|exact Hhd].
      unfold descending. lra.
Qed.

Lemma sort_sorted (l : list A) : Sorted descending (Js.sort by_key_descending l).
Proof.
  induction l as [|x l IH]; simpl; [constructor|].
  now apply sort_insert_sorted.
Qed.

Lemma sort_strongly_sorted (l : list A) :
  StronglySorted descending (Js.sort by_key_descending l).
Proof.
  apply Sorted_StronglySorted; [|apply sort_sorted].
  intros a b c Hab Hbc. unfold descending in *. lra.
Qed.

End SortByKey.

Lemma Math_round_close (x : Q) :
  - (1 # 2) <= inject_Z (Js.Math_round x) - x <= 1 # 2.
Proof.
  unfold Js.Math_round.
  pose proof (Qfloor_le (x + (1 # 2))) as Hlo.
  pose proof (Qlt_floor (x + (1 # 2))) as Hhi.
  rewrite inject_Z_plus in Hhi. change (inject_Z 1) with 1 in Hhi.
  split; lra.
Qed.

(** Claim C9, as amended.  [processAreaStatistics] returns one entry per
    group, in descending order of [areaHectares].  The two areas of an
    entry are separate roundings of its group's area: [areaSquareMeters]
    is the area rounded to an integer, [areaHectares] has two decimals and
    is within 0.005 of the area / 10000, so [areaHectares] is within
    0.00505 of [areaSquareMeters] / 10000 and need not be equal to it.
    The [areaStatistics] of every response is such a list. *)
Theorem area_statistics_sorted_descending (stats : LandCover.area_stats)
    (classes : gmap Z string) :
  StronglySorted
    (fun a b => LandCover.areaHectares b <= LandCover.areaHectares a)
    (LandCover.processAreaStatistics stats classes) /\
  Permutation
    (LandCover.entry_class <$> LandCover.processAreaStatistics stats classes)
    (LandCover.class <$> default [] (LandCover.groups stats)) /\
  (forall e, e ∈ LandCover.processAreaStatistics stats classes ->
     exists g, g ∈ default [] (LandCover.groups stats) /\
       LandCover.entry_class e = LandCover.class g /\
       LandCover.areaSquareMeters e = Js.Math_round (LandCover.sum g) /\
       (exists k, LandCover.areaHectares e == inject_Z k / 100) /\
       - (1 # 200) <= LandCover.areaHectares e - LandCover.sum g / 10000 <= 1 # 200 /\
       - (1 # 2) <= inject_Z (LandCover.areaSquareMeters e) - LandCover.sum g <= 1 # 2 /\
       - (101 # 20000)
         <= LandCover.areaHectares e - inject_Z (LandCover.areaSquareMeters e) / 10000
         <= 101 # 20000) /\
  (forall (Image Collection : Type) (ee : LandCover.EarthEngine Image Collection)
          req b,
     LandCover.POST ee req = Http200 b ->
     exists st, LandCover.areaStatistics b
                = LandCover.processAreaStatistics st
                    (LandCover.classes (LandCover.body_classification b))).
Proof.
  assert (Hperm :
    Permutation (LandCover.processAreaStatistics stats classes)
      (LandCover.area_of_group classes <$> default [] (LandCover.groups stats))).
  { unfold LandCover.processAreaStatistics.
    destruct (LandCover.groups stats) as [gs|]; [|reflexivity].
    apply (sort_perm LandCover.areaHectares). }
  split; [|split; [|split]].
  - unfold LandCover.processAreaStatistics.
    destruct (LandCover.groups stats) as [gs|]; [|constructor].
    apply (sort_strongly_sorted LandCover.areaHectares).
  - rewrite Hperm, <- list_fmap_compose. reflexivity.
  - intros e He. rewrite Hperm in He.
    apply list_elem_of_fmap in He as (grp & -> & Hgrp).
    exists grp. split; [exact Hgrp|].
    cbn [LandCover.area_of_group LandCover.entry_class LandCover.areaHectares
         LandCover.areaSquareMeters].
    split; [reflexivity|]. split; [reflexivity|].
    split; [eexists; reflexivity|].
    pose proof (Math_round_close (LandCover.sum grp / 10000 * 100)) as H1.
    pose proof (Math_round_close (LandCover.sum grp)) as H2.
    set (z := inject_Z (Js.Math_round (LandCover.sum grp / 10000 * 100))) in *.
    set (m := inject_Z (Js.Math_round (LandCover.sum grp))) in *.
    set (s := LandCover.sum grp) in *.
    clearbody z m s.
    assert (Hz : z / 100 == z * (1 # 100)) by field.
    assert (Hs : s / 10000 == s * (1 # 10000)) by field.
    assert (Hm : m / 10000 == m * (1 # 10000)) by field.
    rewrite Hs in H1. rewrite Hz, Hs, Hm.
    split; [split; lra|]. split; [exact H2|]. split; lra.
  - intros Image Collection ee req b H. unfold LandCover.POST in H.
    destruct (LandCover.req_geometry req) as [g|]; [|discriminate].
    destruct (LandCover.classify _ _ _ _ _ _) as [b'|] eqn:Hc; [|discriminate].
    injection H as ->. unfold LandCover.classify in Hc.
    inv_bind Hc. destruct a as [[img cls] conf].
    inv_bind Hc. inv_bind Hc. inv_bind Hc. injection Hc as <-. cbn.
    destruct a as [st|]; [|discriminate]. injection Hrun1 as <-. eauto.
Qed.

(** The statement of C9 in the specification fails: a class that covers
    49.5 m2 is reported with [areaSquareMeters] 50 and [areaHectares] 0,
    while 50 / 10000 is 0.005, which rounds to 0.01 at two decimals. *)
Lemma hectares_and_square_metres_round_apart :
  exists e,
    LandCover.processAreaStatistics
      {| LandCover.groups :=
           Some [ {| LandCover.class := 10; LandCover.sum := 99 # 2 |} ] |}
      LandCover.LANDCOVER_CLASSES = [e] /\
    LandCover.areaSquareMeters e = 50%Z /\
    LandCover.areaHectares e == 0 /\
    inject_Z (LandCover.areaSquareMeters e) / 10000 == 1 # 200 /\
    inject_Z (Js.Math_round (inject_Z (LandCover.areaSquareMeters e) / 10000 * 100))
    / 100 == 1 # 100.
Proof. eexists. split; [reflexivity|]. repeat split. Qed.

(** *** The land-cover route without a date range *)

Lemma classify_without_dates {Image Collection : Type}
    (ee : LandCover.EarthEngine Image Collection) (g : EE.geometry) (y : Z)
    (useDynamicWorld : bool) (startDate endDate : option string) :
  useDynamicWorld && Js.truthy_string startDate && Js.truthy_string endDate = false ->
  LandCover.classify ee g y useDynamicWorld startDate endDate =
    (landcoverImage ← LandCover.getLandCover ee g y;
     areaStats ← LandCover.calculateAreaStatistics ee
                   (LandCover.select_Map ee landcoverImage) g;
     processedStats ←
       match areaStats with
       | Some st => Ok (LandCover.processAreaStatistics st LandCover.LANDCOVER_CLASSES)
       | None => Err (TypeError "Cannot read properties of null (reading 'groups')")
       end;
     imageUrl ← LandCover.getImageUrl ee (LandCover.select_Map ee landcoverImage) g
                  (if useDynamicWorld then LandCover.dynamic_world_vis
                   else LandCover.world_cover_vis);
     Ok {| LandCover.body_classification := LandCover.world_cover_classification y;
           LandCover.areaStatistics := processedStats;
           LandCover.imageUrl := imageUrl;
           LandCover.confidence := None;
           LandCover.aiPowered := useDynamicWorld |}).
Proof.
  intros Hcond. unfold LandCover.classify. rewrite Hcond.
  destruct (LandCover.getLandCover ee g y); reflexivity.
Qed.

Lemma select_Map_has_no_classification (i m : EE.image) :
  EE.select i ["Map"] = Ok m -> m !! "classification" = None.
Proof.
  cbn [EE.select]. destruct (i !! "Map") as [r|]; [|discriminate].
  cbn. intros [= <-]. reflexivity.
Qed.

(** Claim C10.  With [@/lib/earthEngine] as the repository has it, a
    request with a geometry that does not take the Dynamic World branch
    ([useDynamicWorld] false, or [startDate] or [endDate] missing or
    empty) is not classified with ESA WorldCover: it is answered 500, with
    the error of calling [getLandCover], which the module does not export.
    Were a [getLandCover] supplied, whatever it returns, the request would
    still be answered 500: [calculateAreaStatistics] reads the band
    'classification', which the image [.select('Map')] does not have. *)
Theorem world_cover_branch_fails (p : Lib.Platform) (req : LandCover.request)
    (g : EE.geometry) :
  LandCover.req_geometry req = Some g ->
  default true (LandCover.req_useDynamicWorld req)
    && Js.truthy_string (LandCover.req_startDate req)
    && Js.truthy_string (LandCover.req_endDate req) = false ->
  LandCover.POST (Lib.exports p) req
    = Http500 (TypeError "getLandCover is not a function") /\
  (forall getLandCover, exists e,
     LandCover.POST (Lib.exports_with p getLandCover) req = Http500 e).
Proof.
  intros Hg Hcond. split.
  - unfold LandCover.POST. rewrite Hg.
    rewrite classify_without_dates by exact Hcond. reflexivity.
  - intros getLandCover. unfold LandCover.POST. rewrite Hg.
    rewrite classify_without_dates by exact Hcond.
    cbn [Lib.exports_with LandCover.getLandCover LandCover.select_Map
         LandCover.calculateAreaStatistics LandCover.getImageUrl].
    destruct (getLandCover g _) as [img|e]; [|eexists; reflexivity].
    cbn [mbind result_bind]. unfold Lib.calculateAreaStatistics.
    destruct (Lib.ensureInitialized p) as [[]|e]; [|eexists; reflexivity].
    cbn [mbind result_bind].
    destruct img as [i|e]; [|eexists; reflexivity].
    cbn [mbind result_bind].
    destruct (EE.select i ["Map"]) as [m|e] eqn:Hsel; [|eexists; reflexivity].
    cbn [mbind result_bind]. unfold EE.select_band.
    rewrite (select_Map_has_no_classification _ _ Hsel).
    eexists. reflexivity.
Qed.

Lemma world_cover_branch_fails_witness :
  LandCover.POST (Lib.exports MoreExamples.sample_lib)
    (Dashboard.classify_request Examples.sample_geometry)
    = Http500 (TypeError "getLandCover is not a function") /\
  LandCover.POST
    (Lib.exports_with MoreExamples.sample_lib
       (fun _ _ => Ok MoreExamples.sample_world_cover))
    (Dashboard.classify_request Examples.sample_geometry)
    = Http500 (RemoteError "Image.select: no band named classification").
Proof.
  destruct (world_cover_branch_fails MoreExamples.sample_lib
              (Dashboard.classify_request Examples.sample_geometry)
              Examples.sample_geometry eq_refl eq_refl) as [Hfirst Hany].
  split; [exact Hfirst|].
  destruct (Hany (fun _ _ => Ok MoreExamples.sample_world_cover)) as [e He].
  rewrite He. f_equal.
  assert (Hrun : LandCover.POST
            (Lib.exports_with MoreExamples.sample_lib
               (fun _ _ => Ok MoreExamples.sample_world_cover))
            (Dashboard.classify_request Examples.sample_geometry)
          = Http500 (RemoteError "Image.select: no band named classification"))
    by reflexivity.
  rewrite He in Hrun. now injection Hrun.
Defined.

(** *** The routes on the sample platforms *)

Example toFixed_ties_away_from_zero :
  Js.toFixed 2 (1 # 8) == 13 # 100 /\
  Js.toFixed 2 (- (1 # 8)) == - (13 # 100) /\
  Js.toFixed 3 (12344 # 10000) == 1234 # 1000.
Proof. repeat split. Qed.

Example Math_round_ties_upwards :
  Js.Math_round (5 # 2) = 3%Z /\ Js.Math_round (- (5 # 2)) = (-2)%Z /\
  Js.Math_ceil (5 # 4) = 2%Z /\ Js.Math_floor (- (1 # 2)) = (-1)%Z.
Proof. repeat split. Qed.

Example tile_url_gets_its_template :
  Agb.getVisualizationUrl (Examples.sample_ee []) (Ok Examples.masked_image)
    Agb.agb_vis_params
  = Ok "https://tiles.example/agb/{z}/{x}/{y}".
Proof. reflexivity. Qed.

(** The only clear scene lies 30 days after the target: the windows of one
    to four weeks are empty, the fifth is returned. *)
Example five_weeks_needed :
  Agb.findClosestDataWindow (Examples.sample_ee []) Examples.sample_geometry
    Examples.sample_target 3
  = Ok {| Agb.startDate := 65; Agb.endDate := 135; Agb.monthsUsed := 2 |}.
Proof. reflexivity. Qed.

Example missing_end_date_is_a_400 :
  Agb.POST (Examples.sample_ee [])
    {| Agb.req_geometry := Some Examples.sample_geometry;
       Agb.req_startDate := Some Examples.sample_target;
       Agb.req_endDate := None |}
  = Http400 "Missing required parameters: geometry, startDate, endDate".
Proof. reflexivity. Qed.

(** Two years apart, from 415 to 395 t/ha. *)
Example sample_change :
  exists b,
    Agb.POST (Examples.sample_ee []) Examples.sample_request = Http200 b /\
    Agb.meanAGBChange (Agb.body_agbChange b) == -20 /\
    Agb.percentChange (Agb.body_agbChange b) == - (482 # 100) /\
    Agb.annualChange (Agb.body_agbChange b) == - (1001 # 100) /\
    Agb.status (Agb.body_agbChange b) = "Decrease" /\
    Agb.durationDays (Agb.timePeriod b) = 730%Z /\
    Agb.durationYears (Agb.timePeriod b) == 2.
Proof. eexists. split; [vm_compute; reflexivity|]. repeat split. Qed.

(** The sort is by rounded hectares: the two classes under 0.005 ha tie
    and keep their input order. *)
Example sample_areas :
  (fun e => (LandCover.entry_class e, LandCover.areaSquareMeters e))
    <$> LandCover.processAreaStatistics
          {| LandCover.groups := Some Examples.sample_groups |}
          LandCover.LANDCOVER_CLASSES
  = [(50, 250000); (10, 12346); (30, 10); (40, 20)]%Z.
Proof. reflexivity. Qed.

(** With the module as the repository has it: a request with both dates
    is classified with Dynamic World, a request without a start date is
    not answered. *)
Example dated_request_on_the_library :
  exists b,
    LandCover.POST (Lib.exports MoreExamples.sample_lib)
      {| LandCover.req_geometry := Some Examples.sample_geometry;
         LandCover.req_year := None;
         LandCover.req_useDynamicWorld := None;
         LandCover.req_startDate := Some "2024-01-01";
         LandCover.req_endDate := Some "2024-06-30" |}
    = Http200 b /\
    LandCover.source (LandCover.body_classification b)
    = "Dynamic World AI Classifier" /\
    LandCover.imageUrl b = "https://tiles.example/lc/tiles/{z}/{x}/{y}" /\
    (fun e => (LandCover.className e, LandCover.areaSquareMeters e))
      <$> LandCover.areaStatistics b = [("Trees", 10000%Z)].
Proof. eexists. split; [reflexivity|]. repeat split. Qed.

Example request_without_start_date_fails :
  LandCover.POST (Lib.exports MoreExamples.sample_lib)
    Examples.sample_landcover_request
  = Http500 (TypeError "getLandCover is not a function").
Proof. reflexivity. Qed.

Example dated_request_uses_dynamic_world :
  exists b,
    LandCover.POST Examples.sample_landcover_ee
      {| LandCover.req_geometry := Some Examples.sample_geometry;
         LandCover.req_year := None;
         LandCover.req_useDynamicWorld := None;
         LandCover.req_startDate := Some "2024-01-01";
         LandCover.req_endDate := Some "2024-06-30" |}
    = Http200 b /\
    LandCover.source (LandCover.body_classification b)
    = "Dynamic World AI Classifier" /\
    LandCover.aiPowered b = true.
Proof. eexists. split; [reflexivity|]. split; reflexivity. Qed.

(** ** Further properties of the routes *)

(** *** Cloud masking and the vegetation indices *)

Lemma land_pow2_zero (x n : Z) :
  (0 <= n)%Z -> Z.land x (2 ^ n) = 0%Z <-> Z.testbit x n = false.
Proof.
  intros Hn. split.
  - intros Hland.
    assert (H : Z.testbit (Z.land x (2 ^ n)) n = false)
      by (rewrite Hland; apply Z.bits_0).
    rewrite Z.land_spec, Z.pow2_bits_true in H by exact Hn.
    now rewrite andb_true_r in H.
  - intros Hbit. apply Z.bits_inj'. intros m Hm.
    rewrite Z.land_spec, Z.pow2_bits_eqb, Z.bits_0 by exact Hn.
    destruct (Z.eqb_spec n m) as [<-|_]; [now rewrite Hbit | apply andb_false_r].
Qed.

Lemma Qeq_bool_inject_Z_0 (z : Z) : Qeq_bool (inject_Z z) 0 = (z =? 0)%Z.
Proof.
  unfold Qeq_bool, inject_Z. simpl. rewrite Z.mul_1_r.
  destruct z; reflexivity.
Qed.

Lemma lt_true (a b : Q) : a < b -> Js.lt a b = true.
Proof.
  intros Hlt. unfold Js.lt. destruct (Qle_bool b a) eqn:Hle; [|reflexivity].
  apply Qle_bool_iff in Hle. lra.
Qed.

Lemma lt_false (a b : Q) : b <= a -> Js.lt a b = false.
Proof.
  intros Hle. unfold Js.lt. apply Qle_bool_iff in Hle. now rewrite Hle.
Qed.

(** The mask of [maskS2Clouds] at one pixel, in terms of the two bits. *)
Lemma cloud_mask_pixel (qa : EE.raster) (p : EE.pixel) :
  Scene.and_bands
    (Scene.eq_value 0 (Scene.bitwiseAnd Scene.cloudBitMask qa))
    (Scene.eq_value 0 (Scene.bitwiseAnd Scene.cirrusBitMask qa)) p
  = (fun q => if Z.testbit (Qfloor q) 10 || Z.testbit (Qfloor q) 11
              then 0 else 1) <$> qa p.
Proof.
  unfold Scene.and_bands, EE.lift2, Scene.eq_value, Scene.bitwiseAnd,
    Scene.map_raster.
  destruct (qa p) as [q|]; [|reflexivity]. cbn [fmap option_fmap option_map].
  f_equal. rewrite !Qeq_bool_inject_Z_0.
  change Scene.cloudBitMask with (2 ^ 10)%Z.
  change Scene.cirrusBitMask with (2 ^ 11)%Z.
  destruct (Z.testbit (Qfloor q) 10) eqn:H10.
  - assert (Hne : Z.land (Qfloor q) (2 ^ 10) <> 0%Z).
    { intros H. apply land_pow2_zero in H; [congruence | lia]. }
    apply Z.eqb_neq in Hne. rewrite Hne. reflexivity.
  - assert (He : Z.land (Qfloor q) (2 ^ 10) = 0%Z)
      by (apply land_pow2_zero; [lia | exact H10]).
    rewrite He. cbn [Z.eqb orb].
    destruct (Z.testbit (Qfloor q) 11) eqn:H11.
    + assert (Hne : Z.land (Qfloor q) (2 ^ 11) <> 0%Z).
      { intros H. apply land_pow2_zero in H; [congruence | lia]. }
      apply Z.eqb_neq in Hne. rewrite Hne. reflexivity.
    + assert (He' : Z.land (Qfloor q) (2 ^ 11) = 0%Z)
        by (apply land_pow2_zero; [lia | exact H11]).
      rewrite He'. reflexivity.
Qed.

Lemma maskS2Clouds_run (img : EE.image)
    (qa b2 b4 b8 : EE.raster) :
  img !! "QA60" = Some qa -> img !! "B2" = Some b2 ->
  img !! "B4" = Some b4 -> img !! "B8" = Some b8 ->
  exists out,
    Scene.maskS2Clouds img = Ok out /\
    (forall k, is_Some (out !! k) <-> k = "B2" \/ k = "B4" \/ k = "B8") /\
    (forall k (band : EE.raster), (k = "B2" \/ k = "B4" \/ k = "B8") ->
       img !! k = Some band ->
       exists band',
         out !! k = Some band' /\
         forall p,
           band' p =
             match qa p with
             | None => None
             | Some q =>
                 if Z.testbit (Qfloor q) 10 || Z.testbit (Qfloor q) 11
                 then None
                 else (fun v => v / 10000) <$> band p
             end).
Proof.
  intros Hqa H2 H4 H8. unfold Scene.maskS2Clouds, EE.select_band.
  rewrite Hqa. cbn [mbind result_bind].
  set (mask := Scene.and_bands _ _).
  assert (Hlook : forall k (band : EE.raster), img !! k = Some band ->
            Scene.divide 10000 (Scene.updateMask mask img) !! k
            = Some (Scene.map_raster (fun q => q / 10000)
                      (fun p => match mask p with
                                | Some m => if Qeq_bool m 0 then None else band p
                                | None => None
                                end))).
  { intros k band Hk. unfold Scene.divide, Scene.updateMask.
    rewrite !lookup_fmap, Hk. reflexivity. }
  cbn [EE.select]. rewrite (Hlook _ _ H2), (Hlook _ _ H4), (Hlook _ _ H8).
  cbn [mbind result_bind]. eexists. split; [reflexivity|]. split.
  - intros k. split.
    + intros [r Hr].
      destruct (decide (k = "B2")) as [->|N2]; [auto|].
      destruct (decide (k = "B4")) as [->|N4]; [auto|].
      destruct (decide (k = "B8")) as [->|N8]; [auto|].
      rewrite !lookup_insert_ne, lookup_empty in Hr by congruence. discriminate.
    + intros [-> | [-> | ->]]; eexists; reflexivity.
  - assert (Hpixel : forall band p,
        Scene.map_raster (fun q => q / 10000)
          (fun p => match mask p with
                    | Some m => if Qeq_bool m 0 then None else band p
                    | None => None
                    end) p
        = match qa p with
          | None => None
          | Some q =>
              if Z.testbit (Qfloor q) 10 || Z.testbit (Qfloor q) 11
              then None
              else (fun v => v / 10000) <$> band p
          end).
    { intros band p. unfold Scene.map_raster, mask. rewrite cloud_mask_pixel.
      destruct (qa p) as [q|]; [|reflexivity]. cbn [fmap option_fmap option_map].
      destruct (Z.testbit (Qfloor q) 10 || Z.testbit (Qfloor q) 11); reflexivity. }
    intros k band Hk Hband. eexists. split.
    + destruct Hk as [-> | [-> | ->]]; rewrite Hband in *;
        [ injection H2 as <- | injection H4 as <- | injection H8 as <- ];
        reflexivity.
    + intros p. apply Hpixel.
Qed.

Lemma addBands_keeps (a b : EE.image) (k : string) (r : EE.raster) :
  a !! k = Some r -> EE.addBands a b !! k = Some r.
Proof. intros Hk. unfold EE.addBands. now apply lookup_union_Some_l. Qed.

Lemma addBands_adds (a b : EE.image) (k : string) :
  a !! k = None -> EE.addBands a b !! k = b !! k.
Proof. intros Hk. unfold EE.addBands. now apply lookup_union_r. Qed.

Lemma computeSentinel2Indices_run (img : EE.image)
    (b2 b4 b8 : EE.raster) :
  img !! "B2" = Some b2 -> img !! "B4" = Some b4 -> img !! "B8" = Some b8 ->
  img !! "NDVI" = None -> img !! "EVI" = None -> img !! "LAI" = None ->
  exists (out : EE.image) (ndvi evi lai : EE.raster),
    Scene.computeSentinel2Indices img = Ok out /\
    (forall k (r : EE.raster), img !! k = Some r -> out !! k = Some r) /\
    out !! "NDVI" = Some ndvi /\ out !! "EVI" = Some evi /\
    out !! "LAI" = Some lai /\
    (forall p, ndvi p =
       (nir ← b8 p; red ← b4 p;
        if Js.lt nir 0 || Js.lt red 0 then None
        else Some ((nir - red) / (nir + red)))) /\
    (forall p, evi p =
       (nir ← b8 p; red ← b4 p; blue ← b2 p;
        Some (2.5 * ((nir - red) / (nir + 6 * red - 7.5 * blue + 1))))) /\
    (forall p, lai p =
       (fun e => EE.clamp_value 0 8 (e * 3.618 - 0.118)) <$> evi p) /\
    (forall p v, lai p = Some v -> 0 <= v <= 8) /\
    out = EE.addBands img
            (EE.addBands (EE.addBands (EE.rename "NDVI" ndvi) (EE.rename "EVI" evi))
               (EE.rename "LAI" lai)).
Proof.
  intros H2 H4 H8 Hn He Hl.
  unfold Scene.computeSentinel2Indices, Scene.normalizedDifference.
  rewrite (select_band_run _ _ _ H2), (select_band_run _ _ _ H4),
    (select_band_run _ _ _ H8).
  cbn [mbind result_bind].
  match goal with
  | |- context [EE.rename "NDVI" ?r] => set (ndvi := r)
  end.
  assert (Hevi : exists evi,
    Scene.evaluate Scene.EVI_formula
      (list_to_map [("NIR", b8); ("RED", b4); ("BLUE", b2)]) = Ok evi /\
    forall p, evi p =
      (nir ← b8 p; red ← b4 p; blue ← b2 p;
       Some (2.5 * ((nir - red) / (nir + 6 * red - 7.5 * blue + 1))))).
  { eexists. split; [reflexivity|]. intros p. unfold EE.lift2. cbn [snd].
    destruct (b8 p), (b4 p), (b2 p); reflexivity. }
  destruct Hevi as (evi & -> & Hevi). cbn [mbind result_bind].
  set (lai := Scene.map_raster (EE.clamp_value 0 8) _).
  assert (Hlai : forall p, lai p =
            (fun e => EE.clamp_value 0 8 (e * 3.618 - 0.118)) <$> evi p).
  { intros p. unfold lai, Scene.map_raster. destruct (evi p); reflexivity. }
  exists (EE.addBands img
            (EE.addBands (EE.addBands (EE.rename "NDVI" ndvi) (EE.rename "EVI" evi))
               (EE.rename "LAI" lai))), ndvi, evi, lai.
  split; [reflexivity|]. split; [intros k r; apply addBands_keeps|].
  split; [rewrite addBands_adds by exact Hn; reflexivity|].
  split; [rewrite addBands_adds by exact He; reflexivity|].
  split; [rewrite addBands_adds by exact Hl; reflexivity|].
  split.
  { intros p. unfold ndvi. destruct (b8 p), (b4 p); reflexivity. }
  split; [exact Hevi|]. split; [exact Hlai|]. split; [|reflexivity].
  intros p v Hv. rewrite Hlai in Hv. destruct (evi p) as [e|]; [|discriminate].
  injection Hv as <-. apply clamp_value_range. lra.
Qed.

Lemma Qdiv_bounds (a b : Q) :
  0 < b -> - b <= a <= b -> -1 <= a / b <= 1.
Proof.
  intros Hb [H1 H2]. split.
  - apply Qle_shift_div_l; [exact Hb | lra].
  - apply Qle_shift_div_r; [exact Hb | lra].
Qed.

(** Property X1.  [maskS2Clouds] on a scene that has the bands QA60, B2, B4
    and B8: the result has exactly the bands B2, B4 and B8; in each of them
    a pixel is masked when bit 10 (cloud) or bit 11 (cirrus) of QA60 is set
    and when QA60 itself is masked there, and every other pixel holds the
    input value divided by 10000 (masked if the input is). *)
Theorem maskS2Clouds_masks_flagged_pixels (img : EE.image)
    (qa b2 b4 b8 : EE.raster) :
  img !! "QA60" = Some qa -> img !! "B2" = Some b2 ->
  img !! "B4" = Some b4 -> img !! "B8" = Some b8 ->
  exists out, Scene.maskS2Clouds img = Ok out /\
    (forall k, is_Some (out !! k) <-> k = "B2" \/ k = "B4" \/ k = "B8") /\
    (forall k (band : EE.raster),
       (k = "B2" \/ k = "B4" \/ k = "B8") -> img !! k = Some band ->
       exists band' : EE.raster,
         out !! k = Some band' /\
         (forall p q, qa p = Some q ->
            Z.testbit (Qfloor q) 10 = true \/ Z.testbit (Qfloor q) 11 = true ->
            band' p = None) /\
         (forall p, qa p = None -> band' p = None) /\
         (forall p q, qa p = Some q ->
            Z.testbit (Qfloor q) 10 = false -> Z.testbit (Qfloor q) 11 = false ->
            band' p = (fun v => v / 10000) <$> band p)).
Proof.
  intros Hqa H2 H4 H8.
  destruct (maskS2Clouds_run img qa b2 b4 b8 Hqa H2 H4 H8)
    as (out & Hout & Hdom & Hbands).
  exists out. split; [exact Hout|]. split; [exact Hdom|].
  intros k band Hk Hband.
  destruct (Hbands k band Hk Hband) as (band' & Hband' & Hp).
  exists band'. split; [exact Hband'|]. split; [|split].
  - intros p q Hq Hflag. rewrite Hp, Hq.
    destruct Hflag as [-> | ->]; [reflexivity|].
    rewrite orb_true_r. reflexivity.
  - intros p Hq. rewrite Hp, Hq. reflexivity.
  - intros p q Hq H10 H11. rewrite Hp, Hq, H10, H11. reflexivity.
Qed.

Lemma maskS2Clouds_masks_flagged_pixels_witness :
  exists (out : EE.image) (band : EE.raster),
    Scene.maskS2Clouds MoreExamples.sample_scene = Ok out /\
    out !! "QA60" = None /\
    out !! "B8" = Some band /\
    band (0%Z, 0%Z) = None /\ band (0%Z, 1%Z) = None /\
    band (1%Z, 1%Z) = Some (3000 / 10000).
Proof.
  destruct (maskS2Clouds_masks_flagged_pixels MoreExamples.sample_scene
              MoreExamples.sample_qa (Examples.constant_band 400)
              (Examples.constant_band 600) (Examples.constant_band 3000)
              eq_refl eq_refl eq_refl eq_refl)
    as (out & Hout & Hdom & Hbands).
  destruct (Hbands "B8" (Examples.constant_band 3000)
              (or_intror (or_intror eq_refl)) eq_refl)
    as (band & Hband & Hflagged & _ & Hclear).
  exists out, band. split; [exact Hout|]. split.
  { destruct (out !! "QA60") eqn:Hq; [|reflexivity].
    assert (His : is_Some (out !! "QA60")) by (rewrite Hq; eauto).
    apply Hdom in His. destruct His as [H|[H|H]]; discriminate H. }
  split; [exact Hband|]. split; [|split].
  - apply (Hflagged (0%Z, 0%Z) 1024 eq_refl). left. reflexivity.
  - apply (Hflagged (0%Z, 1%Z) 2048 eq_refl). right. reflexivity.
  - apply (Hclear (1%Z, 1%Z) 0 eq_refl); reflexivity.
Defined.

(** Property X2.  [computeSentinel2Indices] on an image with the bands B2, B4
    and B8 and no band named NDVI, EVI or LAI: every input band is kept as it
    is, the three indices are added, LAI is [3.618 * EVI - 0.118] clamped to
    the range from 0 to 8 wherever EVI is unmasked (and masked elsewhere), so
    every LAI value lies between 0 and 8. *)
Theorem lai_is_clamped_evi (img : EE.image) (b2 b4 b8 : EE.raster) :
  img !! "B2" = Some b2 -> img !! "B4" = Some b4 -> img !! "B8" = Some b8 ->
  img !! "NDVI" = None -> img !! "EVI" = None -> img !! "LAI" = None ->
  exists (out : EE.image) (evi lai : EE.raster),
    Scene.computeSentinel2Indices img = Ok out /\
    (forall k (r : EE.raster), img !! k = Some r -> out !! k = Some r) /\
    is_Some (out !! "NDVI") /\
    out !! "EVI" = Some evi /\ out !! "LAI" = Some lai /\
    (forall p, lai p =
       (fun e => EE.clamp_value 0 8 (e * 3.618 - 0.118)) <$> evi p) /\
    (forall p v, lai p = Some v -> 0 <= v <= 8).
Proof.
  intros H2 H4 H8 Hn He Hl.
  destruct (computeSentinel2Indices_run img b2 b4 b8 H2 H4 H8 Hn He Hl)
    as (out & ndvi & evi & lai & Hout & Hkeep & Hndvi & Hevi & Hlai & _ & _
        & Hpl & Hrange & _).
  exists out, evi, lai. rewrite Hndvi. eauto 10.
Qed.

Lemma lai_is_clamped_evi_witness :
  exists (out : EE.image) (lai : EE.raster),
    Scene.computeSentinel2Indices MoreExamples.sample_reflectance = Ok out /\
    out !! "LAI" = Some lai /\
    (forall v, lai (0%Z, 1%Z) = Some v -> 0 <= v <= 8).
Proof.
  destruct (lai_is_clamped_evi MoreExamples.sample_reflectance
              MoreExamples.sample_blue (Examples.constant_band (3 # 50))
              (Examples.constant_band (3 # 10))
              eq_refl eq_refl eq_refl eq_refl eq_refl eq_refl)
    as (out & evi & lai & Hout & _ & _ & Hevi & Hlai & Hpl & Hrange).
  exists out, lai. split; [exact Hout|]. split; [exact Hlai|].
  intros v. apply Hrange.
Defined.

(** Property X3.  The two per-scene steps in the order the optical collection
    maps them, [.map(maskS2Clouds).map(computeSentinel2Indices)]: a raw scene
    with the bands QA60, B2, B4 and B8 always goes through, and comes out
    with exactly the bands B2, B4, B8, NDVI, EVI and LAI; a pixel flagged as
    cloud or cirrus is masked in every one of them; where the digital
    numbers of B8 and B4 are not negative and not both zero, NDVI is their
    normalized difference (the scaling by 10000 cancels) and lies between
    -1 and 1. *)
Theorem scene_ndvi_is_bounded (img : EE.image) (qa b2 b4 b8 : EE.raster) :
  img !! "QA60" = Some qa -> img !! "B2" = Some b2 ->
  img !! "B4" = Some b4 -> img !! "B8" = Some b8 ->
  exists (out : EE.image) (ndvi : EE.raster),
    Scene.maskS2Clouds img ≫= Scene.computeSentinel2Indices = Ok out /\
    (forall k, is_Some (out !! k) <->
               k ∈ ["B2"; "B4"; "B8"; "NDVI"; "EVI"; "LAI"]) /\
    out !! "NDVI" = Some ndvi /\
    (forall p q,
       qa p = Some q ->
       Z.testbit (Qfloor q) 10 || Z.testbit (Qfloor q) 11 = true ->
       forall k (band : EE.raster), out !! k = Some band -> band p = None) /\
    (forall p nir red v,
       b8 p = Some nir -> b4 p = Some red -> ndvi p = Some v ->
       0 <= nir -> 0 <= red -> 0 < nir + red ->
       v == (nir - red) / (nir + red) /\ -1 <= v <= 1).
Proof.
  intros Hqa H2 H4 H8.
  destruct (maskS2Clouds_run img qa b2 b4 b8 Hqa H2 H4 H8)
    as (masked & Hmask & Hdom & Hbands).
  rewrite Hmask. cbn [mbind result_bind].
  destruct (Hbands "B2" b2 (or_introl eq_refl) H2) as (m2 & Hm2 & Hp2).
  destruct (Hbands "B4" b4 (or_intror (or_introl eq_refl)) H4) as (m4 & Hm4 & Hp4).
  destruct (Hbands "B8" b8 (or_intror (or_intror eq_refl)) H8) as (m8 & Hm8 & Hp8).
  assert (Hnone : forall k, k <> "B2" -> k <> "B4" -> k <> "B8" ->
                            masked !! k = None).
  { intros k N2 N4 N8. destruct (masked !! k) eqn:Hk; [|reflexivity].
    assert (His : is_Some (masked !! k)) by (rewrite Hk; eauto).
    apply Hdom in His. tauto. }
  destruct (computeSentinel2Indices_run masked m2 m4 m8 Hm2 Hm4 Hm8
              (Hnone "NDVI" ltac:(discriminate) ltac:(discriminate) ltac:(discriminate))
              (Hnone "EVI" ltac:(discriminate) ltac:(discriminate) ltac:(discriminate))
              (Hnone "LAI" ltac:(discriminate) ltac:(discriminate) ltac:(discriminate)))
    as (out & ndvi & evi & lai & Hout & Hkeep & Hndvi & Hevi & Hlai & Hpn & Hpe
        & Hpl & _ & Hshape).
  exists out, ndvi. split; [exact Hout|].
  assert (Hcases : forall k (band : EE.raster), out !! k = Some band ->
            (k = "B2" /\ band = m2) \/ (k = "B4" /\ band = m4) \/
            (k = "B8" /\ band = m8) \/ (k = "NDVI" /\ band = ndvi) \/
            (k = "EVI" /\ band = evi) \/ (k = "LAI" /\ band = lai)).
  { intros k band Hk.
    destruct (decide (k = "B2")) as [->|N2];
      [rewrite (Hkeep _ _ Hm2) in Hk; injection Hk as <-; auto|].
    destruct (decide (k = "B4")) as [->|N4];
      [rewrite (Hkeep _ _ Hm4) in Hk; injection Hk as <-; auto|].
    destruct (decide (k = "B8")) as [->|N8];
      [rewrite (Hkeep _ _ Hm8) in Hk; injection Hk as <-; auto 6|].
    destruct (decide (k = "NDVI")) as [->|Nn];
      [rewrite Hndvi in Hk; injection Hk as <-; auto 8|].
    destruct (decide (k = "EVI")) as [->|Ne];
      [rewrite Hevi in Hk; injection Hk as <-; auto 10|].
    destruct (decide (k = "LAI")) as [->|Nl];
      [rewrite Hlai in Hk; injection Hk as <-; auto 12|].
    exfalso. rewrite Hshape in Hk. unfold EE.addBands, EE.rename in Hk.
    rewrite lookup_union_r in Hk by (now apply Hnone).
    rewrite !lookup_union_Some_raw in Hk.
    rewrite !lookup_singleton_Some in Hk. intuition congruence. }
  split.
  { intros k. rewrite !elem_of_cons, elem_of_nil. split.
    - intros [band Hk].
      destruct (Hcases _ _ Hk)
        as [[-> _]|[[-> _]|[[-> _]|[[-> _]|[[-> _]|[-> _]]]]]];
        tauto.
    - intros [->|[->|[->|[->|[->|[->|[]]]]]]]; eauto. }
  split; [exact Hndvi|]. split.
  { intros p q Hq Hflag k band Hk.
    assert (Hm : forall m (b : EE.raster),
              (forall p, m p = match qa p with
                               | None => None
                               | Some q =>
                                   if Z.testbit (Qfloor q) 10 || Z.testbit (Qfloor q) 11
                                   then None else (fun v => v / 10000) <$> b p
                               end) -> m p = None).
    { intros m b Hmb. rewrite Hmb, Hq, Hflag. reflexivity. }
    pose proof (Hm _ _ Hp2) as Z2. pose proof (Hm _ _ Hp4) as Z4.
    pose proof (Hm _ _ Hp8) as Z8.
    destruct (Hcases _ _ Hk) as [[_ ->]|[[_ ->]|[[_ ->]|[[_ ->]|[[_ ->]|[_ ->]]]]]];
      try assumption.
    - rewrite Hpn, Z8. reflexivity.
    - rewrite Hpe, Z8. reflexivity.
    - rewrite Hpl, Hpe, Z8. reflexivity. }
  intros p nir red v Hnir Hred Hv Pn Pr Ps.
  rewrite Hpn, Hp8, Hp4, Hnir, Hred in Hv.
  destruct (qa p) as [q|]; [|discriminate].
  destruct (Z.testbit (Qfloor q) 10 || Z.testbit (Qfloor q) 11); [discriminate|].
  cbn [fmap option_fmap option_map mbind option_bind] in Hv.
  assert (Hn : Js.lt (nir / 10000) 0 = false).
  { apply lt_false. apply Qle_shift_div_l; lra. }
  assert (Hr : Js.lt (red / 10000) 0 = false).
  { apply lt_false. apply Qle_shift_div_l; lra. }
  rewrite Hn, Hr in Hv. cbn [orb] in Hv. injection Hv as <-.
  assert (Heq : (nir / 10000 - red / 10000) / (nir / 10000 + red / 10000)
                == (nir - red) / (nir + red)).
  { field. lra. }
  split; [exact Heq|]. rewrite Heq. apply Qdiv_bounds; [exact Ps | split; lra].
Qed.

Lemma scene_ndvi_is_bounded_witness :
  exists (out : EE.image) (ndvi : EE.raster),
    Scene.maskS2Clouds MoreExamples.sample_scene
      ≫= Scene.computeSentinel2Indices = Ok out /\
    out !! "NDVI" = Some ndvi /\
    ndvi (0%Z, 0%Z) = None /\
    (forall v, ndvi (1%Z, 1%Z) = Some v -> v == 2 # 3).
Proof.
  destruct (scene_ndvi_is_bounded MoreExamples.sample_scene
              MoreExamples.sample_qa (Examples.constant_band 400)
              (Examples.constant_band 600) (Examples.constant_band 3000)
              eq_refl eq_refl eq_refl eq_refl)
    as (out & ndvi & Hout & _ & Hndvi & Hmasked & Hvalue).
  exists out, ndvi. split; [exact Hout|]. split; [exact Hndvi|]. split.
  - apply (Hmasked (0%Z, 0%Z) 1024 eq_refl eq_refl "NDVI" ndvi Hndvi).
  - intros v Hv.
    destruct (Hvalue (1%Z, 1%Z) 3000 600 v eq_refl eq_refl Hv) as [-> _];
      [lra | lra | lra | reflexivity].
Defined.

(** Property X4.  [computeSentinel1Indices] on a radar scene with the bands VV
    and VH (what [.select(['VV', 'VH'])] leaves): the bands are kept and RVI
    is added; RVI is masked where VV or VH is, and where both are there and
    do not cancel it is [4 * VH / (VV + VH)].  For backscatter in decibels
    below zero the index lies strictly between 0 and 4, and above 2 when VH
    is the weaker of the two. *)
Theorem rvi_of_backscatter (img : EE.image) (vv vh : EE.raster) :
  img !! "VV" = Some vv -> img !! "VH" = Some vh -> img !! "RVI" = None ->
  exists (out : EE.image) (rvi : EE.raster),
    Scene.computeSentinel1Indices img = Ok out /\
    (forall k (r : EE.raster), img !! k = Some r -> out !! k = Some r) /\
    out !! "RVI" = Some rvi /\
    (forall p, vv p = None \/ vh p = None -> rvi p = None) /\
    (forall p v h, vv p = Some v -> vh p = Some h -> ~ v + h == 0 ->
       exists x, rvi p = Some x /\ x == 4 * h / (v + h) /\
         (v < 0 -> h < 0 -> 0 < x < 4 /\ (h < v -> 2 < x))).
Proof.
  intros Hvv Hvh Hrvi. unfold Scene.computeSentinel1Indices.
  rewrite (select_band_run _ _ _ Hvv), (select_band_run _ _ _ Hvh).
  cbn [mbind result_bind].
  set (rvi := EE.lift2 Qdiv _ _).
  exists (EE.addBands img (EE.rename "RVI" rvi)), rvi.
  split; [reflexivity|]. split; [intros k r; apply addBands_keeps|].
  split; [rewrite addBands_adds by exact Hrvi; apply lookup_singleton_eq|].
  split.
  { intros p Hp. unfold rvi, EE.lift2, Scene.map_raster.
    destruct (vh p), (vv p); try reflexivity; destruct Hp; discriminate. }
  intros p v h Hv Hh Hne.
  exists (h * 4 / (v + h)). split.
  { unfold rvi, EE.lift2, Scene.map_raster. rewrite Hh, Hv. reflexivity. }
  split; [field; exact Hne|].
  intros Nv Nh.
  assert (Hneg : 0 < - (v + h)) by lra.
  assert (Heq : h * 4 / (v + h) == (- h * 4) / (- (v + h))) by (field; lra).
  rewrite Heq. split; [split|].
  - apply Qlt_shift_div_l; [exact Hneg | lra].
  - apply Qlt_shift_div_r; [exact Hneg | lra].
  - intros Hlt. apply Qlt_shift_div_l; [exact Hneg | lra].
Qed.

Lemma rvi_of_backscatter_witness :
  exists (out : EE.image) (rvi : EE.raster),
    Scene.computeSentinel1Indices MoreExamples.sample_radar = Ok out /\
    out !! "RVI" = Some rvi /\
    exists x, rvi (0%Z, 0%Z) = Some x /\ x == 12 # 5.
Proof.
  destruct (rvi_of_backscatter MoreExamples.sample_radar
              (Examples.constant_band (-10)) (Examples.constant_band (-15))
              eq_refl eq_refl eq_refl)
    as (out & rvi & Hout & _ & Hrvi & _ & Hvalue).
  exists out, rvi. split; [exact Hout|]. split; [exact Hrvi|].
  destruct (Hvalue (0%Z, 0%Z) (-10) (-15) eq_refl eq_refl) as (x & Hx & Hxv & _).
  - intros H. discriminate H.
  - exists x. split; [exact Hx|]. rewrite Hxv. reflexivity.
Defined.

(** *** The tile URL *)

Lemma includes_app (sub s t : string) :
  Js.includes sub t = true -> Js.includes sub (s +:+ t) = true.
Proof.
  intros Ht. induction s as [|c s IH]; [exact Ht|].
  change (String c s +:+ t) with (String c (s +:+ t)).
  cbn [Js.includes]. rewrite IH. apply orb_true_r.
Qed.

Lemma strip_trailing_slash_app (s : string) :
  Js.strip_trailing_slash (s +:+ "/") = s.
Proof.
  induction s as [|c s IH]; [reflexivity|].
  change (String c s +:+ "/") with (String c (s +:+ "/")).
  cbn [Js.strip_trailing_slash]. rewrite IH.
  destruct (String.eqb_spec (String c (s +:+ "/")) "/") as [E|_];
    [|reflexivity].
  injection E as _ E. destruct s; discriminate E.
Qed.

(** Property X5.  Whatever the platform hands back, a URL that
    [getVisualizationUrl] resolves to contains the placeholder [{z}]: the
    platform's URL itself when it has the placeholder, and otherwise that
    URL without one trailing slash, followed by [/{z}/{x}/{y}]. *)
Theorem visualization_url_has_placeholder (ee : Agb.EarthEngine)
    (img : result EE.image) (visParams : Agb.vis_params) (tiles : string) :
  Agb.getVisualizationUrl ee img visParams = Ok tiles ->
  Js.includes "{z}" tiles = true /\
  exists i mapId,
    img = Ok i /\ Agb.getMap ee i visParams = Ok (Some mapId) /\
    let given :=
      Js.or_string (Agb.urlFormat mapId) (Js.or_string (Agb.url mapId) "") in
    (Js.includes "{z}" given = true -> tiles = given) /\
    (Js.includes "{z}" given = false ->
     tiles = Js.strip_trailing_slash given +:+ "/{z}/{x}/{y}").
Proof.
  unfold Agb.getVisualizationUrl. intros H.
  inv_bind H. inv_bind H. rename a0 into i, Hrun0 into Hi.
  inv_bind H. rename a0 into found, Hrun0 into Hmap.
  destruct found as [mapId|]; [|discriminate].
  injection H as <-.
  set (given := Js.or_string _ _).
  split.
  - destruct (Js.includes "{z}" given) eqn:E; [exact E|].
    apply includes_app. reflexivity.
  - exists i, mapId. split; [exact Hi|]. split; [exact Hmap|].
    cbv zeta. fold given.
    destruct (Js.includes "{z}" given); split; intros; congruence.
Qed.

Lemma visualization_url_has_placeholder_witness :
  Js.includes "{z}" "https://tiles.example/agb/{z}/{x}/{y}" = true /\
  exists i mapId,
    Ok Examples.masked_image = Ok i /\
    Agb.getMap (Examples.sample_ee []) i Agb.agb_vis_params = Ok (Some mapId) /\
    let given :=
      Js.or_string (Agb.urlFormat mapId) (Js.or_string (Agb.url mapId) "") in
    (Js.includes "{z}" given = true ->
     "https://tiles.example/agb/{z}/{x}/{y}" = given) /\
    (Js.includes "{z}" given = false ->
     "https://tiles.example/agb/{z}/{x}/{y}"
     = Js.strip_trailing_slash given +:+ "/{z}/{x}/{y}").
Proof.
  apply (visualization_url_has_placeholder (Examples.sample_ee [])
           (Ok Examples.masked_image) Agb.agb_vis_params).
  reflexivity.
Defined.

(** Property X6.  The edges of [getVisualizationUrl] on an initialized
    session: a [null] map id is the error 'Failed to get valid map URL'; a
    map id with neither [urlFormat] nor [url] is not an error, it resolves
    to the relative template [/{z}/{x}/{y}]; a base URL given with a
    trailing slash gets the template appended after the slash is dropped,
    so with or without the slash the result is the same. *)
Theorem visualization_url_edges (ee : Agb.EarthEngine) (i : EE.image)
    (visParams : Agb.vis_params) :
  Agb.ensureInitialized ee = Ok tt ->
  (Agb.getMap ee i visParams = Ok None ->
   Agb.getVisualizationUrl ee (Ok i) visParams = Err InvalidMapUrl) /\
  (Agb.getMap ee i visParams
     = Ok (Some {| Agb.urlFormat := None; Agb.url := None |}) ->
   Agb.getVisualizationUrl ee (Ok i) visParams = Ok "/{z}/{x}/{y}") /\
  (forall base other,
     Js.includes "{z}" (base +:+ "/") = false ->
     Agb.getMap ee i visParams
       = Ok (Some {| Agb.urlFormat := Some (base +:+ "/"); Agb.url := other |}) ->
     Agb.getVisualizationUrl ee (Ok i) visParams
       = Ok (base +:+ "/{z}/{x}/{y}")).
Proof.
  intros Hinit. unfold Agb.getVisualizationUrl. rewrite Hinit.
  cbn [mbind result_bind]. split; [|split].
  - intros ->. reflexivity.
  - intros ->. reflexivity.
  - intros base other Hno ->. cbn [mbind result_bind Agb.urlFormat Agb.url].
    assert (Hne : String.eqb (base +:+ "/") "" = false)
      by (destruct base; reflexivity).
    assert (Hor : Js.or_string (Some (base +:+ "/")) (Js.or_string other "")
                  = base +:+ "/")
      by (unfold Js.or_string at 1; now rewrite Hne).
    rewrite Hor, Hno, strip_trailing_slash_app. reflexivity.
Qed.

Lemma visualization_url_edges_witness :
  Agb.getVisualizationUrl (Examples.sample_ee []) (Ok Examples.masked_image)
    Agb.agb_vis_params
  = Ok ("https://tiles.example/agb" +:+ "/{z}/{x}/{y}").
Proof.
  apply (proj2 (proj2 (visualization_url_edges (Examples.sample_ee [])
                         Examples.masked_image Agb.agb_vis_params eq_refl))
           "https://tiles.example/agb" None);
    reflexivity.
Defined.

(** *** Harmonization and the regression *)

Ltac in_names :=
  repeat first [apply list_elem_of_here | apply list_elem_of_further].

Ltac not_in_names H :=
  repeat (apply elem_of_cons in H as [H|H]; [discriminate H|]);
  apply elem_of_nil in H; contradiction.

Ltac cases_in H tac :=
  repeat (apply elem_of_cons in H as [->|H]; [tac|]);
  apply elem_of_nil in H; contradiction.

Lemma select_is_Some (img : EE.image) (names : list string) (r : EE.image) :
  EE.select img names = Ok r -> forall n, n ∈ names -> is_Some (img !! n).
Proof.
  revert r. induction names as [|m names IH]; simpl; intros r H n Hn.
  - apply elem_of_nil in Hn. contradiction.
  - destruct (img !! m) as [b|] eqn:Hm; [|discriminate].
    inv_bind H. apply elem_of_cons in Hn as [->|Hn].
    + rewrite Hm. eauto.
    + eapply IH; eassumption.
Qed.

Lemma harmonizeResolution_run (ee : Agb.EarthEngine)
    (s2Image s1Image : result EE.image) (gediImage : option (result EE.image))
    (scale : Q) (hasCanopyHeight : bool) (h : EE.image) :
  Agb.harmonizeResolution ee s2Image s1Image gediImage scale hasCanopyHeight
    = Ok h ->
  exists s2 s1 : EE.image,
    s2Image = Ok s2 /\ s1Image = Ok s1 /\
    (forall k, k ∈ ["NDVI"; "EVI"; "LAI"] ->
       is_Some (s2 !! k) /\ h !! k = s2 !! k) /\
    (forall k, k ∈ ["VV"; "VH"; "RVI"] ->
       is_Some (s1 !! k) /\ h !! k = Agb.resample ee scale <$> s1 !! k) /\
    (forall k, k ∉ harmonized_names -> h !! k = None) /\
    (is_Some (h !! "CanopyHeight") <->
     hasCanopyHeight = true /\ gediImage <> None) /\
    (forall gedi : EE.image,
       hasCanopyHeight = true -> gediImage = Some (Ok gedi) ->
       h !! "CanopyHeight" = Agb.resample ee scale <$> gedi !! "CanopyHeight").
Proof.
  unfold Agb.harmonizeResolution. intros H.
  inv_bind H. rename a into s2, Hrun into Hs2.
  inv_bind H. rename a into s2Bands, Hrun into Hs2Bands.
  inv_bind H. rename a into s1r, Hrun into Hs1.
  inv_bind H. rename a into s1Bands, Hrun into Hs1Bands.
  apply fmap_Ok_inv in Hs1 as (s1 & -> & ->).
  pose proof (select_lookup _ _ _ Hs2Bands) as L2.
  pose proof (select_lookup _ _ _ Hs1Bands) as L1.
  pose proof (select_is_Some _ _ _ Hs2Bands) as S2.
  pose proof (select_is_Some _ _ _ Hs1Bands) as S1.
  assert (Hcombined : forall k,
            EE.addBands s2Bands s1Bands !! k =
            if decide (k ∈ ["NDVI"; "EVI"; "LAI"]) then s2 !! k
            else if decide (k ∈ ["VV"; "VH"; "RVI"])
                 then Agb.resample ee scale <$> s1 !! k else None).
  { intros k. unfold EE.addBands.
    destruct (decide (k ∈ ["NDVI"; "EVI"; "LAI"])) as [Hk|Hk].
    - destruct (S2 k Hk) as [b Hb].
      rewrite Hb. apply lookup_union_Some_l.
      rewrite L2, decide_True by exact Hk. exact Hb.
    - rewrite lookup_union_r by (rewrite L2, decide_False by exact Hk; reflexivity).
      rewrite L1. unfold Agb.resample_reproject. rewrite lookup_fmap.
      destruct (decide (k ∈ ["VV"; "VH"; "RVI"])); reflexivity. }
  exists s2, s1. split; [exact Hs2|]. split; [reflexivity|].
  assert (Hbase : forall h0 : EE.image,
            (forall k, k <> "CanopyHeight" ->
                       h0 !! k = EE.addBands s2Bands s1Bands !! k) ->
            (forall k, k ∈ ["NDVI"; "EVI"; "LAI"] ->
               is_Some (s2 !! k) /\ h0 !! k = s2 !! k) /\
            (forall k, k ∈ ["VV"; "VH"; "RVI"] ->
               is_Some (s1 !! k) /\ h0 !! k = Agb.resample ee scale <$> s1 !! k) /\
            (forall k, k ∉ harmonized_names -> h0 !! k = None)).
  { intros h0 Hh0. split; [|split].
    - intros k Hk. split; [exact (S2 k Hk)|].
      rewrite Hh0, Hcombined by (intros ->; not_in_names Hk).
      rewrite decide_True by exact Hk. reflexivity.
    - intros k Hk. split.
      + destruct (S1 k Hk) as [b Hb]. unfold Agb.resample_reproject in Hb.
        rewrite lookup_fmap in Hb. destruct (s1 !! k); [eauto | discriminate].
      + rewrite Hh0, Hcombined by (intros ->; not_in_names Hk).
        rewrite decide_False
          by (intros Hk'; cases_in Hk ltac:(not_in_names Hk')).
        rewrite decide_True by exact Hk. reflexivity.
    - intros k Hk. unfold harmonized_names in Hk.
      rewrite Hh0, Hcombined by (intros ->; apply Hk; in_names).
      rewrite !decide_False
        by (intros Hin; apply Hk; cases_in Hin ltac:(in_names)).
      reflexivity. }
  assert (Hnone : EE.addBands s2Bands s1Bands !! "CanopyHeight" = None)
    by (rewrite Hcombined; reflexivity).
  destruct hasCanopyHeight; [destruct gediImage as [gediImage|]|].
  - inv_bind H. rename a into gr, Hrun into Hg.
    inv_bind H. rename a into ch, Hrun into Hch. injection H as <-.
    apply fmap_Ok_inv in Hg as (gedi & -> & ->).
    pose proof (select_lookup _ _ _ Hch) as Lc.
    pose proof (select_is_Some _ _ _ Hch "CanopyHeight"
                  ltac:(apply list_elem_of_here)) as [b Hb].
    assert (Hh0 : forall k, k <> "CanopyHeight" ->
              EE.addBands (EE.addBands s2Bands s1Bands) ch !! k
              = EE.addBands s2Bands s1Bands !! k).
    { intros k Hk. unfold EE.addBands at 1.
      destruct (EE.addBands s2Bands s1Bands !! k) as [x|] eqn:E.
      - now apply lookup_union_Some_l.
      - rewrite lookup_union_r by exact E. rewrite Lc.
        apply decide_False. intros Hin. apply list_elem_of_singleton in Hin.
        contradiction. }
    destruct (Hbase _ Hh0) as (B1 & B2 & B3).
    assert (Hc : EE.addBands (EE.addBands s2Bands s1Bands) ch !! "CanopyHeight"
                 = Agb.resample ee scale <$> gedi !! "CanopyHeight").
    { unfold EE.addBands at 1. rewrite lookup_union_r by exact Hnone.
      rewrite Lc, decide_True by apply list_elem_of_here.
      unfold Agb.resample_reproject. apply lookup_fmap. }
    split; [exact B1|]. split; [exact B2|]. split; [exact B3|]. split.
    + split; [intros _; split; [reflexivity | discriminate]|].
      intros _. unfold EE.addBands at 1. rewrite lookup_union_r by exact Hnone.
      rewrite Lc, decide_True by apply list_elem_of_here. eauto.
    + intros gedi' _ [= <-]. exact Hc.
  - injection H as <-.
    destruct (Hbase _ (fun k _ => eq_refl)) as (B1 & B2 & B3).
    split; [exact B1|]. split; [exact B2|]. split; [exact B3|]. split.
    + rewrite Hnone. split; [intros [? ?]; discriminate | intros [_ ?]; contradiction].
    + intros ? _ ?; discriminate.
  - injection H as <-.
    destruct (Hbase _ (fun k _ => eq_refl)) as (B1 & B2 & B3).
    split; [exact B1|]. split; [exact B2|]. split; [exact B3|]. split.
    + rewrite Hnone. split; [intros [? ?]; discriminate | intros [? _]; discriminate].
    + intros ? ?; discriminate.
Qed.

(** Property X7.  What [harmonizeResolution] builds, when it evaluates: the
    bands NDVI, EVI, LAI, VV, VH and RVI, together with CanopyHeight exactly
    when the flag is set and a GEDI image is given, and no other band of the
    inputs.  NDVI, EVI and LAI are the optical composite's bands, untouched;
    VV, VH and RVI are the radar composite's bands, resampled to the target
    scale; CanopyHeight is the GEDI image's band, resampled. *)
Theorem harmonized_image_bands (ee : Agb.EarthEngine)
    (s2Image s1Image : result EE.image) (gediImage : option (result EE.image))
    (scale : Q) (hasCanopyHeight : bool) (h : EE.image) :
  Agb.harmonizeResolution ee s2Image s1Image gediImage scale hasCanopyHeight
    = Ok h ->
  exists s2 s1 : EE.image,
    s2Image = Ok s2 /\ s1Image = Ok s1 /\
    (forall k, is_Some (h !! k) <->
       k ∈ ["NDVI"; "EVI"; "LAI"; "VV"; "VH"; "RVI"] \/
       (k = "CanopyHeight" /\ hasCanopyHeight = true /\ gediImage <> None)) /\
    (forall k, k ∈ ["NDVI"; "EVI"; "LAI"] -> h !! k = s2 !! k) /\
    (forall k, k ∈ ["VV"; "VH"; "RVI"] ->
       h !! k = Agb.resample ee scale <$> s1 !! k) /\
    (forall gedi : EE.image,
       hasCanopyHeight = true -> gediImage = Some (Ok gedi) ->
       h !! "CanopyHeight" = Agb.resample ee scale <$> gedi !! "CanopyHeight").
Proof.
  intros H.
  destruct (harmonizeResolution_run _ _ _ _ _ _ _ H)
    as (s2 & s1 & Hs2 & Hs1 & B1 & B2 & B3 & Hch & Hgedi).
  exists s2, s1. split; [exact Hs2|]. split; [exact Hs1|].
  split; [|split; [|split]].
  - intros k. split.
    + intros Hk.
      destruct (decide (k ∈ harmonized_names)) as [Hin|Hout];
        [|rewrite (B3 k Hout) in Hk; destruct Hk; discriminate].
      unfold harmonized_names in Hin.
      destruct (decide (k = "CanopyHeight")) as [->|Hne].
      * right. split; [reflexivity|]. apply Hch. exact Hk.
      * left. clear -Hin Hne.
        cases_in Hin ltac:(first [solve [in_names] | contradiction]).
    + intros [Hin|(-> & Hflag & Hgiven)]; [|apply Hch; auto].
      assert (Hcase : k ∈ ["NDVI"; "EVI"; "LAI"] \/ k ∈ ["VV"; "VH"; "RVI"])
        by (cases_in Hin ltac:(solve [left; in_names | right; in_names])).
      destruct Hcase as [Hk|Hk].
      * destruct (B1 k Hk) as [His ->]. exact His.
      * destruct (B2 k Hk) as [[b Hb] ->]. rewrite Hb. eauto.
  - intros k Hk. apply B1, Hk.
  - intros k Hk. apply B2, Hk.
  - exact Hgedi.
Qed.

Lemma harmonized_image_bands_witness :
  exists h : EE.image,
    Agb.harmonizeResolution (Examples.sample_ee [])
      (Ok MoreExamples.sample_optical) (Ok MoreExamples.sample_sar) None 10 true
    = Ok h /\
    h !! "B8" = None /\ h !! "CanopyHeight" = None /\
    h !! "NDVI" = MoreExamples.sample_optical !! "NDVI".
Proof.
  assert (E : exists h,
             Agb.harmonizeResolution (Examples.sample_ee [])
               (Ok MoreExamples.sample_optical) (Ok MoreExamples.sample_sar)
               None 10 true = Ok h)
    by (eexists; reflexivity).
  destruct E as [h E].
  destruct (harmonized_image_bands _ _ _ _ _ _ _ E)
    as (s2 & s1 & Hs2 & _ & Hdom & B1 & _).
  injection Hs2 as <-.
  exists h. split; [exact E|]. split; [|split].
  - destruct (h !! "B8") as [r|] eqn:Hb; [|reflexivity].
    destruct (proj1 (Hdom "B8") (ex_intro _ r Hb)) as [Hin|[Hk _]];
      [not_in_names Hin | discriminate Hk].
  - destruct (h !! "CanopyHeight") as [r|] eqn:Hc; [|reflexivity].
    destruct (proj1 (Hdom "CanopyHeight") (ex_intro _ r Hc))
      as [Hin|(_ & _ & Hne)]; [not_in_names Hin | contradiction].
  - apply B1. in_names.
Defined.

Lemma calculateAGB_on_harmonized (ee : Agb.EarthEngine)
    (s2Image s1Image : result EE.image) (gediImage : option (result EE.image))
    (scale : Q) (hasCanopyHeight : bool) (h : EE.image) :
  Agb.harmonizeResolution ee s2Image s1Image gediImage scale hasCanopyHeight
    = Ok h ->
  (hasCanopyHeight = true -> gediImage <> None) ->
  exists agb, Agb.regression h hasCanopyHeight = Ok agb /\
    Agb.calculateAGB h hasCanopyHeight = Ok (EE.clamp 0 500 (EE.rename "AGB" agb)).
Proof.
  intros H Hgedi.
  destruct (harmonizeResolution_run _ _ _ _ _ _ _ H)
    as (s2 & s1 & _ & _ & B1 & B2 & _ & Hch & _).
  assert (Hband : forall k, k ∈ ["NDVI"; "EVI"; "VH"; "RVI"] ->
                            exists b : EE.raster, h !! k = Some b).
  { intros k Hk.
    assert (Hcase : k ∈ ["NDVI"; "EVI"; "LAI"] \/ k ∈ ["VV"; "VH"; "RVI"])
      by (cases_in Hk ltac:(solve [left; in_names | right; in_names])).
    destruct Hcase as [Hk'|Hk'].
    - destruct (B1 k Hk') as [[b Hb] ->]. eauto.
    - destruct (B2 k Hk') as [[b Hb] ->]. rewrite Hb. eauto. }
  destruct (Hband "NDVI" ltac:(in_names)) as [NDVI H1].
  destruct (Hband "EVI" ltac:(in_names)) as [EVI H2].
  destruct (Hband "VH" ltac:(in_names)) as [VH H3].
  destruct (Hband "RVI" ltac:(in_names)) as [RVI H4].
  unfold Agb.calculateAGB. destruct hasCanopyHeight.
  - destruct (proj2 Hch (conj eq_refl (Hgedi eq_refl))) as [CH H5].
    destruct (regression_full h _ _ _ _ _ H1 H2 H3 H4 H5) as (agb & -> & _).
    eauto.
  - destruct (regression_reduced h _ _ _ _ H1 H2 H3 H4) as (agb & -> & _).
    eauto.
Qed.

(** Property X8.  The regression finds its bands on what [harmonizeResolution]
    returns: called with the same flag, [calculateAGB] evaluates to a single
    band AGB, clamped to the range from 0 to 500, unless the flag is set
    while the GEDI image is [null]; in that one case the harmonized image has
    no CanopyHeight band and the full model fails on it. *)
Theorem regression_finds_its_bands (ee : Agb.EarthEngine)
    (s2Image s1Image : result EE.image) (gediImage : option (result EE.image))
    (scale : Q) (hasCanopyHeight : bool) (h : EE.image) :
  Agb.harmonizeResolution ee s2Image s1Image gediImage scale hasCanopyHeight
    = Ok h ->
  ((hasCanopyHeight = true -> gediImage <> None) ->
   exists agb,
     Agb.calculateAGB h hasCanopyHeight
       = Ok (EE.clamp 0 500 (EE.rename "AGB" agb)) /\
     forall k, is_Some (EE.clamp 0 500 (EE.rename "AGB" agb) !! k) <-> k = "AGB") /\
  (hasCanopyHeight = true -> gediImage = None ->
   exists e, Agb.calculateAGB h true = Err e).
Proof.
  intros H. split.
  - intros Hgedi.
    destruct (calculateAGB_on_harmonized _ _ _ _ _ _ _ H Hgedi) as (agb & _ & Hagb).
    exists agb. split; [exact Hagb|].
    intros k. unfold EE.clamp, EE.rename. rewrite lookup_fmap.
    destruct (decide (k = "AGB")) as [->|Hne].
    + rewrite lookup_singleton_eq. split; [reflexivity | intros _; eauto].
    + rewrite lookup_singleton_ne by congruence.
      split; [intros [? ?]; discriminate | contradiction].
  - intros -> ->.
    destruct (harmonizeResolution_run _ _ _ _ _ _ _ H)
      as (_ & _ & _ & _ & _ & _ & _ & Hch & _).
    destruct (Agb.calculateAGB h true) as [img|e] eqn:E; [|eauto].
    apply calculateAGB_inv in E as (agb & Hreg & _).
    destruct (regression_bands _ _ _ Hreg) as (_ & _ & _ & _ & _ & _ & _ & _ & Hc).
    destruct (Hc eq_refl) as [CH HCH].
    assert (His : is_Some (h !! "CanopyHeight")) by (rewrite HCH; eauto).
    apply Hch in His as [_ Hne]. contradiction.
Qed.

Lemma regression_finds_its_bands_witness :
  exists (h : EE.image) (agb : EE.raster),
    Agb.harmonizeResolution (Examples.sample_ee [])
      (Ok MoreExamples.sample_optical) (Ok MoreExamples.sample_sar) None 10 false
    = Ok h /\
    Agb.calculateAGB h false = Ok (EE.clamp 0 500 (EE.rename "AGB" agb)).
Proof.
  assert (E : exists h,
             Agb.harmonizeResolution (Examples.sample_ee [])
               (Ok MoreExamples.sample_optical) (Ok MoreExamples.sample_sar)
               None 10 false = Ok h)
    by (eexists; reflexivity).
  destruct E as [h E].
  destruct (proj1 (regression_finds_its_bands _ _ _ _ _ _ _ E))
    as (agb & Hagb & _); [discriminate|].
  exists h, agb. split; [exact E | exact Hagb].
Defined.

(** Property X9.  In [calculateAGBForDate] the flag and the GEDI image come
    from the same check, so the failing case cannot arise: whenever the
    harmonized image of a date evaluates, its AGB layer evaluates too, as a
    band of the harmonized image's model; and an AGB layer never evaluates on
    a harmonized image that does not. *)
Theorem agb_layer_follows_harmonized (ee : Agb.EarthEngine) (g : EE.geometry)
    (t : Z) (L : Agb.layers) :
  Agb.buildLayers ee g t = Ok L ->
  (forall h, Agb.harmonizedImage L = Ok h ->
     exists agb,
       Agb.regression h (Agb.hasCanopyHeight (Agb.gedi L)) = Ok agb /\
       Agb.agbImage L = Ok (EE.clamp 0 500 (EE.rename "AGB" agb))) /\
  (forall e, Agb.harmonizedImage L = Err e -> Agb.agbImage L = Err e).
Proof.
  intros HL.
  destruct (buildLayers_inv _ _ _ _ HL)
    as (_ & _ & Hgedi & Hagb & s2c & s1c & _ & _ & Hharm).
  split.
  - intros h Hh. rewrite Hagb, Hh. cbn [mbind result_bind].
    rewrite Hh in Hharm. symmetry in Hharm.
    apply (calculateAGB_on_harmonized _ _ _ _ _ _ _ Hharm).
    intros Hflag. rewrite Hgedi in Hflag |- *.
    destruct (checkGEDI_true _ _ _ _ Hflag) as (height & _ & _ & -> & _).
    discriminate.
  - intros e He. rewrite Hagb, He. reflexivity.
Qed.

Lemma agb_layer_follows_harmonized_witness :
  exists (L : Agb.layers) (h : EE.image) (agb : EE.raster),
    Agb.buildLayers (Examples.sample_ee [Examples.sample_shot])
      Examples.sample_geometry Examples.sample_target = Ok L /\
    Agb.harmonizedImage L = Ok h /\
    Agb.regression h true = Ok agb /\
    Agb.agbImage L = Ok (EE.clamp 0 500 (EE.rename "AGB" agb)).
Proof.
  assert (E : exists L h,
             Agb.buildLayers (Examples.sample_ee [Examples.sample_shot])
               Examples.sample_geometry Examples.sample_target = Ok L /\
             Agb.harmonizedImage L = Ok h /\
             Agb.hasCanopyHeight (Agb.gedi L) = true)
    by (do 2 eexists; split; [reflexivity | split; reflexivity]).
  destruct E as (L & h & E & Eh & Hflag).
  destruct (proj1 (agb_layer_follows_harmonized _ _ _ _ E) h Eh)
    as (agb & Hreg & Hagb).
  rewrite Hflag in Hreg. exists L, h, agb. auto.
Defined.

(** *** The GEDI check *)

Lemma search_windows_with_gedi (ee : Agb.EarthEngine)
    (c : EE.geometry -> EE.collection Agb.gedi_shot) (g : EE.geometry)
    (t m : Z) (remaining : nat) (k0 : Z) :
  Agb.search_windows (with_gedi ee c) g t m remaining k0
  = Agb.search_windows ee g t m remaining k0.
Proof.
  revert k0. induction remaining as [|remaining IH]; intros k0; [reflexivity|].
  cbn [Agb.search_windows]. rewrite IH. reflexivity.
Qed.

Lemma statistics_with_gedi (ee : Agb.EarthEngine)
    (c : EE.geometry -> EE.collection Agb.gedi_shot) (img : result EE.image)
    (band : string) (g : EE.geometry) :
  Agb.calculateImageStatistics (with_gedi ee c) img band g
  = Agb.calculateImageStatistics ee img band g.
Proof. reflexivity. Qed.

Lemma url_with_gedi (ee : Agb.EarthEngine)
    (c : EE.geometry -> EE.collection Agb.gedi_shot) (img : result EE.image)
    (v : Agb.vis_params) :
  Agb.getVisualizationUrl (with_gedi ee c) img v
  = Agb.getVisualizationUrl ee img v.
Proof. reflexivity. Qed.

Lemma harmonize_with_gedi (ee : Agb.EarthEngine)
    (c : EE.geometry -> EE.collection Agb.gedi_shot)
    (s2 s1 : result EE.image) (gedi : option (result EE.image)) (scale : Q)
    (flag : bool) :
  Agb.harmonizeResolution (with_gedi ee c) s2 s1 gedi scale flag
  = Agb.harmonizeResolution ee s2 s1 gedi scale flag.
Proof. reflexivity. Qed.

Lemma harmonize_without_flag (ee : Agb.EarthEngine)
    (s2 s1 : result EE.image) (gedi : option (result EE.image)) (scale : Q) :
  Agb.harmonizeResolution ee s2 s1 gedi scale false
  = Agb.harmonizeResolution ee s2 s1 None scale false.
Proof. reflexivity. Qed.

Ltac step_both :=
  match goal with
  | |- (?m ≫= _) = _ <$> (?m ≫= _) =>
      destruct m; cbn [mbind result_bind]; [|reflexivity]
  end.

(** Property X10.  A GEDI catalogue that cannot be read is not fatal: the
    date's computation does what it does for an empty catalogue (the reduced
    model, no canopy-height metric, zero footprints, and the same failure if
    another step fails); only the warning differs, 'GEDI canopy height data
    unavailable...' instead of 'No GEDI canopy height data available...'. *)
Theorem gedi_failure_is_not_fatal (ee : Agb.EarthEngine) (g : EE.geometry)
    (t : Z) (e : error) :
  Agb.GEDI02_A_002_MONTHLY ee g = Err e ->
  Agb.calculateAGBForDate ee g t
  = with_warnings [Agb.warning_gedi_failed]
      <$> Agb.calculateAGBForDate (with_gedi ee (fun _ => Ok [])) g t.
Proof.
  intros Hfail. unfold Agb.calculateAGBForDate, Agb.buildLayers,
    Agb.findClosestDataWindow.
  rewrite search_windows_with_gedi.
  destruct (Agb.search_windows ee g t 3 _ 1) as [w|err]; [|reflexivity].
  cbn [mbind result_bind].
  unfold Agb.getSentinel2Composite, Agb.getSentinel1Composite.
  cbn [with_gedi Agb.ensureInitialized].
  destruct (Agb.ensureInitialized ee) as [[]|err] eqn:Hinit; [|reflexivity].
  cbn [mbind result_bind].
  unfold Agb.checkGEDI, Agb.getGEDICanopyHeight.
  cbn [with_gedi Agb.ensureInitialized Agb.GEDI02_A_002_MONTHLY].
  rewrite Hinit, Hfail.
  cbn [mbind result_bind EE.filter_collection EE.size_evaluate List.filter
       List.length].
  change (Z.of_nat 0 =? 0)%Z with true. cbv iota.
  cbn [Agb.agbImage Agb.harmonizedImage Agb.gedi Agb.hasCanopyHeight
       Agb.gediHeight Agb.gediCollection Agb.gedi_warnings Agb.window
       Agb.s2Collection Agb.s1Collection].
  rewrite !statistics_with_gedi, !url_with_gedi, !harmonize_with_gedi.
  cbn [with_gedi Agb.polygon_area Agb.S2_SR_HARMONIZED Agb.S1_GRD
       Agb.s2_composite Agb.s1_composite].
  rewrite (harmonize_without_flag ee _ _ (Some (Err e))).
  rewrite (harmonize_without_flag ee _ _ (Some (Ok _))).
  repeat step_both.
  reflexivity.
Qed.

Lemma gedi_failure_is_not_fatal_witness :
  exists r,
    Agb.calculateAGBForDate MoreExamples.gedi_down_ee Examples.sample_geometry
      Examples.sample_target = Ok r /\
    Agb.warnings r = [Agb.warning_gedi_failed] /\
    Agb.gediFootprints (Agb.dataQuality r) = 0%Z.
Proof.
  pose proof (gedi_failure_is_not_fatal MoreExamples.gedi_down_ee Examples.sample_geometry
                Examples.sample_target _ eq_refl) as H.
  assert (E : exists r0,
             Agb.calculateAGBForDate
               (with_gedi MoreExamples.gedi_down_ee (fun _ => Ok []))
               Examples.sample_geometry Examples.sample_target = Ok r0 /\
             Agb.gediFootprints (Agb.dataQuality r0) = 0%Z)
    by (eexists; split; reflexivity).
  destruct E as (r0 & E & Hzero). rewrite E in H.
  exists (with_warnings [Agb.warning_gedi_failed] r0).
  split; [exact H|]. split; [reflexivity | exact Hzero].
Defined.

Lemma checkGEDI_cases (ee : Agb.EarthEngine) (g : EE.geometry) (s e : Z) :
  (Agb.hasCanopyHeight (Agb.checkGEDI ee g s e) = true /\
   Agb.gedi_warnings (Agb.checkGEDI ee g s e) = [] /\
   exists shots n,
     Agb.gediCollection (Agb.checkGEDI ee g s e) = Some shots /\
     EE.size_evaluate shots = Ok n /\ (0 < n)%Z) \/
  (Agb.hasCanopyHeight (Agb.checkGEDI ee g s e) = false /\
   (Agb.gedi_warnings (Agb.checkGEDI ee g s e) = [Agb.warning_no_gedi] \/
    Agb.gedi_warnings (Agb.checkGEDI ee g s e) = [Agb.warning_gedi_failed])).
Proof.
  unfold Agb.checkGEDI.
  destruct (Agb.getGEDICanopyHeight ee g s e) as [[height shots]|err];
    [|right; auto].
  destruct (EE.size_evaluate shots) as [n|err] eqn:Hsize; [|right; auto].
  destruct (Z.eqb_spec n 0) as [->|Hne]; [right; auto|].
  left. split; [reflexivity|]. split; [reflexivity|].
  exists shots, n. split; [reflexivity|]. split; [exact Hsize|].
  apply size_evaluate_nonneg in Hsize. lia.
Qed.

(** Property X11.  A result carries a warning exactly when it was computed
    without canopy height: the list of warnings is empty when the footprint
    count is positive, and otherwise holds one of the two GEDI warnings and
    nothing else. *)
Theorem warning_iff_no_footprints (ee : Agb.EarthEngine) (g : EE.geometry)
    (t : Z) (r : Agb.AGBResult) :
  Agb.calculateAGBForDate ee g t = Ok r ->
  (Agb.warnings r = [] <-> (0 < Agb.gediFootprints (Agb.dataQuality r))%Z) /\
  (Agb.warnings r = [Agb.warning_no_gedi] \/
   Agb.warnings r = [Agb.warning_gedi_failed] <->
   Agb.gediFootprints (Agb.dataQuality r) = 0%Z) /\
  (Agb.warnings r = [] \/ Agb.warnings r = [Agb.warning_no_gedi] \/
   Agb.warnings r = [Agb.warning_gedi_failed]).
Proof.
  intros H. unfold Agb.calculateAGBForDate in H.
  inv_bind H. rename a into L, Hrun into HL.
  do 13 inv_bind H. injection H as <-.
  cbn [Agb.warnings Agb.dataQuality Agb.gediFootprints].
  rename a10 into gediCount, Hrun10 into Hcount.
  pose proof (buildLayers_inv _ _ _ _ HL) as (_ & _ & Hgedi & _).
  rewrite Hgedi in Hcount |- *.
  destruct (checkGEDI_cases ee g (Agb.startDate (Agb.window L))
              (Agb.endDate (Agb.window L)))
    as [(Hflag & Hw & shots & n & Hshots & Hsize & Hn) | (Hflag & Hw)].
  - rewrite Hflag, Hshots, Hsize in Hcount. injection Hcount as <-.
    rewrite Hw. split; [tauto|]. split; [|auto].
    split; [intros [?|?]; discriminate | lia].
  - rewrite Hflag in Hcount. injection Hcount as <-.
    split; [|split].
    + split; [|lia]. destruct Hw as [Hw|Hw]; rewrite Hw; discriminate.
    + tauto.
    + tauto.
Qed.

Lemma warning_iff_no_footprints_witness :
  exists r,
    Agb.calculateAGBForDate (Examples.sample_ee [])
      Examples.sample_geometry Examples.sample_target = Ok r /\
    Agb.gediFootprints (Agb.dataQuality r) = 0%Z /\
    Agb.warnings r = [Agb.warning_no_gedi].
Proof.
  assert (E : exists r,
             Agb.calculateAGBForDate (Examples.sample_ee [])
               Examples.sample_geometry Examples.sample_target = Ok r /\
             Agb.warnings r = [Agb.warning_no_gedi])
    by (eexists; split; reflexivity).
  destruct E as (r & E & Hw). exists r. split; [exact E|].
  split; [|exact Hw].
  apply (proj1 (proj2 (warning_iff_no_footprints _ _ _ _ E))).
  left. exact Hw.
Defined.

(** *** What a date's result reports *)

(** Property X12.  The result of a date reports the window the search stopped
    at, twice ([actualDateRange] and [dataQuality.temporalRange] agree): the
    two edges the loop computed at the first iteration [k] from 1 to 12
    whose window holds a scene under the cloud-cover threshold.  Where no
    change of clocks lies between the target and the edges, these are the
    days [k] weeks either side of the target day.  [sentinel2Images] is the
    number of scenes the search counted in that window, hence at least 1;
    [sentinel1Images] may be 0. *)
Theorem result_reports_its_window (ee : Agb.EarthEngine) (g : EE.geometry)
    (t : Z) (r : Agb.AGBResult) :
  Agb.calculateAGBForDate ee g t = Ok r ->
  Agb.actualDateRange r = Agb.temporalRange (Agb.dataQuality r) /\
  (exists k, (1 <= k <= 12)%Z /\
     Agb.actualDateRange r
       = (Agb.window_edge ee t (- (k * 7)), Agb.window_edge ee t (k * 7)) /\
     (steady_offset (Agb.timezone ee) t (- (k * 7)) ->
      steady_offset (Agb.timezone ee) t (k * 7) ->
      Agb.actualDateRange r
        = ((day_of t - k * 7)%Z, (day_of t + k * 7)%Z)) /\
     (forall j, (1 <= j < k)%Z -> window_size ee g t j = Ok 0%Z) /\
     window_size ee g t k = Ok (Agb.sentinel2Images (Agb.dataQuality r))) /\
  (1 <= Agb.sentinel2Images (Agb.dataQuality r))%Z /\
  (0 <= Agb.sentinel1Images (Agb.dataQuality r))%Z.
Proof.
  intros H. unfold Agb.calculateAGBForDate in H.
  inv_bind H. rename a into L, Hrun into HL.
  do 13 inv_bind H. injection H as <-.
  cbn [Agb.actualDateRange Agb.dataQuality Agb.temporalRange
       Agb.sentinel2Images Agb.sentinel1Images].
  rename a8 into s2Count, Hrun8 into Hs2, a9 into s1Count, Hrun9 into Hs1.
  pose proof (buildLayers_inv _ _ _ _ HL)
    as (Hwin & _ & _ & _ & s2c & s1c & Hs2c & _ & _).
  unfold Agb.findClosestDataWindow in Hwin.
  apply search_windows_Ok in Hwin as (k & Hk & Hbefore & (n & Hn & Hpos) & Hw).
  change (Z.of_nat (Z.to_nat (3 * 4))) with 12%Z in Hk.
  unfold Agb.getSentinel2Composite in Hs2c. inv_bind Hs2c.
  injection Hs2c as _ Hcoll.
  rewrite <- Hcoll, Hw in Hs2. cbn [Agb.startDate Agb.endDate window_at] in Hs2.
  change (window_size ee g t k = Ok s2Count) in Hs2.
  assert (n = s2Count) as -> by congruence.
  split; [reflexivity|]. split; [|split].
  - exists k. split; [lia|]. split; [rewrite Hw; reflexivity|].
    split.
    + intros Hstart Hend. rewrite Hw. cbn [Agb.startDate Agb.endDate window_at].
      rewrite (window_edge_steady _ _ _ Hstart), (window_edge_steady _ _ _ Hend).
      f_equal; lia.
    + split; [|exact Hs2]. intros j Hj. apply Hbefore. lia.
  - lia.
  - exact (size_evaluate_nonneg _ _ Hs1).
Qed.

Lemma result_reports_its_window_witness :
  exists r,
    Agb.calculateAGBForDate (Examples.sample_ee [])
      Examples.sample_geometry Examples.sample_target = Ok r /\
    Agb.actualDateRange r = (65%Z, 135%Z) /\
    (1 <= Agb.sentinel2Images (Agb.dataQuality r))%Z.
Proof.
  assert (E : exists r,
             Agb.calculateAGBForDate (Examples.sample_ee [])
               Examples.sample_geometry Examples.sample_target = Ok r /\
             Agb.actualDateRange r = (65%Z, 135%Z))
    by (eexists; split; reflexivity).
  destruct E as (r & E & Hrange). exists r. split; [exact E|].
  split; [exact Hrange|].
  apply (result_reports_its_window _ _ _ _ E).
Defined.

(** Rounding to [d] decimals keeps the order. *)
Lemma toFixed_monotone (d : nat) (x y : Q) :
  x <= y -> Js.toFixed d x <= Js.toFixed d y.
Proof.
  intros Hxy. pose proof (pow10_pos d) as Hp.
  assert (Hfloor : forall a b, a <= b ->
            inject_Z (Qfloor (a * Js.pow10 d + (1 # 2))) / Js.pow10 d
            <= inject_Z (Qfloor (b * Js.pow10 d + (1 # 2))) / Js.pow10 d).
  { intros a b Hab. apply Qle_shift_div_l; [exact Hp|].
    assert (Hc : inject_Z (Qfloor (a * Js.pow10 d + (1 # 2))) / Js.pow10 d
                 * Js.pow10 d
                 == inject_Z (Qfloor (a * Js.pow10 d + (1 # 2))))
      by (field; lra).
    rewrite Hc. rewrite <- Zle_Qle. apply Qfloor_resp_le.
    assert (a * Js.pow10 d <= b * Js.pow10 d)
      by (apply Qmult_le_compat_r; lra).
    lra. }
  unfold Js.toFixed.
  destruct (Qle_bool 0 x) eqn:Hx, (Qle_bool 0 y) eqn:Hy.
  - apply Hfloor, Hxy.
  - apply Qle_bool_iff in Hx.
    assert (Hy' : ~ 0 <= y) by (rewrite <- Qle_bool_iff; congruence). lra.
  - apply Qle_bool_iff in Hy.
    assert (Hx' : ~ 0 <= x) by (rewrite <- Qle_bool_iff; congruence).
    assert (H1 : 0 <= inject_Z (Qfloor (- x * Js.pow10 d + (1 # 2))) / Js.pow10 d).
    { apply Qle_shift_div_l; [exact Hp|]. rewrite Qmult_0_l.
      change 0 with (inject_Z 0). rewrite <- Zle_Qle. apply Qfloor_half_ge.
      change (inject_Z 0) with 0.
      assert (0 <= (- x) * Js.pow10 d) by (apply Qmult_le_0_compat; lra).
      lra. }
    assert (H2 : 0 <= inject_Z (Qfloor (y * Js.pow10 d + (1 # 2))) / Js.pow10 d).
    { apply Qle_shift_div_l; [exact Hp|]. rewrite Qmult_0_l.
      change 0 with (inject_Z 0). rewrite <- Zle_Qle. apply Qfloor_half_ge.
      change (inject_Z 0) with 0.
      assert (0 <= y * Js.pow10 d) by (apply Qmult_le_0_compat; lra).
      lra. }
    lra.
  - assert (H := Hfloor (- y) (- x) ltac:(lra)). lra.
Qed.

Lemma foldr_Qmin_le (x : Q) (l : list Q) :
  foldr Qmin x l <= x /\ Forall (fun v => foldr Qmin x l <= v) l.
Proof.
  induction l as [|y l [IH1 IH2]]; simpl; [split; [lra | constructor]|].
  split.
  - pose proof (Q.le_min_r y (foldr Qmin x l)). lra.
  - constructor; [apply Q.le_min_l|].
    eapply Forall_impl; [exact IH2|]. cbn. intros v Hv.
    pose proof (Q.le_min_r y (foldr Qmin x l)). lra.
Qed.

Lemma foldr_Qmax_ge (x : Q) (l : list Q) :
  x <= foldr Qmax x l /\ Forall (fun v => v <= foldr Qmax x l) l.
Proof.
  induction l as [|y l [IH1 IH2]]; simpl; [split; [lra | constructor]|].
  split.
  - pose proof (Q.le_max_r y (foldr Qmax x l)). lra.
  - constructor; [apply Q.le_max_l|].
    eapply Forall_impl; [exact IH2|]. cbn. intros v Hv.
    pose proof (Q.le_max_r y (foldr Qmax x l)). lra.
Qed.

(** Over the same values the minimum, the mean and the maximum are in
    order, also after the defaults. *)
Lemma stats_of_ordered (ee : Agb.EarthEngine) (r : EE.raster) (g : EE.geometry) :
  Agb.min (stats_of ee r g) <= Agb.mean (stats_of ee r g) /\
  Agb.mean (stats_of ee r g) <= Agb.max (stats_of ee r g).
Proof.
  unfold stats_of. cbn [Agb.mean Agb.min Agb.max].
  destruct (EE.region_values r (Agb.region ee g)) as [|x l] eqn:Hvs.
  - cbn. split; lra.
  - set (lo := foldr Qmin x l). set (hi := foldr Qmax x l).
    assert (Hall : Forall (within lo hi) (x :: l)).
    { destruct (foldr_Qmin_le x l) as [L1 L2], (foldr_Qmax_ge x l) as [U1 U2].
      constructor; [split; assumption|].
      rewrite Forall_forall in L2, U2 |- *. intros v Hv. split; auto. }
    destruct (EE.Reducer_mean (x :: l)) as [m|] eqn:Hm; [|discriminate Hm].
    destruct (Reducer_mean_range lo hi _ m Hall Hm) as [M1 M2].
    change (EE.Reducer_min (x :: l)) with (Some lo).
    change (EE.Reducer_max (x :: l)) with (Some hi).
    cbn [EE.to_value]. rewrite !or_zero_num. split; assumption.
Qed.

Lemma to_metric_ordered (d : nat) (ee : Agb.EarthEngine) (r : EE.raster)
    (g : EE.geometry) :
  Agb.metric_min (Agb.to_metric d (stats_of ee r g))
    <= Agb.metric_mean (Agb.to_metric d (stats_of ee r g)) /\
  Agb.metric_mean (Agb.to_metric d (stats_of ee r g))
    <= Agb.metric_max (Agb.to_metric d (stats_of ee r g)).
Proof.
  destruct (stats_of_ordered ee r g) as [H1 H2].
  cbn [Agb.to_metric Agb.metric_min Agb.metric_mean Agb.metric_max].
  split; apply toFixed_monotone; assumption.
Qed.

(** Property X13.  In every result of a date the reported minimum, mean and
    maximum are in order, for the AGB layer and for each input metric, the
    canopy height included when it is there: the three are reduced over the
    same unmasked pixels, all three default to 0 together, and rounding
    keeps the order. *)
Theorem reported_statistics_are_ordered (ee : Agb.EarthEngine)
    (g : EE.geometry) (t : Z) (r : Agb.AGBResult) :
  Agb.calculateAGBForDate ee g t = Ok r ->
  (Agb.minAGB r <= Agb.meanAGB r /\ Agb.meanAGB r <= Agb.maxAGB r) /\
  (forall m,
     m ∈ [Agb.im_ndvi (Agb.inputMetrics r); Agb.im_evi (Agb.inputMetrics r);
          Agb.im_lai (Agb.inputMetrics r); Agb.im_vh (Agb.inputMetrics r);
          Agb.im_vv (Agb.inputMetrics r); Agb.im_rvi (Agb.inputMetrics r)] \/
     Agb.im_canopyHeight (Agb.inputMetrics r) = Some m ->
     Agb.metric_min m <= Agb.metric_mean m /\
     Agb.metric_mean m <= Agb.metric_max m).
Proof.
  intros H. unfold Agb.calculateAGBForDate in H.
  inv_bind H. rename a into L, Hrun into HL.
  do 13 inv_bind H. injection H as <-.
  cbn [Agb.minAGB Agb.meanAGB Agb.maxAGB Agb.inputMetrics Agb.im_ndvi
       Agb.im_evi Agb.im_lai Agb.im_vh Agb.im_vv Agb.im_rvi
       Agb.im_canopyHeight].
  apply calculateImageStatistics_inv in Hrun0 as (_ & ? & ? & _ & _ & ->).
  apply calculateImageStatistics_inv in Hrun1 as (_ & ? & ? & _ & _ & ->).
  apply calculateImageStatistics_inv in Hrun2 as (_ & ? & ? & _ & _ & ->).
  apply calculateImageStatistics_inv in Hrun3 as (_ & ? & ? & _ & _ & ->).
  apply calculateImageStatistics_inv in Hrun4 as (_ & ? & ? & _ & _ & ->).
  apply calculateImageStatistics_inv in Hrun5 as (_ & ? & ? & _ & _ & ->).
  apply calculateImageStatistics_inv in Hrun6 as (_ & ? & ? & _ & _ & ->).
  split.
  - destruct (stats_of_ordered ee x0 g) as [H1 H2].
    split; apply toFixed_monotone; assumption.
  - intros m [Hm|Hm].
    + cases_in Hm ltac:(apply to_metric_ordered).
    + destruct (Agb.hasCanopyHeight (Agb.gedi L)).
      * apply fmap_Ok_inv in Hrun7 as (st & Hst & ->).
        apply calculateImageStatistics_inv in Hst as (_ & ? & ? & _ & _ & ->).
        injection Hm as <-. apply to_metric_ordered.
      * injection Hrun7 as <-. discriminate Hm.
Qed.

Lemma reported_statistics_are_ordered_witness :
  exists r,
    Agb.calculateAGBForDate (Examples.sample_ee [Examples.sample_shot])
      Examples.sample_geometry Examples.sample_target = Ok r /\
    Agb.minAGB r <= Agb.meanAGB r /\ Agb.meanAGB r <= Agb.maxAGB r.
Proof.
  assert (E : exists r,
             Agb.calculateAGBForDate (Examples.sample_ee [Examples.sample_shot])
               Examples.sample_geometry Examples.sample_target = Ok r)
    by (eexists; reflexivity).
  destruct E as (r & E). exists r. split; [exact E|].
  apply (reported_statistics_are_ordered _ _ _ _ E).
Defined.

(** *** The change report *)

Lemma totalBiomass_rounded (ee : Agb.EarthEngine) (g : EE.geometry) (t : Z)
    (r : Agb.AGBResult) :
  Agb.calculateAGBForDate ee g t = Ok r ->
  exists x, Agb.totalBiomass r = Js.toFixed 2 x.
Proof.
  intros H. unfold Agb.calculateAGBForDate in H.
  do 14 inv_bind H. injection H as <-. cbn [Agb.totalBiomass]. eauto.
Qed.

(** Property X14.  The change report of a 200 response is consistent with the
    numbers beside it.  The label is computed from the unrounded difference
    of the two means, yet it always agrees with the sign of the reported
    [meanAGBChange]: 'Increase' exactly when that number is positive,
    'Decrease' exactly when it is negative, 'No Change' exactly when it is
    zero.  The reported [totalBiomassChange] is the difference of the two
    reported totals. *)
Theorem change_report_is_consistent (ee : Agb.EarthEngine) (req : Agb.request)
    (b : Agb.body) :
  Agb.POST ee req = Http200 b ->
  (Agb.status (Agb.body_agbChange b) = "Increase" <->
   0 < Agb.meanAGBChange (Agb.body_agbChange b)) /\
  (Agb.status (Agb.body_agbChange b) = "Decrease" <->
   Agb.meanAGBChange (Agb.body_agbChange b) < 0) /\
  (Agb.status (Agb.body_agbChange b) = "No Change" <->
   Agb.meanAGBChange (Agb.body_agbChange b) == 0) /\
  Agb.totalBiomassChange (Agb.body_agbChange b)
  == Agb.totalBiomass (Agb.body_endDate b).2
     - Agb.totalBiomass (Agb.body_startDate b).2.
Proof.
  intros H.
  destruct (POST_inv _ _ _ H)
    as (g & s & e & sAGB & eAGB & _ & _ & _ & Hs & He & -> & -> & -> & _).
  destruct (meanAGB_nonneg_rounded _ _ _ _ Hs) as (_ & xs & Hxs).
  destruct (meanAGB_nonneg_rounded _ _ _ _ He) as (_ & xe & Hxe).
  destruct (totalBiomass_rounded _ _ _ _ Hs) as (ts & Hts).
  destruct (totalBiomass_rounded _ _ _ _ He) as (te & Hte).
  cbn [Agb.report Agb.analyseChange Agb.status Agb.meanAGBChange
       Agb.totalBiomassChange Agb.agbChange Agb.biomassDifference snd].
  assert (Hmean : Js.toFixed 2 (Agb.meanAGB eAGB - Agb.meanAGB sAGB)
                  == Agb.meanAGB eAGB - Agb.meanAGB sAGB)
    by (rewrite Hxs, Hxe; apply toFixed_difference).
  assert (Htotal : Js.toFixed 2 (Agb.totalBiomass eAGB - Agb.totalBiomass sAGB)
                   == Agb.totalBiomass eAGB - Agb.totalBiomass sAGB)
    by (rewrite Hts, Hte; apply toFixed_difference).
  rewrite Hmean. split; [|split; [|split; [|exact Htotal]]].
  all: set (c := Agb.meanAGB eAGB - Agb.meanAGB sAGB).
  all: destruct (Qlt_le_dec 0 c) as [Hpos|Hle];
    [rewrite (gt_true _ _ Hpos)
    |rewrite (gt_false _ _ Hle);
     destruct (Qlt_le_dec c 0) as [Hneg|Hge];
       [rewrite (lt_true _ _ Hneg) | rewrite (lt_false _ _ Hge)]].
  all: split; intros Hx; first [reflexivity | discriminate Hx | lra].
Qed.

Lemma change_report_is_consistent_witness :
  exists b,
    Agb.POST (Examples.sample_ee []) Examples.sample_request = Http200 b /\
    Agb.status (Agb.body_agbChange b) = "Decrease" /\
    Agb.meanAGBChange (Agb.body_agbChange b) < 0.
Proof.
  assert (E : exists b,
             Agb.POST (Examples.sample_ee []) Examples.sample_request
             = Http200 b /\
             Agb.status (Agb.body_agbChange b) = "Decrease")
    by (eexists; split; reflexivity).
  destruct E as (b & E & Hstatus). exists b. split; [exact E|].
  split; [exact Hstatus|].
  apply (proj1 (proj2 (change_report_is_consistent _ _ _ E))). exact Hstatus.
Defined.

(** *** The Dynamic World branch of the land-cover route *)

Section DynamicWorld.
Context {Image Collection : Type}.
Variable ee : LandCover.EarthEngine Image Collection.

Lemma extend_range_step (g : EE.geometry) (endDate : string)
    (remaining : nat) (m0 : Z) :
  LandCover.extend_range ee g endDate (S remaining) m0 =
  (probe ← history_probe ee g endDate m0;
   if LandCover.has_groups probe.2
   then Ok (Some (probe.1.1, probe.1.2, m0))
   else LandCover.extend_range ee g endDate remaining (m0 + 1)).
Proof.
  cbn [LandCover.extend_range]. unfold history_probe.
  destruct (LandCover.months_before ee endDate m0) as [start|]; [|reflexivity].
  cbn [mbind result_bind].
  destruct (LandCover.getDynamicWorldLandCover ee g start endDate) as [dw|];
    [|reflexivity].
  cbn [mbind result_bind].
  destruct (LandCover.calculateAreaStatistics ee _ g) as [stats|]; reflexivity.
Qed.

Lemma extend_range_Some (g : EE.geometry) (endDate : string)
    (remaining : nat) (m0 : Z) (img : Image) (start : string) (n : Z) :
  LandCover.extend_range ee g endDate remaining m0 = Ok (Some (img, start, n)) ->
  (m0 <= n < m0 + Z.of_nat remaining)%Z /\
  (forall j, (m0 <= j < n)%Z -> no_history ee g endDate j) /\
  exists stats,
    history_probe ee g endDate n = Ok (img, start, stats) /\
    LandCover.has_groups stats = true.
Proof.
  revert m0. induction remaining as [|remaining IH]; intros m0 H;
    [discriminate H|].
  rewrite extend_range_step in H. inv_bind H.
  destruct a as [[img' start'] stats]. cbn [fst snd] in H.
  destruct (LandCover.has_groups stats) eqn:Hg.
  - injection H as -> -> ->. split; [lia|]. split; [intros j Hj; lia|].
    exists stats. auto.
  - destruct (IH _ H) as (Hn & Hbefore & Hat). split; [lia|]. split; [|exact Hat].
    intros j Hj. destruct (decide (j = m0)) as [->|Hne].
    + exists img', start', stats. auto.
    + apply Hbefore. lia.
Qed.

Lemma extend_range_None (g : EE.geometry) (endDate : string)
    (remaining : nat) (m0 : Z) :
  (forall j, (m0 <= j < m0 + Z.of_nat remaining)%Z -> no_history ee g endDate j) ->
  LandCover.extend_range ee g endDate remaining m0 = Ok None.
Proof.
  revert m0. induction remaining as [|remaining IH]; intros m0 H;
    [reflexivity|].
  rewrite extend_range_step.
  destruct (H m0 ltac:(lia)) as (img & start & stats & -> & Hg).
  cbn [mbind result_bind fst snd]. rewrite Hg. apply IH.
  intros j Hj. apply H. lia.
Qed.

Lemma processAreaStatistics_length (stats : LandCover.area_stats)
    (classes : gmap Z string) :
  List.length (LandCover.processAreaStatistics stats classes)
  = List.length (default [] (LandCover.groups stats)).
Proof.
  unfold LandCover.processAreaStatistics.
  destruct (LandCover.groups stats) as [gs|]; [|reflexivity].
  rewrite (Permutation_length (sort_perm LandCover.areaHectares _)).
  apply length_fmap.
Qed.

End DynamicWorld.

(** Property X15.  The Dynamic World branch (the default when both dates are
    given).  A result comes from the shortest history that has data: the
    first number of months [n] from 1 to 12 whose test statistics have a
    group, every shorter range having been read and found empty.  The
    response then reports that range ([n] months back from [endDate]) and
    the Dynamic World classes, carries the confidence note, and its
    [areaStatistics] are those of the test, hence never empty.  When all
    twelve ranges are empty the branch fails with its own error.  The
    request's [startDate] only selects the branch: any other non-empty
    value gives the same answer. *)
Theorem dynamic_world_uses_shortest_history {Image Collection : Type}
    (ee : LandCover.EarthEngine Image Collection) (g : EE.geometry) (y : Z)
    (startDate endDate : string) :
  startDate <> "" -> endDate <> "" ->
  (forall b,
     LandCover.classify ee g y true (Some startDate) (Some endDate) = Ok b ->
     exists n img start stats,
       (1 <= n <= 12)%Z /\
       (forall j, (1 <= j < n)%Z -> no_history ee g endDate j) /\
       history_probe ee g endDate n = Ok (img, start, Some stats) /\
       LandCover.has_groups (Some stats) = true /\
       LandCover.body_classification b
         = LandCover.dynamic_world_classification endDate start n /\
       LandCover.confidence b = Some LandCover.dynamic_world_confidence /\
       LandCover.aiPowered b = true /\
       LandCover.areaStatistics b
         = LandCover.processAreaStatistics stats LandCover.DYNAMIC_WORLD_CLASSES /\
       LandCover.areaStatistics b <> [] /\
       LandCover.getImageUrl ee img g LandCover.dynamic_world_vis
         = Ok (LandCover.imageUrl b)) /\
  ((forall j, (1 <= j <= 12)%Z -> no_history ee g endDate j) ->
   LandCover.classify ee g y true (Some startDate) (Some endDate)
   = Err NoDynamicWorldData) /\
  (forall other, other <> "" ->
     LandCover.classify ee g y true (Some other) (Some endDate)
     = LandCover.classify ee g y true (Some startDate) (Some endDate)).
Proof.
  intros Hs He.
  assert (Htruthy : forall s, s <> "" -> Js.truthy_string (Some s) = true).
  { intros s Hne. unfold Js.truthy_string.
    destruct (String.eqb_spec s ""); [contradiction | reflexivity]. }
  split; [|split].
  - intros b H. unfold LandCover.classify in H.
    rewrite (Htruthy _ Hs), (Htruthy _ He) in H. cbn [andb default] in H.
    inv_bind H. destruct a as [[img cls] conf].
    inv_bind Hrun. destruct a as [[[img' start] n]|]; [|discriminate Hrun].
    injection Hrun as -> <- <-.
    destruct (extend_range_Some _ _ _ _ _ _ _ _ Hrun0)
      as (Hn & Hbefore & stats & Hprobe & Hgroups).
    inv_bind H. rename a into areaStats, Hrun into Harea.
    inv_bind H. rename a into processed, Hrun into Hprocessed.
    inv_bind H. rename a into tiles, Hrun into Hurl.
    injection H as <-.
    cbn [LandCover.body_classification LandCover.confidence LandCover.aiPowered
         LandCover.areaStatistics LandCover.imageUrl].
    assert (Hsame : areaStats = stats).
    { unfold history_probe in Hprobe. inv_bind Hprobe. inv_bind Hprobe.
      inv_bind Hprobe. injection Hprobe as <- <- <-. congruence. }
    subst areaStats.
    destruct stats as [st|]; [|discriminate Hgroups].
    injection Hprocessed as <-.
    exists n, img, start, st.
    split; [change (Z.of_nat 12) with 12%Z in Hn; lia|].
    split; [exact Hbefore|]. split; [exact Hprobe|]. split; [exact Hgroups|].
    split; [reflexivity|]. split; [reflexivity|]. split; [reflexivity|].
    split; [reflexivity|]. split; [|exact Hurl].
    intros Hnil.
    pose proof (processAreaStatistics_length st LandCover.DYNAMIC_WORLD_CLASSES)
      as Hlen.
    cbn [LandCover.classes LandCover.dynamic_world_classification] in Hnil.
    rewrite Hnil in Hlen. cbn [LandCover.has_groups] in Hgroups.
    destruct (LandCover.groups st) as [gs|]; [|discriminate Hgroups].
    change (default [] (Some gs)) with gs in Hlen.
    cbn [List.length] in Hlen. rewrite <- Hlen in Hgroups.
    discriminate Hgroups.
  - intros Hnone. unfold LandCover.classify.
    rewrite (Htruthy _ Hs), (Htruthy _ He). cbn [andb default].
    rewrite extend_range_None; [reflexivity|].
    intros j Hj. apply Hnone. change (Z.of_nat 12) with 12%Z in Hj. lia.
  - intros other Ho. unfold LandCover.classify.
    rewrite (Htruthy _ Hs), (Htruthy _ Ho). reflexivity.
Qed.

Lemma dynamic_world_uses_shortest_history_witness :
  exists b,
    LandCover.classify MoreExamples.sparse_landcover_ee
      Examples.sample_geometry 2021 true (Some "2024-01-01") (Some "2024-06-30")
    = Ok b /\
    LandCover.temporalWindow (LandCover.body_classification b)
    = Some "3 months" /\
    LandCover.areaStatistics b <> [].
Proof.
  assert (E : exists b,
             LandCover.classify MoreExamples.sparse_landcover_ee
               Examples.sample_geometry 2021 true
               (Some "2024-01-01") (Some "2024-06-30") = Ok b /\
             LandCover.temporalWindow (LandCover.body_classification b)
             = Some "3 months")
    by (eexists; split; reflexivity).
  destruct E as (b & E & Hwindow). exists b. split; [exact E|].
  split; [exact Hwindow|].
  destruct (proj1 (dynamic_world_uses_shortest_history
                     MoreExamples.sparse_landcover_ee Examples.sample_geometry
                     2021 "2024-01-01" "2024-06-30"
                     ltac:(discriminate) ltac:(discriminate)) b E)
    as (n & img & start & stats & _ & _ & _ & _ & _ & _ & _ & _ & Hne & _).
  exact Hne.
Defined.

(** *** Areas and labels *)

Lemma totalArea_foldr (l : list LandCover.area_entry) (a : Q) :
  foldl (fun sum item => sum + LandCover.areaHectares item) a l
  == a + foldr (fun item acc => LandCover.areaHectares item + acc) 0 l.
Proof.
  revert a. induction l as [|x l IH]; intros a; simpl; [ring|].
  rewrite IH. ring.
Qed.

Lemma sum_areas_perm (l l' : list LandCover.area_entry) :
  Permutation l l' ->
  foldr (fun item acc => LandCover.areaHectares item + acc) 0 l
  == foldr (fun item acc => LandCover.areaHectares item + acc) 0 l'.
Proof.
  induction 1 as [|x l l' _ IH|x y l|l l' l'' _ IH1 _ IH2]; simpl.
  - reflexivity.
  - rewrite IH. reflexivity.
  - ring.
  - rewrite IH1. exact IH2.
Qed.

Lemma sum_areas_close (classes : gmap Z string) (gs : list LandCover.group) :
  - (inject_Z (Z.of_nat (List.length gs)) * (1 # 200))
  <= foldr (fun item acc => LandCover.areaHectares item + acc) 0
       (LandCover.area_of_group classes <$> gs) - total_hectares gs
  <= inject_Z (Z.of_nat (List.length gs)) * (1 # 200).
Proof.
  induction gs as [|grp gs IH].
  - cbn [fmap list_fmap foldr total_hectares List.length].
    change (inject_Z (Z.of_nat 0)) with 0. split; lra.
  - cbn [fmap list_fmap foldr total_hectares List.length].
    fold (total_hectares gs).
    change (list_fmap _ _ (LandCover.area_of_group classes) gs)
      with (LandCover.area_of_group classes <$> gs).
    rewrite Nat2Z.inj_succ. unfold Z.succ. rewrite inject_Z_plus.
    change (inject_Z 1) with 1.
    cbn [LandCover.area_of_group LandCover.areaHectares].
    pose proof (Math_round_close (LandCover.sum grp / 10000 * 100)) as H1.
    set (z := inject_Z (Js.Math_round (LandCover.sum grp / 10000 * 100))) in *.
    set (s := LandCover.sum grp) in *.
    set (rest := foldr _ 0 _) in *. set (n := inject_Z _) in *.
    set (tot := total_hectares gs) in *.
    clearbody z s rest n tot.
    assert (Hz : z / 100 == z * (1 # 100)) by field.
    assert (Hs : s / 10000 == s * (1 # 10000)) by field.
    rewrite Hs in H1. rewrite Hz, Hs. split; lra.
Qed.

Lemma sum_areas_nonneg (classes : gmap Z string) (gs : list LandCover.group) :
  Forall (fun grp => 0 <= LandCover.sum grp) gs ->
  0 <= foldr (fun item acc => LandCover.areaHectares item + acc) 0
         (LandCover.area_of_group classes <$> gs).
Proof.
  induction 1 as [|grp gs Hgrp _ IH]; [cbn; lra|].
  cbn [fmap list_fmap foldr].
  change (list_fmap _ _ (LandCover.area_of_group classes) gs)
    with (LandCover.area_of_group classes <$> gs).
  cbn [LandCover.area_of_group LandCover.areaHectares].
  assert (Hr : (0 <= Js.Math_round (LandCover.sum grp / 10000 * 100))%Z).
  { unfold Js.Math_round. apply Qfloor_half_ge. change (inject_Z 0) with 0.
    assert (Hs : LandCover.sum grp / 10000 * 100 == LandCover.sum grp * (1 # 100))
      by field.
    rewrite Hs. lra. }
  rewrite Zle_Qle in Hr. change (inject_Z 0) with 0 in Hr.
  set (z := inject_Z _) in *. set (rest := foldr _ 0 _) in *. clearbody z rest.
  assert (Hz : z / 100 == z * (1 # 100)) by field.
  rewrite Hz. lra.
Qed.

(** Property X16.  The polygon area the page puts in the PDF report is the sum
    of the [areaHectares] of the statistics.  [processAreaStatistics] keeps
    one entry per group, so that sum is within 0.005 ha per class of the
    total area of the groups, and it is not negative when no group area is;
    statistics without [groups] give no entry and the sum 0. *)
Theorem exported_total_area_is_close (stats : LandCover.area_stats)
    (classes : gmap Z string) (gs : list LandCover.group) :
  LandCover.groups stats = Some gs ->
  List.length (LandCover.processAreaStatistics stats classes) = List.length gs /\
  - (inject_Z (Z.of_nat (List.length gs)) * (1 # 200))
    <= Dashboard.totalArea (LandCover.processAreaStatistics stats classes)
       - total_hectares gs
    <= inject_Z (Z.of_nat (List.length gs)) * (1 # 200) /\
  (Forall (fun grp => 0 <= LandCover.sum grp) gs ->
   0 <= Dashboard.totalArea (LandCover.processAreaStatistics stats classes)) /\
  (forall none,
     LandCover.groups none = None ->
     LandCover.processAreaStatistics none classes = [] /\
     Dashboard.totalArea (LandCover.processAreaStatistics none classes) == 0).
Proof.
  intros Hgs.
  assert (Hperm : Permutation (LandCover.processAreaStatistics stats classes)
                    (LandCover.area_of_group classes <$> gs)).
  { unfold LandCover.processAreaStatistics. rewrite Hgs.
    apply (sort_perm LandCover.areaHectares). }
  assert (Htotal : Dashboard.totalArea (LandCover.processAreaStatistics stats classes)
                   == foldr (fun item acc => LandCover.areaHectares item + acc) 0
                        (LandCover.area_of_group classes <$> gs)).
  { unfold Dashboard.totalArea. rewrite totalArea_foldr.
    rewrite (sum_areas_perm _ _ Hperm). ring. }
  split; [|split; [|split]].
  - rewrite (Permutation_length Hperm). apply length_fmap.
  - rewrite Htotal. apply sum_areas_close.
  - intros Hpos. rewrite Htotal. now apply sum_areas_nonneg.
  - intros none Hnone. unfold LandCover.processAreaStatistics. rewrite Hnone.
    split; reflexivity.
Qed.

Lemma exported_total_area_is_close_witness :
  List.length (LandCover.processAreaStatistics
                 {| LandCover.groups := Some Examples.sample_groups |}
                 LandCover.LANDCOVER_CLASSES) = 4%nat /\
  0 <= Dashboard.totalArea
         (LandCover.processAreaStatistics
            {| LandCover.groups := Some Examples.sample_groups |}
            LandCover.LANDCOVER_CLASSES).
Proof.
  destruct (exported_total_area_is_close
              {| LandCover.groups := Some Examples.sample_groups |}
              LandCover.LANDCOVER_CLASSES Examples.sample_groups eq_refl)
    as (Hlen & _ & Hpos & _).
  split; [exact Hlen|]. apply Hpos.
  repeat constructor; discriminate.
Defined.

(** Property X17.  Every entry has a label: the name the class table gives to
    its class code, and ['Class ' + code] for a code the table does not
    have (or names with the empty string).  The two tables of the route have
    no empty name, so a code of the table in use is always shown under its
    name. *)
Theorem every_class_has_a_label (classes : gmap Z string)
    (grp : LandCover.group) :
  LandCover.className (LandCover.area_of_group classes grp) <> "" /\
  (forall name, classes !! LandCover.class grp = Some name -> name <> "" ->
     LandCover.className (LandCover.area_of_group classes grp) = name) /\
  (classes !! LandCover.class grp = None \/
   classes !! LandCover.class grp = Some "" ->
   LandCover.className (LandCover.area_of_group classes grp)
   = "Class " +:+ pretty (LandCover.class grp)) /\
  (forall name,
     classes = LandCover.LANDCOVER_CLASSES \/
     classes = LandCover.DYNAMIC_WORLD_CLASSES ->
     classes !! LandCover.class grp = Some name ->
     LandCover.className (LandCover.area_of_group classes grp) = name).
Proof.
  cbn [LandCover.area_of_group LandCover.className]. unfold Js.or_string.
  assert (Hknown : forall name, classes !! LandCover.class grp = Some name ->
            name <> "" ->
            match classes !! LandCover.class grp with
            | Some s => if (s =? "")%string
                        then "Class " +:+ pretty (LandCover.class grp) else s
            | None => "Class " +:+ pretty (LandCover.class grp)
            end = name).
  { intros name -> Hne.
    destruct (String.eqb_spec name ""); [contradiction | reflexivity]. }
  split; [|split; [exact Hknown|split]].
  - destruct (classes !! LandCover.class grp) as [s|]; [|discriminate].
    destruct (String.eqb_spec s ""); [discriminate | assumption].
  - intros [->| ->]; reflexivity.
  - intros name Htable Hname. apply Hknown; [exact Hname|].
    intros ->. destruct Htable as [-> | ->].
    + apply elem_of_list_to_map_2 in Hname.
      repeat (apply elem_of_cons in Hname as [Hname|Hname];
              [discriminate Hname|]).
      apply elem_of_nil in Hname. contradiction.
    + apply elem_of_list_to_map_2 in Hname.
      repeat (apply elem_of_cons in Hname as [Hname|Hname];
              [discriminate Hname|]).
      apply elem_of_nil in Hname. contradiction.
Qed.

(** *** The multi-sensor statistics route *)

Lemma satellite_POST_inv (ee : Satellite.EarthEngine) (req : Satellite.request)
    (b : Satellite.body) :
  Satellite.POST ee req = Http200 b ->
  exists g startDate endDate,
    Satellite.req_geometry req = Some g /\
    Satellite.req_startDate req = Some startDate /\
    Satellite.req_endDate req = Some endDate /\
    Satellite.process ee g startDate endDate
      (default 20 (Satellite.req_cloudCoverMax req)) = Ok b.
Proof.
  unfold Satellite.POST. intros H.
  destruct (Satellite.req_geometry req) as [g|]; [|discriminate].
  destruct (Satellite.req_startDate req) as [s|]; [|discriminate].
  destruct (Satellite.req_endDate req) as [e|]; [|discriminate].
  destruct (Satellite.process ee g s e _) as [b'|] eqn:Hp; [|discriminate].
  injection H as <-. eauto 10.
Qed.

Lemma select3_explicit (img : EE.image) (a b c : string) (r : EE.image) :
  EE.select img [a; b; c] = Ok r ->
  exists ra rb rc : EE.raster,
    r = <[a := ra]> (<[b := rb]> (<[c := rc]> ∅)).
Proof.
  cbn [EE.select]. intros H.
  destruct (img !! a) as [ra|]; [|discriminate].
  destruct (img !! b) as [rb|]; [|discriminate].
  destruct (img !! c) as [rc|]; [|discriminate].
  cbn in H. injection H as <-. eauto.
Qed.

Lemma select1_explicit (img : EE.image) (a : string) (r : EE.image) :
  EE.select img [a] = Ok r -> exists ra : EE.raster, r = <[a := ra]> ∅.
Proof.
  cbn [EE.select]. intros H.
  destruct (img !! a) as [ra|]; [|discriminate].
  cbn in H. injection H as <-. eauto.
Qed.

Lemma satellite_checkGEDI_cases (ee : Satellite.EarthEngine) (g : EE.geometry)
    (s e : Z) :
  (exists gedi, Satellite.checkGEDI ee g s e = (Some gedi, true)) \/
  Satellite.checkGEDI ee g s e = (None, false).
Proof.
  unfold Satellite.checkGEDI.
  destruct (EE.size_evaluate _) as [n|]; [|right; reflexivity].
  destruct (0 <? n)%Z; [left; eauto | right; reflexivity].
Qed.

Lemma process_inv (ee : Satellite.EarthEngine) (g : EE.geometry)
    (startDate endDate : Z) (cloudCoverMax : Q) (b : Satellite.body) :
  Satellite.process ee g startDate endDate cloudCoverMax = Ok b ->
  exists (r1 r2 r3 r4 r5 r6 : EE.raster) (img : EE.image)
         (s2Count s1Count : Z) (hasGEDI : bool),
    (hasGEDI = false /\
     img = EE.addBands
             (<["NDVI" := r1]> (<["EVI" := r2]> (<["LAI" := r3]> ∅)))
             (<["VV" := r4]> (<["VH" := r5]> (<["RVI" := r6]> ∅))) \/
     hasGEDI = true /\
     exists r7 : EE.raster,
       img = EE.addBands
               (EE.addBands
                  (<["NDVI" := r1]> (<["EVI" := r2]> (<["LAI" := r3]> ∅)))
                  (<["VV" := r4]> (<["VH" := r5]> (<["RVI" := r6]> ∅))))
               (<["CanopyHeight" := r7]> ∅)) /\
    (0 <= s2Count)%Z /\ (0 <= s1Count)%Z /\
    b = {| Satellite.statistics := Satellite.reduceRegion ee img g;
           Satellite.dataQuality :=
             {| Satellite.sentinel2Images := s2Count;
                Satellite.sentinel1Images := s1Count;
                Satellite.gediAvailable := hasGEDI |};
           Satellite.dateRange := (startDate, endDate);
           Satellite.warnings :=
             let warnings :=
               (if hasGEDI then [] else [Satellite.warning_gedi])
               ++ (if (s2Count =? 0)%Z then [Satellite.warning_s2] else [])
               ++ (if (s1Count =? 0)%Z then [Satellite.warning_s1] else []) in
             if (0 <? Z.of_nat (List.length warnings))%Z
             then Some warnings else None |}.
Proof.
  unfold Satellite.process. intros H.
  inv_bind H.
  destruct (Satellite.checkGEDI ee g startDate endDate)
    as [gediComposite hasGEDI] eqn:Hgedi.
  inv_bind H. rename a0 into stats, Hrun0 into Hstats.
  inv_bind H. rename a0 into s2Count, Hrun0 into Hs2.
  inv_bind H. rename a0 into s1Count, Hrun0 into Hs1.
  injection H as <-.
  inv_bind Hstats. rename a0 into img, Hrun0 into Himg.
  injection Hstats as <-.
  inv_bind Himg. inv_bind Himg. rename a1 into s2Bands, Hrun1 into Hs2Bands.
  inv_bind Himg. inv_bind Himg. rename a2 into s1Bands, Hrun2 into Hs1Bands.
  destruct (select3_explicit _ _ _ _ _ Hs2Bands) as (r1 & r2 & r3 & ->).
  destruct (select3_explicit _ _ _ _ _ Hs1Bands) as (r4 & r5 & r6 & ->).
  exists r1, r2, r3, r4, r5, r6, img, s2Count, s1Count, hasGEDI.
  split; [|split; [exact (size_evaluate_nonneg _ _ Hs2)
                  |split; [exact (size_evaluate_nonneg _ _ Hs1) | reflexivity]]].
  destruct (satellite_checkGEDI_cases ee g startDate endDate)
    as [[gedi Hc]|Hc]; rewrite Hc in Hgedi; injection Hgedi as <- <-.
  - right. split; [reflexivity|].
    inv_bind Himg. inv_bind Himg. injection Himg as <-.
    destruct (select1_explicit _ _ _ Hrun3) as (r7 & ->). eauto.
  - left. injection Himg as <-. auto.
Qed.

(** Property X18.  The warnings of the statistics route.  A 200 response has
    no [warnings] field exactly when GEDI data was found and both scene
    counts are positive; otherwise the field is a non-empty list that holds
    the GEDI warning exactly when [gediAvailable] is false, the Sentinel-2
    warning exactly when [sentinel2Images] is 0 and the Sentinel-1 warning
    exactly when [sentinel1Images] is 0, in that order and without
    repetition. *)
Theorem satellite_warnings_match_data_quality (ee : Satellite.EarthEngine)
    (req : Satellite.request) (b : Satellite.body) :
  Satellite.POST ee req = Http200 b ->
  (Satellite.warnings b = None <->
   Satellite.gediAvailable (Satellite.dataQuality b) = true /\
   Satellite.sentinel2Images (Satellite.dataQuality b) <> 0%Z /\
   Satellite.sentinel1Images (Satellite.dataQuality b) <> 0%Z) /\
  (forall ws, Satellite.warnings b = Some ws ->
     ws <> [] /\
     (Satellite.warning_gedi ∈ ws <->
      Satellite.gediAvailable (Satellite.dataQuality b) = false) /\
     (Satellite.warning_s2 ∈ ws <->
      Satellite.sentinel2Images (Satellite.dataQuality b) = 0%Z) /\
     (Satellite.warning_s1 ∈ ws <->
      Satellite.sentinel1Images (Satellite.dataQuality b) = 0%Z) /\
     sublist ws
       [Satellite.warning_gedi; Satellite.warning_s2; Satellite.warning_s1]).
Proof.
  intros H.
  destruct (satellite_POST_inv _ _ _ H) as (g & s & e & _ & _ & _ & Hp).
  destruct (process_inv _ _ _ _ _ _ Hp)
    as (r1 & r2 & r3 & r4 & r5 & r6 & img & s2Count & s1Count & hasGEDI
        & _ & _ & _ & ->).
  cbn [Satellite.warnings Satellite.dataQuality Satellite.gediAvailable
       Satellite.sentinel2Images Satellite.sentinel1Images].
  destruct hasGEDI, (Z.eqb_spec s2Count 0) as [E2|E2],
    (Z.eqb_spec s1Count 0) as [E1|E1].
  all: cbn [app].
  all: match goal with
       | |- context [(0 <? Z.of_nat (List.length ?l))%Z] =>
           first [change (0 <? Z.of_nat (List.length l))%Z with true
                 |change (0 <? Z.of_nat (List.length l))%Z with false]
       end.
  all: cbv iota.
  all: split;
    [split; [intros Hx; first [discriminate Hx | auto]
            |intros (Hg & H2 & H1);
             first [reflexivity | discriminate Hg | contradiction]]
    |intros ws Hws; first [discriminate Hws | injection Hws as <-]].
  all: split; [discriminate|].
  all: unfold Satellite.warning_gedi, Satellite.warning_s2,
         Satellite.warning_s1.
  all: split; [|split; [|split]].
  all: try (split; intros Hx;
            first [reflexivity | assumption | solve [in_names]
                  | discriminate Hx | contradiction | not_in_names Hx]).
  all: repeat first [apply sublist_nil | apply sublist_skip | apply sublist_cons].
Qed.

Lemma satellite_warnings_match_data_quality_witness :
  exists b,
    Satellite.POST (MoreExamples.sample_satellite_ee [])
      (Dashboard.satellite_request Examples.sample_geometry (Some 100%Z)
         (Some 200%Z)) = Http200 b /\
    Satellite.warnings b = Some [Satellite.warning_gedi] /\
    Satellite.gediAvailable (Satellite.dataQuality b) = false.
Proof.
  assert (E : exists b,
             Satellite.POST (MoreExamples.sample_satellite_ee [])
               (Dashboard.satellite_request Examples.sample_geometry
                  (Some 100%Z) (Some 200%Z)) = Http200 b /\
             Satellite.warnings b = Some [Satellite.warning_gedi])
    by (eexists; split; reflexivity).
  destruct E as (b & E & Hw). exists b. split; [exact E|]. split; [exact Hw|].
  destruct (proj2 (satellite_warnings_match_data_quality _ _ _ E) _ Hw)
    as (_ & Hgedi & _).
  apply Hgedi. apply list_elem_of_here.
Defined.

(** Property X19.  The statistics dictionary of a 200 response has exactly
    the keys [<band>_mean], [<band>_min] and [<band>_max] for NDVI, EVI, LAI,
    VV, VH and RVI, and for CanopyHeight as well exactly when
    [gediAvailable] is true; so the canopy-height entries the results panel
    reads are undefined precisely when the response says GEDI is not
    available. *)
Theorem statistics_keys (ee : Satellite.EarthEngine)
    (req : Satellite.request) (b : Satellite.body) :
  Satellite.POST ee req = Http200 b ->
  dom (Satellite.statistics b)
  = list_to_set
      (statistic_keys
         (["NDVI"; "EVI"; "LAI"; "VV"; "VH"; "RVI"]
          ++ if Satellite.gediAvailable (Satellite.dataQuality b)
             then ["CanopyHeight"] else [])) /\
  (is_Some (Satellite.statistics b !! "CanopyHeight_mean") <->
   Satellite.gediAvailable (Satellite.dataQuality b) = true).
Proof.
  intros H.
  destruct (satellite_POST_inv _ _ _ H) as (g & s & e & _ & _ & _ & Hp).
  destruct (process_inv _ _ _ _ _ _ Hp)
    as (r1 & r2 & r3 & r4 & r5 & r6 & img & s2Count & s1Count & hasGEDI
        & Himg & _ & _ & ->).
  cbn [Satellite.statistics Satellite.dataQuality Satellite.gediAvailable].
  destruct Himg as [[-> ->] | [-> [r7 ->]]].
  - split; [reflexivity|].
    match goal with
    | |- is_Some (?m !! ?k) <-> _ =>
        assert (Hnone : m !! k = None) by reflexivity; rewrite Hnone
    end.
    split; [intros [v Hv]; discriminate Hv | discriminate].
  - split; [reflexivity|].
    split; [reflexivity | intros _; eexists; reflexivity].
Qed.

Lemma statistics_keys_witness :
  exists b,
    Satellite.POST
      (MoreExamples.sample_satellite_ee [ {| Satellite.gedi_month_time := 150 |} ])
      (Dashboard.satellite_request Examples.sample_geometry (Some 100%Z)
         (Some 200%Z)) = Http200 b /\
    Satellite.gediAvailable (Satellite.dataQuality b) = true /\
    is_Some (Satellite.statistics b !! "CanopyHeight_mean").
Proof.
  assert (E : exists b,
             Satellite.POST
               (MoreExamples.sample_satellite_ee
                  [ {| Satellite.gedi_month_time := 150 |} ])
               (Dashboard.satellite_request Examples.sample_geometry
                  (Some 100%Z) (Some 200%Z)) = Http200 b /\
             Satellite.gediAvailable (Satellite.dataQuality b) = true)
    by (eexists; split; reflexivity).
  destruct E as (b & E & Hgedi). exists b. split; [exact E|].
  split; [exact Hgedi|].
  apply (proj2 (statistics_keys _ _ _ E)). exact Hgedi.
Defined.

(** Property X20.  The Sentinel-2 warning cannot be reached on a platform
    whose median of no scene is an image without bands: when no optical
    scene passes the date and cloud-cover filters, selecting NDVI from the
    composite fails, and the route answers 500 instead of a 200 response
    with the warning 'No Sentinel-2 imagery found in date range'. *)
Theorem no_optical_scene_is_an_error (ee : Satellite.EarthEngine)
    (g : EE.geometry) (startDate endDate : Z) (cloudCoverMax : option Q) :
  Satellite.s2_median ee [] = ∅ ->
  EE.filter_collection
    (fun s => Js.lt (Agb.CLOUDY_PIXEL_PERCENTAGE s) (default 20 cloudCoverMax))
    (Satellite.filterDate Agb.s2_time startDate endDate
       (Satellite.S2_SR_HARMONIZED ee g)) = Ok [] ->
  exists e,
    Satellite.POST ee
      {| Satellite.req_geometry := Some g;
         Satellite.req_startDate := Some startDate;
         Satellite.req_endDate := Some endDate;
         Satellite.req_cloudCoverMax := cloudCoverMax |} = Http500 e.
Proof.
  intros Hempty Hnone. unfold Satellite.POST.
  cbn [Satellite.req_geometry Satellite.req_startDate Satellite.req_endDate
       Satellite.req_cloudCoverMax].
  unfold Satellite.process.
  destruct (Satellite.ensureInitialized ee) as [[]|err]; [|cbn; eauto].
  cbn [mbind result_bind].
  destruct (Satellite.checkGEDI ee g startDate endDate) as [gedi hasGEDI].
  rewrite Hnone. cbn [mbind result_bind]. rewrite Hempty.
  cbn [EE.select]. rewrite lookup_empty. cbn [mbind result_bind]. eauto.
Qed.

Lemma no_optical_scene_is_an_error_witness :
  exists e,
    Satellite.POST (MoreExamples.sample_satellite_ee [])
      {| Satellite.req_geometry := Some Examples.sample_geometry;
         Satellite.req_startDate := Some 100%Z;
         Satellite.req_endDate := Some 200%Z;
         Satellite.req_cloudCoverMax := Some 5 |} = Http500 e.
Proof.
  apply (no_optical_scene_is_an_error (MoreExamples.sample_satellite_ee [])
           Examples.sample_geometry 100 200 (Some 5));
    reflexivity.
Defined.

(** *** Validation *)

(** Property X21.  The three routes validate before they touch the platform.
    The AGB and the statistics route answer 400 with 'Missing required
    parameters: geometry, startDate, endDate' exactly when one of the three
    is missing, the land-cover route answers 400 with 'Missing required
    parameter: geometry' exactly when the geometry is missing, whatever the
    platform is; a complete request is never answered with 400. *)
Theorem incomplete_requests_are_rejected :
  (forall (ee : Agb.EarthEngine) (req : Agb.request),
     (Agb.req_geometry req = None \/ Agb.req_startDate req = None \/
      Agb.req_endDate req = None <->
      Agb.POST ee req
      = Http400 "Missing required parameters: geometry, startDate, endDate") /\
     (forall msg, Agb.POST ee req = Http400 msg ->
        forall ee', Agb.POST ee' req = Http400 msg)) /\
  (forall (ee : Satellite.EarthEngine) (req : Satellite.request),
     (Satellite.req_geometry req = None \/ Satellite.req_startDate req = None \/
      Satellite.req_endDate req = None <->
      Satellite.POST ee req
      = Http400 "Missing required parameters: geometry, startDate, endDate") /\
     (forall msg, Satellite.POST ee req = Http400 msg ->
        forall ee', Satellite.POST ee' req = Http400 msg)) /\
  (forall (Image Collection : Type)
          (ee : LandCover.EarthEngine Image Collection)
          (req : LandCover.request),
     (LandCover.req_geometry req = None <->
      LandCover.POST ee req = Http400 "Missing required parameter: geometry") /\
     (forall msg, LandCover.POST ee req = Http400 msg ->
        forall ee' : LandCover.EarthEngine Image Collection,
          LandCover.POST ee' req = Http400 msg)).
Proof.
  split; [|split].
  - intros ee req. unfold Agb.POST.
    destruct (Agb.req_geometry req) as [g|],
      (Agb.req_startDate req) as [s|], (Agb.req_endDate req) as [e|];
      try (split; [split; [intros _; reflexivity | intros _; auto]
                  |intros msg [= <-] ee'; reflexivity]).
    split.
    + split; [intros [H|[H|H]]; discriminate H|].
      destruct (Agb.calculateAGBForDate ee g s); [|discriminate].
      destruct (Agb.calculateAGBForDate ee g e); discriminate.
    + intros msg. destruct (Agb.calculateAGBForDate ee g s); [|discriminate].
      destruct (Agb.calculateAGBForDate ee g e); discriminate.
  - intros ee req. unfold Satellite.POST.
    destruct (Satellite.req_geometry req) as [g|],
      (Satellite.req_startDate req) as [s|], (Satellite.req_endDate req) as [e|];
      try (split; [split; [intros _; reflexivity | intros _; auto]
                  |intros msg [= <-] ee'; reflexivity]).
    split.
    + split; [intros [H|[H|H]]; discriminate H|].
      destruct (Satellite.process ee g s e _); discriminate.
    + intros msg. destruct (Satellite.process ee g s e _); discriminate.
  - intros Image Collection ee req. unfold LandCover.POST.
    destruct (LandCover.req_geometry req) as [g|].
    + split.
      * split; [discriminate|]. destruct (LandCover.classify _ _ _ _ _ _); discriminate.
      * intros msg. destruct (LandCover.classify _ _ _ _ _ _); discriminate.
    + split; [split; reflexivity | intros msg [= <-] ee'; reflexivity].
Qed.

(** *** The dashboard's requests *)

(** Property X22.  What the dashboard asks for.  Its classification request
    carries no dates, so whatever polygon is drawn the land-cover route
    takes the WorldCover branch: the Dynamic World catalogue is never read
    (another catalogue gives the same answer), the error of the Dynamic
    World search cannot come from the route, and a 200 response describes
    ESA WorldCover for 2021 without a confidence note.  Its statistics
    request always carries a geometry and the cloud-cover limit 20, so it is
    rejected with 400 exactly when one of the page's two dates is empty. *)
Theorem dashboard_requests (geo : EE.geometry) :
  (forall (Image Collection : Type)
          (ee : LandCover.EarthEngine Image Collection),
     (forall dw,
        LandCover.POST (LandCover.with_dynamic_world ee dw)
          (Dashboard.classify_request geo)
        = LandCover.POST ee (Dashboard.classify_request geo)) /\
     (forall b,
        LandCover.POST ee (Dashboard.classify_request geo) = Http200 b ->
        LandCover.body_classification b
          = LandCover.world_cover_classification 2021 /\
        LandCover.confidence b = None) /\
     (forall msg,
        LandCover.POST ee (Dashboard.classify_request geo) <> Http400 msg) /\
     (LandCover.POST ee (Dashboard.classify_request geo)
        = Http500 NoDynamicWorldData ->
      LandCover.getLandCover ee geo 2021 = Err NoDynamicWorldData \/
      (exists img,
         LandCover.getLandCover ee geo 2021 = Ok img /\
         (LandCover.calculateAreaStatistics ee (LandCover.select_Map ee img) geo
            = Err NoDynamicWorldData \/
          LandCover.getImageUrl ee (LandCover.select_Map ee img) geo
            LandCover.dynamic_world_vis = Err NoDynamicWorldData)))) /\
  (forall (ee : Satellite.EarthEngine) (startDate endDate : option Z),
     (startDate = None \/ endDate = None <->
      exists msg,
        Satellite.POST ee (Dashboard.satellite_request geo startDate endDate)
        = Http400 msg) /\
     (forall s e,
        startDate = Some s -> endDate = Some e ->
        Satellite.POST ee (Dashboard.satellite_request geo startDate endDate)
        = match Satellite.process ee geo s e 20 with
          | Ok b => Http200 b
          | Err err => Http500 err
          end)).
Proof.
  split.
  - intros Image Collection ee.
    assert (Hrun : forall ee' : LandCover.EarthEngine Image Collection,
              LandCover.POST ee' (Dashboard.classify_request geo)
              = match
                  (landcoverImage ← LandCover.getLandCover ee' geo 2021;
                   areaStats ← LandCover.calculateAreaStatistics ee'
                                 (LandCover.select_Map ee' landcoverImage) geo;
                   processedStats ←
                     match areaStats with
                     | Some st =>
                         Ok (LandCover.processAreaStatistics st
                               LandCover.LANDCOVER_CLASSES)
                     | None =>
                         Err (TypeError
                                "Cannot read properties of null (reading 'groups')")
                     end;
                   imageUrl ← LandCover.getImageUrl ee'
                                (LandCover.select_Map ee' landcoverImage) geo
                                LandCover.dynamic_world_vis;
                   Ok {| LandCover.body_classification :=
                           LandCover.world_cover_classification 2021;
                         LandCover.areaStatistics := processedStats;
                         LandCover.imageUrl := imageUrl;
                         LandCover.confidence := None;
                         LandCover.aiPowered := true |})
                with
                | Ok b => Http200 b
                | Err e => Http500 e
                end).
    { intros ee'. unfold LandCover.POST, Dashboard.classify_request.
      cbn [LandCover.req_geometry LandCover.req_year
           LandCover.req_useDynamicWorld LandCover.req_startDate
           LandCover.req_endDate default].
      rewrite classify_without_dates by reflexivity. reflexivity. }
    split; [|split; [|split]].
    + intros dw. rewrite !Hrun. reflexivity.
    + intros b Hb. rewrite Hrun in Hb.
      destruct (_ ≫= _) as [b'|] eqn:E in Hb; [|discriminate Hb].
      injection Hb as ->. do 4 inv_bind E. injection E as <-.
      split; reflexivity.
    + intros msg Hb. rewrite Hrun in Hb.
      destruct (_ ≫= _) in Hb; discriminate Hb.
    + intros Hb. rewrite Hrun in Hb.
      destruct (LandCover.getLandCover ee geo 2021) as [img|err] eqn:Himg.
      * right. exists img. split; [reflexivity|].
        cbn [mbind result_bind] in Hb.
        destruct (LandCover.calculateAreaStatistics ee _ geo) as [st|err];
          [|left; cbn in Hb; congruence].
        cbn [mbind result_bind] in Hb.
        destruct st as [st|]; [|discriminate Hb].
        cbn [mbind result_bind] in Hb.
        destruct (LandCover.getImageUrl ee _ geo _) as [tiles|err];
          [discriminate Hb | right; cbn in Hb; congruence].
      * left. cbn in Hb. congruence.
  - intros ee startDate endDate.
    unfold Satellite.POST, Dashboard.satellite_request.
    cbn [Satellite.req_geometry Satellite.req_startDate Satellite.req_endDate
         Satellite.req_cloudCoverMax default].
    split.
    + destruct startDate as [s|], endDate as [e|];
        try (split; [intros _; eexists; reflexivity | intros _; auto]).
      split; [intros [H|H]; discriminate H|].
      intros [msg Hmsg]. destruct (Satellite.process _ _ _ _ _); discriminate.
    + intros s e -> ->. reflexivity.
Qed.

(** *** Footprints, platform errors and rounding *)

Lemma filter_filter_andb {A : Type} (f h : A -> bool) (l : list A) :
  List.filter h (List.filter f l) = List.filter (fun x => f x && h x) l.
Proof.
  induction l as [|x l IH]; [reflexivity|]. cbn [List.filter].
  destruct (f x); cbn [List.filter andb]; [|exact IH].
  destruct (h x); [f_equal|]; exact IH.
Qed.

(** Property X23.  Which footprints count.  [dataQuality.gediFootprints] is
    the number of footprints of the catalogue that lie in the reported
    window and have both [quality_flag] and [degrade_flag] above 0.  A
    footprint whose [degrade_flag] is 0 is therefore never counted: over a
    catalogue of such footprints the count is 0 and the result carries the
    'No GEDI canopy height data available...' warning. *)
Theorem only_flagged_footprints_count (ee : Agb.EarthEngine) (g : EE.geometry)
    (t : Z) (r : Agb.AGBResult) (shots : list Agb.gedi_shot) :
  Agb.calculateAGBForDate ee g t = Ok r ->
  Agb.GEDI02_A_002_MONTHLY ee g = Ok shots ->
  Agb.gediFootprints (Agb.dataQuality r)
  = Z.of_nat
      (List.length
         (List.filter
            (kept_footprint (Agb.actualDateRange r).1 (Agb.actualDateRange r).2)
            shots)) /\
  (Forall (fun f => Agb.degrade_flag f == 0) shots ->
   Agb.gediFootprints (Agb.dataQuality r) = 0%Z /\
   Agb.warnings r = [Agb.warning_no_gedi]).
Proof.
  intros H Hshots. unfold Agb.calculateAGBForDate in H.
  inv_bind H. rename a into L, Hrun into HL.
  do 13 inv_bind H. injection H as <-.
  cbn [Agb.dataQuality Agb.gediFootprints Agb.actualDateRange Agb.warnings
       fst snd].
  rename a10 into gediCount, Hrun10 into Hcount.
  pose proof (buildLayers_inv _ _ _ _ HL) as (_ & Hinit & Hgedi & _).
  set (s := Agb.startDate (Agb.window L)) in *.
  set (e := Agb.endDate (Agb.window L)) in *.
  assert (Hcheck : Agb.checkGEDI ee g s e =
            let kept := List.filter (kept_footprint s e) shots in
            {| Agb.gediHeight :=
                 Some (Ok (EE.rename "CanopyHeight" (Agb.gedi_raster ee g kept)));
               Agb.gediCollection := Some (Ok kept);
               Agb.hasCanopyHeight :=
                 negb (Z.of_nat (List.length kept) =? 0)%Z;
               Agb.gedi_warnings :=
                 if (Z.of_nat (List.length kept) =? 0)%Z
                 then [Agb.warning_no_gedi] else [] |}).
  { unfold Agb.checkGEDI, Agb.getGEDICanopyHeight. rewrite Hinit, Hshots.
    cbn [mbind result_bind EE.filter_collection EE.size_evaluate].
    assert (Hkept :
      List.filter (fun f => Js.gt (Agb.degrade_flag f) 0)
        (List.filter (fun f => Js.gt (Agb.quality_flag f) 0)
           (List.filter (fun f => EE.in_date_range s e (Agb.gedi_time f)) shots))
      = List.filter (kept_footprint s e) shots).
    { rewrite !filter_filter_andb. apply filter_ext. intros f.
      unfold kept_footprint. now rewrite andb_assoc. }
    rewrite Hkept. cbv zeta. destruct (_ =? 0)%Z; reflexivity. }
  rewrite Hgedi, Hcheck in Hcount |- *. cbv zeta in Hcount |- *.
  cbn [Agb.hasCanopyHeight Agb.gediCollection Agb.gedi_warnings] in Hcount |- *.
  set (kept := List.filter (kept_footprint s e) shots) in *.
  assert (Hn : gediCount = Z.of_nat (List.length kept)).
  { destruct (Z.eqb_spec (Z.of_nat (List.length kept)) 0) as [E|E];
      cbn [negb] in Hcount.
    - injection Hcount as <-. symmetry. exact E.
    - cbn [EE.size_evaluate mbind result_bind] in Hcount.
      injection Hcount as <-. reflexivity. }
  split; [exact Hn|].
  intros Hdeg.
  assert (Hkept : kept = []).
  { unfold kept. clear -Hdeg. induction Hdeg as [|f l Hf _ IH]; [reflexivity|].
    cbn [List.filter]. unfold kept_footprint at 1.
    rewrite (gt_false (Agb.degrade_flag f) 0) by (rewrite Hf; lra).
    rewrite andb_false_r. exact IH. }
  rewrite Hn, Hkept. split; reflexivity.
Qed.

Lemma only_flagged_footprints_count_witness :
  exists r,
    Agb.calculateAGBForDate (Examples.sample_ee [MoreExamples.clean_shot])
      Examples.sample_geometry Examples.sample_target = Ok r /\
    Agb.gediFootprints (Agb.dataQuality r) = 0%Z /\
    Agb.warnings r = [Agb.warning_no_gedi].
Proof.
  assert (E : exists r,
             Agb.calculateAGBForDate (Examples.sample_ee [MoreExamples.clean_shot])
               Examples.sample_geometry Examples.sample_target = Ok r)
    by (eexists; reflexivity).
  destruct E as (r & E). exists r. split; [exact E|].
  apply (proj2 (only_flagged_footprints_count _ _ _ _
                  [MoreExamples.clean_shot] E eq_refl)).
  repeat constructor.
Defined.

(** Property X24.  An error of the platform is not taken for missing data:
    when the optical catalogue over the polygon cannot be read,
    [findClosestDataWindow] fails at its first iteration with the
    platform's error, whatever the bound, and not with 'No satellite data
    found...'; the date's computation fails with it, and every request
    with two dates over that polygon is answered 500 with it. *)
Theorem platform_error_stops_the_search (ee : Agb.EarthEngine)
    (g : EE.geometry) (e : error) :
  Agb.S2_SR_HARMONIZED ee g = Err e ->
  (forall t m, (0 < m)%Z -> Agb.findClosestDataWindow ee g t m = Err e) /\
  (forall t, Agb.calculateAGBForDate ee g t = Err e) /\
  (forall first second,
     Agb.POST ee {| Agb.req_geometry := Some g;
                    Agb.req_startDate := Some first;
                    Agb.req_endDate := Some second |} = Http500 e).
Proof.
  intros Hdown.
  assert (Hsearch : forall t m, (0 < m)%Z ->
            Agb.findClosestDataWindow ee g t m = Err e).
  { intros t m Hm. unfold Agb.findClosestDataWindow.
    destruct (Z.to_nat (m * 4)) as [|remaining] eqn:Hn; [lia|].
    cbn [Agb.search_windows]. unfold Agb.s2Test. rewrite Hdown. reflexivity. }
  assert (Hdate : forall t, Agb.calculateAGBForDate ee g t = Err e).
  { intros t. unfold Agb.calculateAGBForDate, Agb.buildLayers.
    rewrite (Hsearch t 3%Z) by lia. reflexivity. }
  split; [exact Hsearch|]. split; [exact Hdate|].
  intros first second. unfold Agb.POST.
  cbn [Agb.req_geometry Agb.req_startDate Agb.req_endDate].
  rewrite (Hdate first). reflexivity.
Qed.

Lemma platform_error_stops_the_search_witness :
  Agb.POST MoreExamples.optical_down_ee Examples.sample_request
  = Http500 (RemoteError "Collection.load: quota exceeded").
Proof.
  apply (proj2 (proj2 (platform_error_stops_the_search
                         MoreExamples.optical_down_ee Examples.sample_geometry
                         (RemoteError "Collection.load: quota exceeded")
                         eq_refl))).
Defined.

Lemma toFixed_close (d : nat) (x : Q) :
  - ((1 # 2) / Js.pow10 d) <= Js.toFixed d x - x <= (1 # 2) / Js.pow10 d.
Proof.
  pose proof (pow10_pos d) as Hp.
  assert (Hclose : forall y,
            - ((1 # 2) / Js.pow10 d)
            <= inject_Z (Qfloor (y * Js.pow10 d + (1 # 2))) / Js.pow10 d - y
            <= (1 # 2) / Js.pow10 d).
  { intros y.
    pose proof (Qfloor_le (y * Js.pow10 d + (1 # 2))) as Hlo.
    pose proof (Qlt_floor (y * Js.pow10 d + (1 # 2))) as Hhi.
    rewrite inject_Z_plus in Hhi. change (inject_Z 1) with 1 in Hhi.
    set (z := inject_Z (Qfloor (y * Js.pow10 d + (1 # 2)))) in *.
    assert (Heq : z / Js.pow10 d - y == (z - y * Js.pow10 d) / Js.pow10 d)
      by (field; lra).
    rewrite Heq. split.
    - assert (H1 : - ((1 # 2) / Js.pow10 d) == (- (1 # 2)) / Js.pow10 d)
        by (field; lra).
      rewrite H1. apply Qle_shift_div_l; [exact Hp|].
      assert (H2 : - (1 # 2) / Js.pow10 d * Js.pow10 d == - (1 # 2))
        by (field; lra).
      rewrite H2. lra.
    - apply Qle_shift_div_l; [exact Hp|].
      assert (H2 : (z - y * Js.pow10 d) / Js.pow10 d * Js.pow10 d
                   == z - y * Js.pow10 d) by (field; lra).
      rewrite H2. lra. }
  unfold Js.toFixed. destruct (Qle_bool 0 x).
  - apply Hclose.
  - destruct (Hclose (- x)) as [H1 H2]. split; lra.
Qed.

(** Property X25.  Rounding loses at most half a unit of the last digit: the
    reported mean, minimum and maximum AGB are each within 0.005 t/ha of
    the statistic of the clamped AGB band over the polygon. *)
Theorem reported_agb_is_close (ee : Agb.EarthEngine) (g : EE.geometry)
    (t : Z) (r : Agb.AGBResult) :
  Agb.calculateAGBForDate ee g t = Ok r ->
  exists L agb band,
    Agb.buildLayers ee g t = Ok L /\ Agb.agbImage L = Ok agb /\
    agb !! "AGB" = Some band /\
    - (1 # 200) <= Agb.meanAGB r - Agb.mean (stats_of ee band g) <= 1 # 200 /\
    - (1 # 200) <= Agb.minAGB r - Agb.min (stats_of ee band g) <= 1 # 200 /\
    - (1 # 200) <= Agb.maxAGB r - Agb.max (stats_of ee band g) <= 1 # 200.
Proof.
  intros H.
  destruct (agb_statistics_inv _ _ _ _ H)
    as (L & agb & band & HL & Hagb & Hband & _ & -> & -> & ->).
  exists L, agb, band. split; [exact HL|]. split; [exact Hagb|].
  split; [exact Hband|].
  assert (Hhalf : (1 # 2) / Js.pow10 2 == 1 # 200) by reflexivity.
  pose proof (toFixed_close 2 (Agb.mean (stats_of ee band g))) as H1.
  pose proof (toFixed_close 2 (Agb.min (stats_of ee band g))) as H2.
  pose proof (toFixed_close 2 (Agb.max (stats_of ee band g))) as H3.
  rewrite Hhalf in H1, H2, H3. auto.
Qed.

Lemma reported_agb_is_close_witness :
  exists r band,
    Agb.calculateAGBForDate (Examples.sample_ee [])
      Examples.sample_geometry Examples.sample_target = Ok r /\
    - (1 # 200) <= Agb.meanAGB r - Agb.mean (stats_of (Examples.sample_ee []) band
                                              Examples.sample_geometry)
    <= 1 # 200.
Proof.
  assert (E : exists r,
             Agb.calculateAGBForDate (Examples.sample_ee [])
               Examples.sample_geometry Examples.sample_target = Ok r)
    by (eexists; reflexivity).
  destruct E as (r & E).
  destruct (reported_agb_is_close _ _ _ _ E)
    as (L & agb & band & _ & _ & _ & Hmean & _).
  exists r, band. split; [exact E | exact Hmean].
Defined.
